(** * Identity resolution and access scoping of the school-management backend

    A shallow embedding of the authentication middleware, of the profile
    resolver and of the per-route scope computations of the REST backend,
    together with the properties its design document states about them.

    Conventions of the embedding:
    - a Prisma table is a [list] of records ([findMany] is [filter],
      [findFirst] is the first element of the filtered list); the fee table,
      which is read and updated through its primary key, is a [gmap];
    - a JavaScript value that may be [undefined] or [null] is an [option];
      a query parameter is an [option string] and is "truthy" when it is
      present and not the empty string;
    - the route handlers take [userProfile.id] as a string: they are
      modelled for the profiles that carry an id (every row of the five
      tables and the temporary student profile);
    - a middleware either calls [next()] with the (updated) request or
      answers with an HTTP status;
    - [BigInt] values are [Z];
    - the order of the rows a query returns is not modelled beyond the order
      of the underlying list. *)

From stdpp Require Import base decidable option list strings gmap.
From Stdlib Require Import ZArith Ascii.

Local Open Scope string_scope.
Local Open Scope Z_scope.

(** ** Data model (the Prisma records, with the fields the routes read) *)

Record Student := {
  student_id : string;           (* Student.id, equal to the external id *)
  student_username : string;
  student_name : string;
  StudentId : string;            (* human-readable roll number *)
  parentId : option string
}.

Record Teacher := {
  teacher_id : string; teacher_username : string; teacher_name : string }.
Record Parent := {
  parent_id : string; parent_username : string; parent_name : string }.
Record Admin := { admin_id : string; admin_username : string }.
Record Accountant := {
  accountant_id : string; accountant_username : string;
  accountant_name : string }.

Record Class := {
  class_id : Z;
  class_name : string;
  supervisorId : option string
}.

Record Lesson := {
  lesson_id : Z;
  lesson_classId : Z;
  lesson_teacherId : string
}.

(** [Enrollment.studentId] references [Student.StudentId] (the seed script
    enrols [students[i].StudentId]). *)
Record Enrollment := {
  enrollment_studentId : string;
  enrollment_classId : Z;
  leftAt : option Z
}.

Inductive FeeStatus := UNPAID | PARTIAL | PAID | OVERDUE.

Record Fee := {
  fee_studentId : string;        (* references Student.id *)
  totalAmount : Z;
  paidAmount : Z;
  status : FeeStatus;
  dueDate : Z;
  fee_createdAt : Z
}.

Record Payment := {
  payment_amount : Z;
  payment_method : string;
  payment_reference : string;
  payment_feeId : Z
}.

Record Result := {
  result_id : Z;
  result_studentId : string;     (* references Student.id *)
  result_examId : option Z;
  score : Z
}.

Inductive AttendanceStatus := PRESENT | ABSENT | LATE.

Record Attendance := {
  attendance_studentId : string;
  attendance_classId : Z;
  attendance_status : AttendanceStatus
}.

Record Db := {
  students : list Student;
  teachers : list Teacher;
  parents : list Parent;
  admins : list Admin;
  accountants : list Accountant;
  classes : list Class;
  lessons : list Lesson;
  enrollments : list Enrollment;
  fees : gmap Z Fee;
  payments : list Payment;
  results : list Result;
  attendances : list Attendance
}.

#[global] Instance FeeStatus_eq_dec : EqDecision FeeStatus.
Proof. solve_decision. Defined.

(** ** JavaScript and Prisma helpers *)

(** [prisma.x.findFirst({ where: P })]. *)
Definition findFirst {A} (P : A → Prop) `{∀ x, Decision (P x)}
    (table : list A) : option A :=
  head (filter P table).

(** Truthiness of an optional string ([if (studentId)], [a ? b : c]). *)
Definition truthy (q : option string) : option string :=
  match q with
  | Some s => if decide (s = "") then None else Some s
  | None => None
  end.

(** [x || d] on optional strings. *)
Definition or_else (q : option string) (d : string) : string :=
  default d (truthy q).

(** [String.prototype.toLowerCase] on the ASCII range; bytes outside it are
    kept as they are (no character outside ASCII lower-cases to a letter of
    one of the five role names). *)
Definition lower_ascii (c : ascii) : ascii :=
  let n := nat_of_ascii c in
  if decide (65 ≤ n ≤ 90)%nat then ascii_of_nat (n + 32) else c.

Fixpoint toLowerCase (s : string) : string :=
  match s with
  | EmptyString => EmptyString
  | String c rest => String (lower_ascii c) (toLowerCase rest)
  end.

(** The test of [requireRole(allowedRoles)]:
    [!(!req.userRole || !allowedRoles.includes(req.userRole))]. *)
Definition roleAllowed (allowedRoles : list string)
    (userRole : option string) : bool :=
  match truthy userRole with
  | Some r => bool_decide (r ∈ allowedRoles)
  | None => false
  end.

(** The outcome of a route handler: a JSON body with status 200, or an error
    status with its message. *)
Inductive Outcome (A : Type) :=
  | Success (data : A)
  | Failure (status : Z) (error : string).
Arguments Success {A} data.
Arguments Failure {A} status error.

Definition status_of {A} (o : Outcome A) : Z :=
  match o with Success _ => 200 | Failure st _ => st end.

(** ** Relationship queries shared by the routes *)

(** [prisma.student.findMany({ where: { parentId }, select: { id } })]
    followed by [children.map(child => child.id)]. *)
Definition children (db : Db) (pid : string) : list Student :=
  filter (λ s, parentId s = Some pid) (students db).

Definition childrenIds (db : Db) (pid : string) : list string :=
  student_id <$> children db pid.

(** [prisma.student.findMany({ select: { id } })] and [.map(s => s.id)]. *)
Definition allStudentIds (db : Db) : list string :=
  student_id <$> students db.

(** [prisma.class.findMany({ where: { supervisorId } })]. *)
Definition supervisedClasses (db : Db) (pid : string) : list Class :=
  filter (λ c, supervisorId c = Some pid) (classes db).

(** The [students] relation of a class: its enrollments. *)
Definition classEnrollments (db : Db) (c : Class) : list Enrollment :=
  filter (λ e, enrollment_classId e = class_id c) (enrollments db).

(** The [student] relation of an enrollment. *)
Definition enrollmentStudent (db : Db) (e : Enrollment) : option Student :=
  findFirst (λ s, StudentId s = enrollment_studentId e) (students db).

(** [where: { studentId: { in: ids } }] on the fee table. *)
Definition feesOf (db : Db) (ids : list string) : list (Z * Fee) :=
  filter (λ kf, fee_studentId kf.2 ∈ ids) (map_to_list (fees db)).

(** ** Fees router *)

Module FeesRouter.

(** GET /history, the block under "Determine which students the user can
    access". [userRole] is [req.userRole], [pid] is [userProfile.id] and
    [studentId] is [req.query.studentId]. *)
Definition targetStudentIds (db : Db) (userRole : option string)
    (pid : string) (studentId : option string) : list string :=
  if decide (userRole = Some "student") then [pid]
  else if decide (userRole = Some "parent") then childrenIds db pid
  else if decide (userRole = Some "admin" ∨ userRole = Some "accountant")
  then match truthy studentId with
       | Some sid => [sid]
       | None => allStudentIds db
       end
  else [].

(** The list given to [studentId: { in: ... }] in the fee query; [None]
    when the handler answers with an empty list before querying. *)
Definition historyFilter (db : Db) (userRole : option string)
    (pid : string) (studentId : option string) : option (list string) :=
  let target := targetStudentIds db userRole pid studentId in
  if decide (length target = 0%nat) then None
  else Some (match truthy studentId with
             | Some sid => [sid]
             | None => target
             end).

(** GET /history: the fees returned to the caller. *)
Definition history (db : Db) (userRole : option string)
    (pid : string) (studentId : option string) : Outcome (list (Z * Fee)) :=
  match historyFilter db userRole pid studentId with
  | None => Success []
  | Some ids => Success (feesOf db ids)
  end.

(** [prisma.fee.findFirst({ where: { id: feeId, studentId: ... } })]. *)
Definition findFee (db : Db) (feeId : Z) (owner : string → Prop)
    `{∀ sid, Decision (owner sid)} : option Fee :=
  match fees db !! feeId with
  | Some fee => if decide (owner (fee_studentId fee)) then Some fee else None
  | None => None
  end.

(** The [data] of [prisma.fee.update]: two columns are written. *)
Definition setPaid (newPaidAmount : Z) (newStatus : FeeStatus)
    (fee : Fee) : Fee :=
  {| fee_studentId := fee_studentId fee;
     totalAmount := totalAmount fee;
     paidAmount := newPaidAmount;
     status := newStatus;
     dueDate := dueDate fee;
     fee_createdAt := fee_createdAt fee |}.

Definition writePayment (db : Db) (payment : Payment) (feeId : Z)
    (newPaidAmount : Z) (newStatus : FeeStatus) : Db :=
  {| students := students db; teachers := teachers db;
     parents := parents db; admins := admins db;
     accountants := accountants db; classes := classes db;
     lessons := lessons db; enrollments := enrollments db;
     fees := alter (setPaid newPaidAmount newStatus) feeId (fees db);
     payments := payments db ++ [payment];
     results := results db; attendances := attendances db |}.

(** POST /payment behind [requireRole(['student', 'parent'])]. [amount]
    is [BigInt(req.body.amount)], [None] when the conversion throws. The
    two writes are taken to go through; [PaymentWrites.payment] is the
    handler with writes that can throw. *)
Definition payment (db : Db) (userRole : option string) (pid : string)
    (feeId : Z) (amount : option Z) (method reference : string)
    : Db * Outcome (Payment * FeeStatus) :=
  if negb (roleAllowed ["student"; "parent"] userRole)
  then (db, Failure 403 "Insufficient permissions")
  else
    let fee :=
      if decide (userRole = Some "student")
      then findFee db feeId (λ sid, sid = pid)
      else if decide (userRole = Some "parent")
      then findFee db feeId (λ sid, sid ∈ childrenIds db pid)
      else None in
    match fee with
    | None => (db, Failure 404 "Fee not found or access denied")
    | Some fee =>
        match amount with
        | None => (db, Failure 500 "Failed to process payment")
        | Some a =>
            let payment := {| payment_amount := a;
                              payment_method := method;
                              payment_reference := reference;
                              payment_feeId := feeId |} in
            let newPaidAmount := paidAmount fee + a in
            let newStatus :=
              if decide (totalAmount fee ≤ newPaidAmount)
              then PAID else PARTIAL in
            (writePayment db payment feeId newPaidAmount newStatus,
             Success (payment, newStatus))
        end
    end.

End FeesRouter.

(** ** Exams router *)

Module ExamsRouter.

(** The teacher branch of GET /results: classes found by [supervisorId],
    then [cls.students.map(e => e.student?.id).filter(id => !!id)]. *)
Definition teacherStudentIds (db : Db) (pid : string) : list string :=
  supervisedClasses db pid ≫= λ cls,
    omap (λ e, truthy (student_id <$> enrollmentStudent db e))
         (classEnrollments db cls).

(** GET /results, "Determine which students the user can access". *)
Definition targetStudentIds (db : Db) (userRole : option string)
    (pid : string) (studentId : option string) : list string :=
  if decide (userRole = Some "student") then [pid]
  else if decide (userRole = Some "parent") then childrenIds db pid
  else if decide (userRole = Some "teacher") then teacherStudentIds db pid
  else if decide (userRole = Some "admin")
  then match truthy studentId with
       | Some sid => [sid]
       | None => allStudentIds db
       end
  else [].

(** The list given to [whereClause.studentId.in]. *)
Definition resultsFilter (db : Db) (userRole : option string)
    (pid : string) (studentId : option string) : option (list string) :=
  let target := targetStudentIds db userRole pid studentId in
  if decide (length target = 0%nat) then None
  else Some (match truthy studentId with
             | Some sid => [sid]
             | None => target
             end).

(** GET /results; [examId] is the already parsed [req.query.examId]. *)
Definition getResults (db : Db) (userRole : option string)
    (pid : string) (studentId : option string) (examId : option Z)
    : Outcome (list Result) :=
  match resultsFilter db userRole pid studentId with
  | None => Success []
  | Some ids =>
      let rows := filter (λ r, result_studentId r ∈ ids) (results db) in
      Success (match examId with
               | Some e => filter (λ r, result_examId r = Some e) rows
               | None => rows
               end)
  end.

(** GET /report-card, "Determine which student the user can access". *)
Definition reportCardTarget (db : Db) (userRole : option string)
    (pid : string) (studentId : option string) : Outcome string :=
  if decide (userRole = Some "student") then Success pid
  else if decide (userRole = Some "parent") then
    match truthy studentId with
    | None => Failure 400 "Student ID is required for parents"
    | Some sid =>
        match findFirst (λ s, student_id s = sid ∧ parentId s = Some pid)
                        (students db) with
        | None => Failure 403 "Access denied to this student"
        | Some child => Success (student_id child)
        end
    end
  else if decide (userRole = Some "admin" ∨ userRole = Some "teacher") then
    match truthy studentId with
    | None => Failure 400 "Student ID is required"
    | Some sid => Success sid
    end
  else Failure 403 "Access denied".

(** GET /report-card up to its two queries: the student record and the
    rows of the result query. The handler then groups the rows by
    subject, see [ReportCard.response]. *)
Definition reportCard (db : Db) (userRole : option string)
    (pid : string) (studentId : option string)
    : Outcome (Student * list Result) :=
  match reportCardTarget db userRole pid studentId with
  | Failure st e => Failure st e
  | Success target =>
      match findFirst (λ s, student_id s = target) (students db) with
      | None => Failure 404 "Student not found"
      | Some student =>
          Success (student,
                   filter (λ r, result_studentId r = target) (results db))
      end
  end.

End ExamsRouter.

(** ** Attendance router *)

Module AttendanceRouter.

(** The teacher branch of /summary, /trend and /report:
    [cls.students.map(enrollment => enrollment.studentId)]. *)
Definition teacherStudentIds (db : Db) (pid : string) : list string :=
  supervisedClasses db pid ≫= λ cls,
    enrollment_studentId <$> classEnrollments db cls.

(** GET /summary, "Determine which students the user can access"; the
    route reads no [studentId] parameter. *)
Definition summaryTargetStudentIds (db : Db) (userRole : option string)
    (pid : string) : list string :=
  if decide (userRole = Some "student") then [pid]
  else if decide (userRole = Some "parent") then childrenIds db pid
  else if decide (userRole = Some "teacher") then teacherStudentIds db pid
  else if decide (userRole = Some "admin") then allStudentIds db
  else [].

Definition summaryFilter (db : Db) (userRole : option string)
    (pid : string) : option (list string) :=
  let target := summaryTargetStudentIds db userRole pid in
  if decide (length target = 0%nat) then None else Some target.

(** GET /report, "Determine which students the user can access". *)
Definition reportTargetStudentIds (db : Db) (userRole : option string)
    (pid : string) (studentId : option string) : list string :=
  if decide (userRole = Some "student") then [pid]
  else if decide (userRole = Some "parent") then childrenIds db pid
  else if decide (userRole = Some "teacher") then teacherStudentIds db pid
  else if decide (userRole = Some "admin")
  then match truthy studentId with
       | Some sid => [sid]
       | None => allStudentIds db
       end
  else [].

Definition reportFilter (db : Db) (userRole : option string)
    (pid : string) (studentId : option string) : option (list string) :=
  let target := reportTargetStudentIds db userRole pid studentId in
  if decide (length target = 0%nat) then None
  else Some (match truthy studentId with
             | Some sid => [sid]
             | None => target
             end).

End AttendanceRouter.

(** ** Teachers router *)

Module TeachersRouter.

(** [lessons: { some: { teacherId } }] for one class. *)
Definition teaches (db : Db) (tid : string) (c : Class) : Prop :=
  Exists (λ l, lesson_classId l = class_id c ∧ lesson_teacherId l = tid)
         (lessons db).

(** GET /classes: [where: { OR: [{ supervisorId }, { lessons: some }] }]. *)
Definition getClasses (db : Db) (tid : string) : list Class :=
  filter (λ c, supervisorId c = Some tid ∨ teaches db tid c) (classes db).

(** The roster the response includes for those classes
    ([include: { students: { include: { student: true } } }]). *)
Definition roster (db : Db) (tid : string) : list Student :=
  getClasses db tid ≫= λ cls,
    omap (enrollmentStudent db) (classEnrollments db cls).

End TeachersRouter.

(** ** Parents router *)

Module ParentsRouter.

(** The list given to [whereClause.studentId.in] by GET
    /children/attendance; [None] when the parent has no children. *)
Definition childrenAttendanceFilter (db : Db) (pid : string)
    (childId : option string) : option (list string) :=
  let children := children db pid in
  if decide (length children = 0%nat) then None
  else Some (match truthy childId with
             | Some cid => [cid]
             | None => student_id <$> children
             end).

(** GET /children/attendance called without a date range; [limit] is the
    parsed [limit] parameter. *)
Definition childrenAttendance (db : Db) (pid : string)
    (childId : option string) (limit : nat) : Outcome (list Attendance) :=
  match childrenAttendanceFilter db pid childId with
  | None => Success []
  | Some ids =>
      Success (take limit
                 (filter (λ a, attendance_studentId a ∈ ids)
                         (attendances db)))
  end.

End ParentsRouter.

(** ** Requests, profiles and the identity provider *)

(** What [req.userProfile] can hold: a row of one of the five profile
    tables, or one of the two temporary objects built from the provider's
    data. *)
Inductive Profile :=
  | StudentProfile (s : Student)
  | TeacherProfile (t : Teacher)
  | ParentProfile (p : Parent)
  | AdminProfile (a : Admin)
  | AccountantProfile (a : Accountant)
  | TemporaryStudent (id username name : string) (email : option string)
  | TemporaryProfile (username name : string) (email : option string).

Record AuthenticatedRequest := {
  authorization : option string;   (* req.headers.authorization *)
  userId : option string;
  userRole : option string;
  userEmail : option string;
  signInId : option string;
  userProfile : option Profile
}.

Inductive MiddlewareResult :=
  | Next (req : AuthenticatedRequest)
  | Respond (status : Z) (error : string).

Definition response_status (r : MiddlewareResult) : option Z :=
  match r with Next _ => None | Respond st _ => Some st end.

(** The fields of a Clerk user the backend reads. *)
Record ClerkUser := {
  clerk_id : string;
  fullName : option string;
  firstName : option string;
  primaryEmailAddress : option string;
  emailAddresses : list string;
  imageUrl : string;
  publicMetadata_role : option string
}.

Record JWTPayload := {
  jwt_userId : string;
  jwt_email : string;
  jwt_role : string
}.

Definition roleNames : list string :=
  ["student"; "teacher"; "parent"; "admin"; "accountant"].

(** ** Profile resolution (the Clerk-based [getUserProfile] middleware) *)

Module ClerkMiddleware.

Definition withProfile (req : AuthenticatedRequest) (role : string)
    (profile : Profile) : AuthenticatedRequest :=
  {| authorization := authorization req;
     userId := userId req;
     userRole := Some role;
     userEmail := userEmail req;
     signInId := signInId req;
     userProfile := Some profile |}.

(** The body of the 404 answer. *)
Definition profileNotFound : string :=
  "User not found in database. Please contact administrator to add your account.".

(** [clerkUser.fullName || clerkUser.firstName || 'User']. *)
Definition displayName (clerkUser : ClerkUser) : string :=
  or_else (fullName clerkUser) (or_else (firstName clerkUser) "User").

(** The [else] branch taken when no table holds the id. [getUser] is
    [clerkClient.users.getUser], [None] when it throws. *)
Definition metadataFallback (db : Db) (getUser : string → option ClerkUser)
    (req : AuthenticatedRequest) (uid : string) : MiddlewareResult :=
  match getUser uid with
  | None =>
      Respond 500
        "Failed to verify user account. Please contact administrator."
  | Some clerkUser =>
      let publicRole := toLowerCase <$> publicMetadata_role clerkUser in
      match truthy publicRole with
      | Some role =>
          if decide (role ∈ roleNames) then
            if decide (role = "student") then
              match findFirst (λ s, student_id s = uid) (students db) with
              | Some student =>
                  Next (withProfile req role (StudentProfile student))
              | None =>
                  Next (withProfile req role
                          (TemporaryStudent uid uid (displayName clerkUser)
                             (primaryEmailAddress clerkUser)))
              end
            else
              Next (withProfile req role
                      (TemporaryProfile uid (displayName clerkUser)
                         (primaryEmailAddress clerkUser)))
          else
            Respond 404 profileNotFound
      | None =>
          Respond 404 profileNotFound
      end
  end.

Definition getUserProfile (db : Db) (getUser : string → option ClerkUser)
    (req : AuthenticatedRequest) : MiddlewareResult :=
  match truthy (userId req) with
  | None => Respond 401 "User ID not found"
  | Some uid =>
      let student := findFirst (λ s, student_id s = uid) (students db) in
      let teacher := findFirst (λ t, teacher_id t = uid) (teachers db) in
      let parent := findFirst (λ p, parent_id p = uid) (parents db) in
      let admin := findFirst (λ a, admin_id a = uid) (admins db) in
      let accountant :=
        findFirst (λ a, accountant_id a = uid) (accountants db) in
      match student, teacher, parent, admin, accountant with
      | Some s, _, _, _, _ =>
          Next (withProfile req "student" (StudentProfile s))
      | None, Some t, _, _, _ =>
          Next (withProfile req "teacher" (TeacherProfile t))
      | None, None, Some p, _, _ =>
          Next (withProfile req "parent" (ParentProfile p))
      | None, None, None, Some a, _ =>
          Next (withProfile req "admin" (AdminProfile a))
      | None, None, None, None, Some a =>
          Next (withProfile req "accountant" (AccountantProfile a))
      | None, None, None, None, None => metadataFallback db getUser req uid
      end
  end.

End ClerkMiddleware.

(** ** Credential verification (the JWT-first [requireAuth] middleware) *)

Module JwtMiddleware.

(** The external calls a run of the middleware makes, in order. *)
Inductive ExternalCall :=
  | JwtVerify (token : string)
  | ClerkGetAuth.

Definition withJwt (req : AuthenticatedRequest) (decoded : JWTPayload)
    : AuthenticatedRequest :=
  {| authorization := authorization req;
     userId := Some (jwt_userId decoded);
     userRole := Some (jwt_role decoded);
     userEmail := Some (jwt_email decoded);
     signInId := None;
     userProfile := userProfile req |}.

Definition withUserId (req : AuthenticatedRequest) (uid : string)
    : AuthenticatedRequest :=
  {| authorization := authorization req;
     userId := Some uid;
     userRole := userRole req;
     userEmail := userEmail req;
     signInId := signInId req;
     userProfile := userProfile req |}.

(** [authHeader.substring(7)]. *)
Definition bearerToken (authHeader : string) : string :=
  String.substring 7 (String.length authHeader - 7) authHeader.

(** [jwt_verify] is [jwt.verify(token, secret)], [None] when it throws;
    [getAuth] is Clerk's [getAuth(req)], [None] when it throws and
    [Some userId] otherwise, [userId] being possibly null. *)
Definition requireAuth (jwt_verify : string → option JWTPayload)
    (getAuth : AuthenticatedRequest → option (option string))
    (req : AuthenticatedRequest) : list ExternalCall * MiddlewareResult :=
  match truthy (authorization req) with
  | None => ([], Respond 401 "Authorization header required")
  | Some authHeader =>
      if negb (String.prefix "Bearer " authHeader)
      then ([], Respond 401 "Authorization header required")
      else
        let token := bearerToken authHeader in
        match jwt_verify token with
        | Some decoded => ([JwtVerify token], Next (withJwt req decoded))
        | None =>
            match getAuth req with
            | Some userId =>
                match truthy userId with
                | None =>
                    ([JwtVerify token; ClerkGetAuth],
                     Respond 401 "Invalid token")
                | Some uid =>
                    ([JwtVerify token; ClerkGetAuth],
                     Next (withUserId req uid))
                end
            | None =>
                ([JwtVerify token; ClerkGetAuth],
                 Respond 401 "Invalid authentication token")
            end
        end
  end.

End JwtMiddleware.

(** ** Login (auth router) *)

Module AuthRouter.

(** A call to the Clerk SDK: its value, or the code of the error thrown. *)
Inductive ClerkResult (A : Type) :=
  | ClerkOk (a : A)
  | ClerkThrows (code : string).
Arguments ClerkOk {A} a.
Arguments ClerkThrows {A} code.

Record LoginUser := {
  login_id : string;
  login_name : string;
  login_email : option string;
  login_role : string;
  login_imageUrl : string
}.

(** Steps 3 and 4 of POST /login: the payload that is signed. *)
Definition loginRole (user : ClerkUser) : string :=
  or_else (publicMetadata_role user) "student".

Definition jwtPayload (user : ClerkUser) (email : string) : JWTPayload :=
  {| jwt_userId := clerk_id user;
     jwt_email := or_else (head (emailAddresses user)) email;
     jwt_role := loginRole user |}.

(** POST /login. [getUserList] is [clerkClient.users.getUserList] for one
    e-mail address, [verifyPassword] tells whether
    [clerkClient.users.verifyPassword] resolves, [jwt_sign] is
    [jwt.sign(payload, secret, { expiresIn: '7d' })]. *)
Definition login (getUserList : string → ClerkResult (list ClerkUser))
    (verifyPassword : string → string → bool)
    (jwt_sign : JWTPayload → string)
    (email password : option string) : Outcome (string * LoginUser) :=
  match truthy email, truthy password with
  | Some email, Some password =>
      match getUserList email with
      | ClerkThrows code =>
          if decide (code = "user_not_found" ∨
                     code = "password_verification_failed")
          then Failure 401 "Invalid email or password"
          else Failure 500 "Login failed"
      | ClerkOk [] => Failure 401 "Invalid email or password"
      | ClerkOk (user :: _) =>
          if negb (verifyPassword (clerk_id user) password)
          then Failure 401 "Invalid email or password"
          else
            let token := jwt_sign (jwtPayload user email) in
            Success (token,
                     {| login_id := clerk_id user;
                        login_name :=
                          or_else (fullName user)
                            (or_else (firstName user) "User");
                        login_email := head (emailAddresses user);
                        login_role := loginRole user;
                        login_imageUrl := imageUrl user |})
      end
  | _, _ => Failure 400 "Email and password are required"
  end.

End AuthRouter.

(** ** The resolver's view of the five profile tables *)

(** [profileIn db uid role p]: [p] is a row of the table of [role] whose
    internal id is [uid]. *)
Definition profileIn (db : Db) (uid role : string) (p : Profile) : Prop :=
  match p with
  | StudentProfile s =>
      role = "student" ∧ s ∈ students db ∧ student_id s = uid
  | TeacherProfile t =>
      role = "teacher" ∧ t ∈ teachers db ∧ teacher_id t = uid
  | ParentProfile a =>
      role = "parent" ∧ a ∈ parents db ∧ parent_id a = uid
  | AdminProfile a =>
      role = "admin" ∧ a ∈ admins db ∧ admin_id a = uid
  | AccountantProfile a =>
      role = "accountant" ∧ a ∈ accountants db ∧ accountant_id a = uid
  | TemporaryStudent _ _ _ _ | TemporaryProfile _ _ _ => False
  end.

Definition collectionHas (db : Db) (uid role : string) : Prop :=
  ∃ p, profileIn db uid role p.

(** The bearer credential of a request, when it carries one. *)
Definition bearerCredential (req : AuthenticatedRequest) : option string :=
  match authorization req with
  | Some authHeader =>
      if String.prefix "Bearer " authHeader
      then Some (JwtMiddleware.bearerToken authHeader)
      else None
  | None => None
  end.

(** The provider path fails: [getAuth] throws or yields no user id. *)
Definition providerFails
    (getAuth : AuthenticatedRequest → option (option string))
    (req : AuthenticatedRequest) : Prop :=
  match getAuth req with
  | Some userId => truthy userId = None
  | None => True
  end.

(** The scope of an unrestricted role: every student id when no id is
    requested, the requested id alone otherwise. *)
Definition unrestrictedScope (db : Db) (requestedId : option string)
    (scope : list string) : Prop :=
  (truthy requestedId = None → scope = allStudentIds db) ∧
  (∀ sid, truthy requestedId = Some sid → scope = [sid]).

(** ** A sample school

    Teacher [t1] supervises class 9A (students [s1], [s2]) and teaches a
    lesson in class 10A (student [s3]), which [t2] supervises; [s4] is
    enrolled nowhere. Parent [p1] has the children [s1] and [s2], parent
    [p2] has [s3]. *)

Module Sample.

Definition mkStudent (id roll : string) (parent : option string) : Student :=
  {| student_id := id; student_username := id; student_name := id;
     StudentId := roll; parentId := parent |}.

Definition s1 := mkStudent "s1" "STU1" (Some "p1").
Definition s2 := mkStudent "s2" "STU2" (Some "p1").
Definition s3 := mkStudent "s3" "STU3" (Some "p2").
Definition s4 := mkStudent "s4" "STU4" None.

Definition fee1 : Fee :=
  {| fee_studentId := "s1"; totalAmount := 100; paidAmount := 0;
     status := UNPAID; dueDate := 20; fee_createdAt := 1 |}.
Definition fee2 : Fee :=
  {| fee_studentId := "s3"; totalAmount := 50; paidAmount := 10;
     status := OVERDUE; dueDate := 5; fee_createdAt := 2 |}.

Definition db : Db :=
  {| students := [s1; s2; s3; s4];
     teachers :=
       [ {| teacher_id := "t1"; teacher_username := "t1";
            teacher_name := "T1" |};
         {| teacher_id := "t2"; teacher_username := "t2";
            teacher_name := "T2" |} ];
     parents :=
       [ {| parent_id := "p1"; parent_username := "p1";
            parent_name := "P1" |};
         {| parent_id := "p2"; parent_username := "p2";
            parent_name := "P2" |} ];
     admins := [ {| admin_id := "a1"; admin_username := "root" |} ];
     accountants :=
       [ {| accountant_id := "c1"; accountant_username := "c1";
            accountant_name := "C1" |} ];
     classes :=
       [ {| class_id := 1; class_name := "9A"; supervisorId := Some "t1" |};
         {| class_id := 2; class_name := "10A"; supervisorId := Some "t2" |} ];
     lessons :=
       [ {| lesson_id := 1; lesson_classId := 2; lesson_teacherId := "t1" |} ];
     enrollments :=
       [ {| enrollment_studentId := "STU1"; enrollment_classId := 1;
            leftAt := None |};
         {| enrollment_studentId := "STU2"; enrollment_classId := 1;
            leftAt := None |};
         {| enrollment_studentId := "STU3"; enrollment_classId := 2;
            leftAt := None |} ];
     fees := <[1 := fee1]> (<[2 := fee2]> ∅);
     payments := [];
     results :=
       [ {| result_id := 1; result_studentId := "s1";
            result_examId := Some 7; score := 80 |};
         {| result_id := 2; result_studentId := "s3";
            result_examId := Some 7; score := 90 |} ];
     attendances :=
       [ {| attendance_studentId := "s1"; attendance_classId := 1;
            attendance_status := PRESENT |};
         {| attendance_studentId := "s3"; attendance_classId := 2;
            attendance_status := ABSENT |} ] |}.

(** A school in which the id [x] is a teacher, an admin and an
    accountant at once. *)
Definition teacher_x : Teacher :=
  {| teacher_id := "x"; teacher_username := "tx"; teacher_name := "X" |}.

Definition db_collision : Db :=
  {| students := [s1]; teachers := [teacher_x];
     parents := [];
     admins := [ {| admin_id := "x"; admin_username := "ax" |} ];
     accountants :=
       [ {| accountant_id := "x"; accountant_username := "cx";
            accountant_name := "X" |} ];
     classes := []; lessons := []; enrollments := [];
     fees := ∅; payments := []; results := []; attendances := [] |}.

Definition request (header : option string) : AuthenticatedRequest :=
  {| authorization := header; userId := None; userRole := None;
     userEmail := None; signInId := None; userProfile := None |}.

Definition identified (uid : string) : AuthenticatedRequest :=
  {| authorization := None; userId := Some uid; userRole := None;
     userEmail := None; signInId := None; userProfile := None |}.

Definition clerkUser (id : string) (role : option string) : ClerkUser :=
  {| clerk_id := id; fullName := Some "Full Name"; firstName := None;
     primaryEmailAddress := Some "user@demo.com";
     emailAddresses := ["user@demo.com"]; imageUrl := "img";
     publicMetadata_role := role |}.

End Sample.

(** ** Profile lookup by role (the JWT-based [getUserProfile] middleware) *)

Module JwtProfile.

(** [where: { OR: [{ id: req.userId }, { username: req.userEmail }] }]; an
    undefined [userEmail] leaves the first alternative alone. *)
Definition idOrUsername (uid : string) (email : option string)
    (id username : string) : Prop :=
  id = uid ∨ email = Some username.

Definition withUserProfile (req : AuthenticatedRequest) (profile : Profile)
    : AuthenticatedRequest :=
  {| authorization := authorization req;
     userId := userId req;
     userRole := userRole req;
     userEmail := userEmail req;
     signInId := signInId req;
     userProfile := Some profile |}.

(** The tail of the middleware: 404 when the lookup found nothing. *)
Definition attach (req : AuthenticatedRequest) (found : option Profile)
    : MiddlewareResult :=
  match found with
  | Some profile => Next (withUserProfile req profile)
  | None => Respond 404 "User profile not found"
  end.

Definition getUserProfile (db : Db) (req : AuthenticatedRequest)
    : MiddlewareResult :=
  match truthy (userId req), truthy (userRole req) with
  | Some uid, Some role =>
      let email := userEmail req in
      if decide (role = "student") then
        attach req
          (StudentProfile <$>
             findFirst (λ s, idOrUsername uid email (student_id s)
                               (student_username s)) (students db))
      else if decide (role = "teacher") then
        attach req
          (TeacherProfile <$>
             findFirst (λ t, idOrUsername uid email (teacher_id t)
                               (teacher_username t)) (teachers db))
      else if decide (role = "parent") then
        attach req
          (ParentProfile <$>
             findFirst (λ p, idOrUsername uid email (parent_id p)
                               (parent_username p)) (parents db))
      else if decide (role = "admin") then
        attach req
          (AdminProfile <$>
             findFirst (λ a, idOrUsername uid email (admin_id a)
                               (admin_username a)) (admins db))
      else Respond 400 "Invalid user role"
  | _, _ => Respond 401 "User authentication required"
  end.

(** [requireRole(allowedRoles)] as a middleware. *)
Definition requireRole (allowedRoles : list string)
    (req : AuthenticatedRequest) : MiddlewareResult :=
  if roleAllowed allowedRoles (userRole req) then Next req
  else Respond 403 "Insufficient permissions".

End JwtProfile.

(** ** Credential verification (the Clerk-based [requireAuth] middleware) *)

Module ClerkAuth.

(** [verifyError.reason] as far as the middleware tells the cases apart. *)
Inductive VerifyError := TokenExpired | TokenInvalid | OtherReason.

(** [s.replace(pattern, '')]: the first occurrence of a string pattern is
    removed. *)
Fixpoint removeFirst (pattern s : string) : string :=
  if String.prefix pattern s
  then String.substring (String.length pattern)
         (String.length s - String.length pattern) s
  else match s with
       | EmptyString => EmptyString
       | String c rest => String c (removeFirst pattern rest)
       end.

Definition withUserId (req : AuthenticatedRequest) (uid : string)
    : AuthenticatedRequest :=
  {| authorization := authorization req;
     userId := Some uid;
     userRole := userRole req;
     userEmail := userEmail req;
     signInId := signInId req;
     userProfile := userProfile req |}.

(** The last test of the middleware, on the user id found so far. *)
Definition finish (req : AuthenticatedRequest) (userId : option string)
    : MiddlewareResult :=
  match truthy userId with
  | None => Respond 401 "Authentication required"
  | Some uid => Next (withUserId req uid)
  end.

(** [getAuth] is Clerk's [getAuth(req)], [None] when it throws;
    [verifyToken] is Clerk's [verifyToken(token, { secretKey })], which
    yields [payload.sub] or throws. *)
Definition requireAuth
    (getAuth : AuthenticatedRequest → option (option string))
    (verifyToken : string → VerifyError + string)
    (req : AuthenticatedRequest) : MiddlewareResult :=
  let userId := default None (getAuth req) in
  match truthy userId, truthy (authorization req) with
  | None, Some authHeader =>
      let token := removeFirst "Bearer " authHeader in
      match verifyToken token with
      | inr sub => finish req (Some sub)
      | inl TokenExpired => Respond 401 "Token expired. Please sign in again."
      | inl TokenInvalid => Respond 401 "Invalid token. Please sign in again."
      | inl OtherReason => finish req userId
      end
  | _, _ => finish req userId
  end.

End ClerkAuth.

(** ** Fees router: pending fees and the accountant's summary *)

Module FeesReports.

(** GET /pending computes the target ids by the same block as GET /history
    and filters the query the same way. A fee is returned with its
    [remainingAmount]. *)
Definition pendingFilter (db : Db) (userRole : option string)
    (pid : string) (studentId : option string) : option (list string) :=
  let target := FeesRouter.targetStudentIds db userRole pid studentId in
  if decide (length target = 0%nat) then None
  else Some (match truthy studentId with
             | Some sid => [sid]
             | None => target
             end).

Definition pending (db : Db) (userRole : option string)
    (pid : string) (studentId : option string)
    : Outcome (list (Z * Fee * Z)) :=
  match pendingFilter db userRole pid studentId with
  | None => Success []
  | Some ids =>
      Success
        ((λ kf, (kf, totalAmount kf.2 - paidAmount kf.2)) <$>
           filter (λ kf, fee_studentId kf.2 ∈ ids ∧
                         status kf.2 ∈ [UNPAID; PARTIAL])
                  (map_to_list (fees db)))
  end.

(** The [stats] object of GET /summary (the amounts of the [financial]
    object are floating-point sums and are not modelled). *)
Record FeeCounts := {
  totalFees : nat;
  paidFees : nat;
  unpaidFees : nat;
  overdueFees : nat
}.

Definition countStatus (st : FeeStatus) (rows : list Fee) : nat :=
  length (filter (λ f, status f = st) rows).

Definition summaryStats (db : Db) : FeeCounts :=
  let allFees := (map_to_list (fees db)).*2 in
  {| totalFees := length allFees;
     paidFees := countStatus PAID allFees;
     unpaidFees := countStatus UNPAID allFees;
     overdueFees := countStatus OVERDUE allFees |}.

Definition summary (db : Db) (userRole : option string)
    : Outcome FeeCounts :=
  if decide (userRole ≠ Some "accountant" ∧ userRole ≠ Some "admin")
  then Failure 403 "Access denied. Accountant or Admin role required."
  else Success (summaryStats db).

End FeesReports.

(** ** The payment ledger *)

Definition sumZ (l : list Z) : Z := foldr Z.add 0 l.

(** The amounts of the payment rows recorded for a fee. *)
Definition paidFor (db : Db) (feeId : Z) : Z :=
  sumZ (payment_amount <$>
          filter (λ p, payment_feeId p = feeId) (payments db)).

(** Every fee's [paidAmount] is the sum of its payment rows. *)
Definition ledgerConsistent (db : Db) : Prop :=
  ∀ feeId fee, fees db !! feeId = Some fee →
               paidAmount fee = paidFor db feeId.

(** [profileFound db uid email role p]: [p] is a row of the table of [role]
    whose id is [uid] or whose username is the e-mail of the token. *)
Definition profileFound (db : Db) (uid : string) (email : option string)
    (role : string) (p : Profile) : Prop :=
  match p with
  | StudentProfile s =>
      role = "student" ∧ s ∈ students db ∧
      JwtProfile.idOrUsername uid email (student_id s) (student_username s)
  | TeacherProfile t =>
      role = "teacher" ∧ t ∈ teachers db ∧
      JwtProfile.idOrUsername uid email (teacher_id t) (teacher_username t)
  | ParentProfile a =>
      role = "parent" ∧ a ∈ parents db ∧
      JwtProfile.idOrUsername uid email (parent_id a) (parent_username a)
  | AdminProfile a =>
      role = "admin" ∧ a ∈ admins db ∧
      JwtProfile.idOrUsername uid email (admin_id a) (admin_username a)
  | AccountantProfile _ | TemporaryStudent _ _ _ _
  | TemporaryProfile _ _ _ => False
  end.

(** A temporary profile, built from the provider's data alone. *)
Definition temporary (p : Profile) : Prop :=
  match p with
  | TemporaryStudent _ _ _ _ | TemporaryProfile _ _ _ => True
  | _ => False
  end.

(** The caller of POST /payment owns the fee: a student pays an own fee, a
    parent the fee of a child. *)
Definition feeInScope (db : Db) (userRole : option string) (pid : string)
    (fee : Fee) : Prop :=
  (userRole = Some "student" ∧ fee_studentId fee = pid) ∨
  (userRole = Some "parent" ∧ fee_studentId fee ∈ childrenIds db pid).

(** The rows of a list answer ([[]] for an error answer). *)
Definition rowsOf {A} (o : Outcome (list A)) : list A :=
  match o with Success rows => rows | Failure _ _ => [] end.

(** ** Attendance router: the per-student summary *)

Module AttendanceSummary.

(** An entry of the [studentSummary] map (the display name and the
    percentage, a floating-point quotient, are not modelled). *)
Record StudentSummary := {
  summary_studentId : string;
  rollNumber : string;
  totalDays : nat;
  presentDays : nat;
  absentDays : nat;
  lateDays : nat
}.

Definition newSummary (sid : string) (student : Student) : StudentSummary :=
  {| summary_studentId := sid; rollNumber := StudentId student;
     totalDays := 0; presentDays := 0; absentDays := 0; lateDays := 0 |}.

(** [summary.totalDays++] and the [switch (record.status)]. *)
Definition bump (st : AttendanceStatus) (e : StudentSummary)
    : StudentSummary :=
  {| summary_studentId := summary_studentId e;
     rollNumber := rollNumber e;
     totalDays := S (totalDays e);
     presentDays :=
       match st with PRESENT => S (presentDays e) | _ => presentDays e end;
     absentDays :=
       match st with ABSENT => S (absentDays e) | _ => absentDays e end;
     lateDays :=
       match st with LATE => S (lateDays e) | _ => lateDays e end |}.

(** One round of the [forEach]: the entry of the record's student is
    created when the map has none, then updated in place. The map keeps its
    entries in insertion order. *)
Definition tally (acc : list StudentSummary) (record : Attendance)
    (student : Student) : list StudentSummary :=
  let sid := attendance_studentId record in
  let acc' :=
    if decide (sid ∈ summary_studentId <$> acc) then acc
    else (acc ++ [newSummary sid student])%list in
  (λ e, if decide (summary_studentId e = sid)
        then bump (attendance_status record) e else e) <$> acc'.

(** [record.student] is the included relation; reading its fields throws
    when the row is missing ([None]). *)
Definition step (db : Db) (acc : option (list StudentSummary))
    (record : Attendance) : option (list StudentSummary) :=
  acc ≫= λ entries,
    tally entries record <$>
      findFirst (λ s, student_id s = attendance_studentId record)
                (students db).

Definition summarize (db : Db) (records : list Attendance)
    : option (list StudentSummary) :=
  foldl (step db) (Some []) records.

(** The attendance rows selected by [whereClause], for a request without
    date range; [classId] is the parsed [classId] parameter, [None] when it
    is absent or ['all']. *)
Definition selected (db : Db) (ids : list string) (classId : option Z)
    : list Attendance :=
  let rows := filter (λ a, attendance_studentId a ∈ ids) (attendances db) in
  match classId with
  | Some c => filter (λ a, attendance_classId a = c) rows
  | None => rows
  end.

(** GET /summary: the summary entries and [overallStats.totalStudents]. *)
Definition summary (db : Db) (userRole : option string) (pid : string)
    (classId : option Z) : Outcome (list StudentSummary * nat) :=
  match AttendanceRouter.summaryFilter db userRole pid with
  | None => Success ([], 0%nat)
  | Some ids =>
      match summarize db (selected db ids classId) with
      | Some entries => Success (entries, length entries)
      | None => Failure 500 "Failed to get attendance summary"
      end
  end.

End AttendanceSummary.

#[global] Instance AttendanceStatus_eq_dec : EqDecision AttendanceStatus.
Proof. solve_decision. Defined.

(** The number of rows of a student with a given status. *)
Definition daysWith (st : AttendanceStatus) (sid : string)
    (records : list Attendance) : nat :=
  length (filter (λ a, attendance_studentId a = sid ∧
                       attendance_status a = st) records).

(** [tallied records entries]: the entries are the per-student tallies of
    the records: one entry per student that has a record, holding the
    numbers of that student's present, absent and late rows and their
    sum. *)
Definition tallied (records : list Attendance)
    (entries : list AttendanceSummary.StudentSummary) : Prop :=
  NoDup (AttendanceSummary.summary_studentId <$> entries) ∧
  (∀ sid, sid ∈ AttendanceSummary.summary_studentId <$> entries ↔
          ∃ a, a ∈ records ∧ attendance_studentId a = sid) ∧
  ∀ e, e ∈ entries →
    AttendanceSummary.presentDays e
      = daysWith PRESENT (AttendanceSummary.summary_studentId e) records ∧
    AttendanceSummary.absentDays e
      = daysWith ABSENT (AttendanceSummary.summary_studentId e) records ∧
    AttendanceSummary.lateDays e
      = daysWith LATE (AttendanceSummary.summary_studentId e) records ∧
    AttendanceSummary.totalDays e
      = (AttendanceSummary.presentDays e + AttendanceSummary.absentDays e +
         AttendanceSummary.lateDays e)%nat.

(** ** Teachers router: class attendance and the status of a mark *)

Module TeachersAttendance.

(** GET /class/:classId/attendance for a request without [date];
    [classId] is the parsed route parameter. *)
Definition classAttendance (db : Db) (tid : string) (classId : Z)
    : Outcome (list Attendance) :=
  match findFirst (λ c, class_id c = classId ∧
                        (supervisorId c = Some tid ∨
                         TeachersRouter.teaches db tid c)) (classes db) with
  | None => Failure 403 "You do not have access to this class"
  | Some _ =>
      Success (filter (λ a, attendance_classId a = classId) (attendances db))
  end.

(** [normalizeStatus] of POST /mark-attendance. [toUpperCase] is
    [String(s).toUpperCase()]. *)
Definition normalizeStatus (toUpperCase : string → string) (s : string)
    : string :=
  let up := toUpperCase s in
  if decide (up ∈ ["PRESENT"; "ABSENT"; "LATE"]) then up else "PRESENT".

End TeachersAttendance.

(** [toUpperCase] on the ASCII range. *)
Definition upper_ascii (c : ascii) : ascii :=
  let n := nat_of_ascii c in
  if decide (97 ≤ n ≤ 122)%nat then ascii_of_nat (n - 32) else c.

Fixpoint toUpperCaseAscii (s : string) : string :=
  match s with
  | EmptyString => EmptyString
  | String c rest => String (upper_ascii c) (toUpperCaseAscii rest)
  end.

(** ** Auth router: the current user *)

Module AuthMe.

Record MeData := {
  me_role : string;
  me_id : string;
  me_name : string;
  me_email : option string;
  me_imageUrl : string
}.

(** GET /me of the auth router, behind [requireAuth]. [getUser] is
    [clerkClient.users.getUser]. *)
Definition me (getUser : string → AuthRouter.ClerkResult ClerkUser)
    (req : AuthenticatedRequest) : Outcome MeData :=
  match truthy (userId req) with
  | None => Failure 401 "User ID not found"
  | Some uid =>
      match getUser uid with
      | AuthRouter.ClerkThrows code =>
          if decide (code = "user_not_found")
          then Failure 404 "User not found"
          else Failure 500 "Failed to get user profile"
      | AuthRouter.ClerkOk user =>
          Success
            {| me_role :=
                 or_else (publicMetadata_role user)
                   (or_else (userRole req) "student");
               me_id := clerk_id user;
               me_name :=
                 or_else (fullName user) (or_else (firstName user) "User");
               me_email := head (emailAddresses user);
               me_imageUrl := imageUrl user |}
      end
  end.

End AuthMe.

(** ** Notifications router *)

Module Notifications.

Record Notification := {
  notification_id : string;
  n_studentId : option string;
  n_teacherId : option string;
  n_parentId : option string;
  n_adminId : option string;
  n_accountantId : option string;
  targetRole : option string;
  relatedClassId : option Z;
  isRead : bool;
  readAt : option Z;
  notification_type : string
}.

(** The filters pushed on [whereClause.OR]. *)
Inductive Clause :=
  | ByStudent (id : string)          (* { studentId: id } *)
  | ByTeacher (id : string)
  | ByParent (id : string)
  | ByAdmin (id : string)
  | ByAccountant (id : string)
  | ByTargetRole (role : string)     (* { targetRole: role } *)
  | ByClass (classId : Z)            (* { relatedClassId: classId } *)
  | ByStudentIn (ids : list string). (* { studentId: { in: ids } } *)

Definition holds (c : Clause) (n : Notification) : Prop :=
  match c with
  | ByStudent id => n_studentId n = Some id
  | ByTeacher id => n_teacherId n = Some id
  | ByParent id => n_parentId n = Some id
  | ByAdmin id => n_adminId n = Some id
  | ByAccountant id => n_accountantId n = Some id
  | ByTargetRole role => targetRole n = Some role
  | ByClass classId => relatedClassId n = Some classId
  | ByStudentIn ids =>
      match n_studentId n with Some sid => sid ∈ ids | None => False end
  end.

#[global] Instance holds_dec (c : Clause) (n : Notification) :
  Decision (holds c n).
Proof.
  destruct c; simpl; try apply _.
  destruct (n_studentId n); apply _.
Defined.

(** [OR: clauses]; an empty [OR] matches no row. *)
Definition anyOf (clauses : list Clause) (n : Notification) : Prop :=
  Exists (λ c, holds c n) clauses.

(** The role-based filters of PATCH /:id/read and PATCH /read-all. *)
Definition markClauses (db : Db) (userRole : option string) (pid : string)
    : list Clause :=
  if decide (userRole = Some "student")
  then [ByStudent pid; ByTargetRole "student"]
  else if decide (userRole = Some "teacher")
  then [ByTeacher pid; ByTargetRole "teacher"]
  else if decide (userRole = Some "parent")
  then [ByParent pid; ByTargetRole "parent"] ++
       (if decide (0 < length (children db pid))%nat
        then [ByStudentIn (childrenIds db pid)] else [])
  else if decide (userRole = Some "admin")
  then [ByAdmin pid; ByTargetRole "admin"]
  else if decide (userRole = Some "accountant")
  then [ByAccountant pid; ByTargetRole "accountant"]
  else [].

(** The role-based filters of GET / and GET /unread-count: a student also
    gets the notifications of the class of the current enrollment. [roll]
    is [userProfile.StudentId]. *)
Definition listClauses (db : Db) (userRole : option string)
    (pid roll : string) : list Clause :=
  if decide (userRole = Some "student")
  then [ByStudent pid; ByTargetRole "student"] ++
       match findFirst (λ e, enrollment_studentId e = roll ∧
                             leftAt e = None) (enrollments db) with
       | Some enrollment => [ByClass (enrollment_classId enrollment)]
       | None => []
       end
  else markClauses db userRole pid.

(** GET /unread-count. *)
Definition unreadCount (db : Db) (table : list Notification)
    (userRole : option string) (pid roll : string) : nat :=
  length (filter (λ n, anyOf (listClauses db userRole pid roll) n ∧
                       isRead n = false) table).

(** The [data] of the two [updateMany] calls. *)
Definition markAsRead (now : Z) (n : Notification) : Notification :=
  {| notification_id := notification_id n;
     n_studentId := n_studentId n; n_teacherId := n_teacherId n;
     n_parentId := n_parentId n; n_adminId := n_adminId n;
     n_accountantId := n_accountantId n; targetRole := targetRole n;
     relatedClassId := relatedClassId n;
     isRead := true; readAt := Some now;
     notification_type := notification_type n |}.

(** [prisma.notification.updateMany({ where, data })]: the table after the
    update and [result.count]. *)
Definition updateMany (selects : Notification → Prop)
    `{∀ n, Decision (selects n)} (now : Z) (table : list Notification)
    : list Notification * nat :=
  ((λ n, if decide (selects n) then markAsRead now n else n) <$> table,
   length (filter selects table)).

(** PATCH /:id/read; [now] is [new Date()]. *)
Definition markRead (db : Db) (table : list Notification)
    (userRole : option string) (pid : string) (id : string) (now : Z)
    : list Notification * Outcome string :=
  let result :=
    updateMany (λ n, notification_id n = id ∧
                     anyOf (markClauses db userRole pid) n) now table in
  if decide (result.2 = 0%nat)
  then (result.1, Failure 404 "Notification not found or access denied")
  else (result.1, Success "Notification marked as read").

(** PATCH /read-all: the table after the update and the number of rows
    reported in the message. *)
Definition readAll (db : Db) (table : list Notification)
    (userRole : option string) (pid : string) (now : Z)
    : list Notification * nat :=
  updateMany (λ n, anyOf (markClauses db userRole pid) n ∧
                   isRead n = false) now table.

End Notifications.

(** ** Students router: the caller's fees *)

Module StudentsRouter.

(** The enum value named by the [status] parameter; Prisma rejects any
    other string. *)
Definition parseStatus (name : string) : option FeeStatus :=
  if decide (name = "UNPAID") then Some UNPAID
  else if decide (name = "PARTIAL") then Some PARTIAL
  else if decide (name = "PAID") then Some PAID
  else if decide (name = "OVERDUE") then Some OVERDUE
  else None.

(** The [stats] object of GET /fees ([totalDue], a floating-point sum, is
    not modelled). *)
Record FeeStats := {
  stats_total : nat;
  stats_paid : nat;
  stats_unpaid : nat;
  stats_partial : nat;
  stats_overdue : nat
}.

Definition feeStats (rows : list (Z * Fee)) : FeeStats :=
  {| stats_total := length rows;
     stats_paid := length (filter (λ kf, status kf.2 = PAID) rows);
     stats_unpaid := length (filter (λ kf, status kf.2 = UNPAID) rows);
     stats_partial := length (filter (λ kf, status kf.2 = PARTIAL) rows);
     stats_overdue := length (filter (λ kf, status kf.2 = OVERDUE) rows) |}.

(** GET /fees behind [requireRole(['student'])]; [pid] is [student.id]. *)
Definition getFees (db : Db) (pid : string) (statusParam : option string)
    : Outcome (list (Z * Fee) * FeeStats) :=
  let own := filter (λ kf, fee_studentId kf.2 = pid)
                    (map_to_list (fees db)) in
  match truthy statusParam with
  | None => Success (own, feeStats own)
  | Some name =>
      match parseStatus name with
      | None => Failure 500 "Failed to get fee records"
      | Some st =>
          let rows := filter (λ kf, status kf.2 = st) own in
          Success (rows, feeStats rows)
      end
  end.

End StudentsRouter.

(** ** Exams router: upcoming exams *)

Module ExamsUpcoming.

Record Exam := {
  exam_id : Z;
  exam_classId : Z;
  startTime : Z
}.

(** The class ids of the current enrollments of a student, by roll
    number. *)
Definition currentClassIds (db : Db) (roll : string) : list Z :=
  enrollment_classId <$>
    filter (λ e, enrollment_studentId e = roll ∧ leftAt e = None)
           (enrollments db).

(** GET /upcoming, "Determine which classes the user can access". [roll]
    is [userProfile.StudentId] and [classId] the parsed [classId]
    parameter. *)
Definition targetClassIds (db : Db) (userRole : option string)
    (pid roll : string) (classId : option Z) : list Z :=
  if decide (userRole = Some "student") then
    match findFirst (λ e, enrollment_studentId e = roll ∧ leftAt e = None)
                    (enrollments db) with
    | Some enrollment => [enrollment_classId enrollment]
    | None => []
    end
  else if decide (userRole = Some "parent") then
    children db pid ≫= λ child, currentClassIds db (StudentId child)
  else if decide (userRole = Some "teacher") then
    class_id <$> supervisedClasses db pid
  else if decide (userRole = Some "admin") then
    match classId with
    | Some c => [c]
    | None => class_id <$> classes db
    end
  else [].

(** GET /upcoming; [now] is [new Date()]. *)
Definition upcoming (db : Db) (exams : list Exam)
    (userRole : option string) (pid roll : string) (classId : option Z)
    (now : Z) : Outcome (list Exam) :=
  let target := targetClassIds db userRole pid roll classId in
  if decide (length target = 0%nat) then Success []
  else
    let wanted := match classId with Some c => [c] | None => target end in
    Success (filter (λ x, exam_classId x ∈ wanted ∧ now ≤ startTime x)
                    exams).

End ExamsUpcoming.

(** ** Fees router: POST /payment with writes that can throw *)

Module PaymentWrites.

(** A [BigInt] column of the database holds a signed 64-bit integer: a
    write of a value outside this range throws. *)
Definition fitsBigInt (z : Z) : Prop := -2 ^ 63 ≤ z < 2 ^ 63.

#[global] Instance fitsBigInt_dec (z : Z) : Decision (fitsBigInt z).
Proof. unfold fitsBigInt. apply _. Defined.

(** The two writes of the handler. A write can also be rejected for a
    reason that is not in the data (an invalid [method], a lost
    connection). *)
Inductive Write := CreatePayment | UpdateFee.

(** [prisma.payment.create({ data })]: one row is added. *)
Definition createPayment (db : Db) (payment : Payment) : Db :=
  {| students := students db; teachers := teachers db;
     parents := parents db; admins := admins db;
     accountants := accountants db; classes := classes db;
     lessons := lessons db; enrollments := enrollments db;
     fees := fees db;
     payments := payments db ++ [payment];
     results := results db; attendances := attendances db |}.

(** [prisma.fee.update({ where: { id: feeId }, data })]. *)
Definition updateFee (db : Db) (feeId : Z) (newPaidAmount : Z)
    (newStatus : FeeStatus) : Db :=
  {| students := students db; teachers := teachers db;
     parents := parents db; admins := admins db;
     accountants := accountants db; classes := classes db;
     lessons := lessons db; enrollments := enrollments db;
     fees := alter (FeesRouter.setPaid newPaidAmount newStatus) feeId
               (fees db);
     payments := payments db;
     results := results db; attendances := attendances db |}.

(** POST /payment behind [requireRole(['student', 'parent'])]. The two
    writes are two awaited calls without a transaction, under one [catch]
    that answers 500: when the second throws, the row written by the first
    stays. [rejects w] tells whether the store rejects the write [w] for a
    reason that is not in the data. *)
Definition payment (rejects : Write → bool) (db : Db)
    (userRole : option string) (pid : string)
    (feeId : Z) (amount : option Z) (method reference : string)
    : Db * Outcome (Payment * FeeStatus) :=
  if negb (roleAllowed ["student"; "parent"] userRole)
  then (db, Failure 403 "Insufficient permissions")
  else
    let fee :=
      if decide (userRole = Some "student")
      then FeesRouter.findFee db feeId (λ sid, sid = pid)
      else if decide (userRole = Some "parent")
      then FeesRouter.findFee db feeId (λ sid, sid ∈ childrenIds db pid)
      else None in
    match fee with
    | None => (db, Failure 404 "Fee not found or access denied")
    | Some fee =>
        match amount with
        | None => (db, Failure 500 "Failed to process payment")
        | Some a =>
            let payment := {| payment_amount := a;
                              payment_method := method;
                              payment_reference := reference;
                              payment_feeId := feeId |} in
            if decide (fitsBigInt a ∧ rejects CreatePayment = false) then
              let db1 := createPayment db payment in
              let newPaidAmount := paidAmount fee + a in
              let newStatus :=
                if decide (totalAmount fee ≤ newPaidAmount)
                then PAID else PARTIAL in
              if decide (fitsBigInt newPaidAmount ∧
                         rejects UpdateFee = false)
              then (updateFee db1 feeId newPaidAmount newStatus,
                    Success (payment, newStatus))
              else (db1, Failure 500 "Failed to process payment")
            else (db, Failure 500 "Failed to process payment")
        end
    end.

End PaymentWrites.

(** ** Exams router: the subjects of a report card *)

Module ReportCard.

Record Subject := { subject_id : Z; subject_name : string }.

(** An entry of [subjectResults]. Its [averageScore] is a rounded
    floating-point quotient and is not modelled. *)
Record SubjectResults := {
  subjectId : Z;
  subjectName : string;
  examResults : list Result;
  assignmentResults : list Result
}.

(** The property names every object inherits from [Object.prototype]:
    [subjectResults[name]] is truthy for them on the empty object. *)
Definition inheritedNames : list string :=
  ["constructor"; "__defineGetter__"; "__defineSetter__"; "hasOwnProperty";
   "__lookupGetter__"; "__lookupSetter__"; "isPrototypeOf";
   "propertyIsEnumerable"; "toString"; "valueOf"; "__proto__";
   "toLocaleString"].

(** [if (result.examId)]: the id 0 is falsy. *)
Definition hasExamId (result : Result) : bool :=
  match result_examId result with
  | Some examId => bool_decide (examId ≠ 0)
  | None => false
  end.

Definition newEntry (subject : Subject) : SubjectResults :=
  {| subjectId := subject_id subject;
     subjectName := subject_name subject;
     examResults := [];
     assignmentResults := [] |}.

(** [entry.examResults.push(result)] or
    [entry.assignmentResults.push(result)]. *)
Definition push (result : Result) (entry : SubjectResults)
    : SubjectResults :=
  if hasExamId result
  then {| subjectId := subjectId entry;
          subjectName := subjectName entry;
          examResults := examResults entry ++ [result];
          assignmentResults := assignmentResults entry |}
  else {| subjectId := subjectId entry;
          subjectName := subjectName entry;
          examResults := examResults entry;
          assignmentResults := assignmentResults entry ++ [result] |}.

(** A result is on the card when one of the entries lists it. *)
Definition listed (subjectResults : gmap string SubjectResults)
    (result : Result) : Prop :=
  ∃ name entry, subjectResults !! name = Some entry ∧
                (result ∈ examResults entry ∨
                 result ∈ assignmentResults entry).

Section Include.

(** The [include] of the result query, as far as the handler reads it:
    [result.exam?.subject] and [result.assignment?.lesson.subject]. *)
Variable examSubject : Result → option Subject.
Variable assignmentSubject : Result → option Subject.

(** [result.exam?.subject || result.assignment?.lesson.subject]. *)
Definition subjectOf (result : Result) : option Subject :=
  match examSubject result with
  | Some subject => Some subject
  | None => assignmentSubject result
  end.

(** The body of [results.forEach]; [subjectResults] is the object keyed by
    subject name. For a name inherited from [Object.prototype] no entry is
    made and the [push] on the missing array throws ([None]). *)
Definition addResult (subjectResults : gmap string SubjectResults)
    (result : Result) : option (gmap string SubjectResults) :=
  match subjectOf result with
  | None => Some subjectResults
  | Some subject =>
      let name := subject_name subject in
      if decide (name ∈ inheritedNames) then None
      else
        let entry := default (newEntry subject) (subjectResults !! name) in
        Some (<[name := push result entry]> subjectResults)
  end.

Definition groupBySubject (rows : list Result)
    : option (gmap string SubjectResults) :=
  foldl (λ acc result, acc ≫= λ subjectResults,
                         addResult subjectResults result)
        (Some ∅) rows.

(** What [results.forEach] has built from the rows [rows]: an entry for
    the name of every subject met, and in the entry of a name the rows
    whose subject has this name, those with an exam id under
    [examResults] and the others under [assignmentResults]; the
    [subjectId] is that of a subject of this name. *)
Definition groupedFrom (rows : list Result)
    (subjectResults : gmap string SubjectResults) : Prop :=
  (∀ result subject,
     result ∈ rows → subjectOf result = Some subject →
     (subject_name subject ∉ inheritedNames) ∧
     is_Some (subjectResults !! subject_name subject)) ∧
  (∀ name entry,
     subjectResults !! name = Some entry →
     subjectName entry = name ∧
     (∀ result,
        result ∈ examResults entry ↔
        result ∈ rows ∧ hasExamId result = true ∧
        subject_name <$> subjectOf result = Some name) ∧
     (∀ result,
        result ∈ assignmentResults entry ↔
        result ∈ rows ∧ hasExamId result = false ∧
        subject_name <$> subjectOf result = Some name) ∧
     (∃ result subject,
        result ∈ rows ∧ subjectOf result = Some subject ∧
        subject_name subject = name ∧
        subject_id subject = subjectId entry)).

(** GET /report-card: the student record and the entries of
    [subjectResults] (the order of [Object.values] is not modelled). *)
Definition response (db : Db) (userRole : option string)
    (pid : string) (studentId : option string)
    : Outcome (Student * gmap string SubjectResults) :=
  match ExamsRouter.reportCard db userRole pid studentId with
  | Failure st e => Failure st e
  | Success (student, rows) =>
      match groupBySubject rows with
      | None => Failure 500 "Failed to get report card"
      | Some subjectResults => Success (student, subjectResults)
      end
  end.

End Include.

End ReportCard.
(** ** Further sample data *)

Module Sample2.

(** The sample school with one unpaid fee and no payment row. *)
Definition db_ledger : Db :=
  {| students := students Sample.db; teachers := teachers Sample.db;
     parents := parents Sample.db; admins := admins Sample.db;
     accountants := accountants Sample.db; classes := classes Sample.db;
     lessons := lessons Sample.db; enrollments := enrollments Sample.db;
     fees := {[ 1 := Sample.fee1 ]}; payments := [];
     results := results Sample.db; attendances := attendances Sample.db |}.

(** A store that rejects the update of a fee and nothing else. *)
Definition rejectsUpdate (w : PaymentWrites.Write) : bool :=
  match w with
  | PaymentWrites.UpdateFee => true
  | PaymentWrites.CreatePayment => false
  end.

End Sample2.

Module Sample3.

Definition note (id : string) (student teacher : option string)
    (role : option string) (class : option Z) (read : bool)
    : Notifications.Notification :=
  {| Notifications.notification_id := id;
     Notifications.n_studentId := student;
     Notifications.n_teacherId := teacher;
     Notifications.n_parentId := None;
     Notifications.n_adminId := None;
     Notifications.n_accountantId := None;
     Notifications.targetRole := role;
     Notifications.relatedClassId := class;
     Notifications.isRead := read;
     Notifications.readAt := None;
     Notifications.notification_type := "INFO" |}.

(** A note for student [s1], one for all students, one for class 9A, one
    for teacher [t1] and one for student [s3]. *)
Definition notes : list Notifications.Notification :=
  [ note "n1" (Some "s1") None None None false;
    note "n2" None None (Some "student") None false;
    note "n3" None None None (Some 1) false;
    note "n4" None (Some "t1") None None false;
    note "n5" (Some "s3") None None None false ].

End Sample3.

Module Sample4.

Definition math : ReportCard.Subject :=
  {| ReportCard.subject_id := 1; ReportCard.subject_name := "Math" |}.

(** Exam 7 is a Math exam; no result belongs to an assignment. *)
Definition examSubject (result : Result) : option ReportCard.Subject :=
  if decide (result_examId result = Some 7) then Some math else None.

Definition assignmentSubject (result : Result)
    : option ReportCard.Subject := None.

(** A result of [s1] whose exam and assignment are both missing. *)
Definition orphan : Result :=
  {| result_id := 3; result_studentId := "s1"; result_examId := None;
     score := 55 |}.

(** The sample school with the orphan result added. *)
Definition db_card : Db :=
  {| students := students Sample.db; teachers := teachers Sample.db;
     parents := parents Sample.db; admins := admins Sample.db;
     accountants := accountants Sample.db; classes := classes Sample.db;
     lessons := lessons Sample.db; enrollments := enrollments Sample.db;
     fees := fees Sample.db; payments := payments Sample.db;
     results := results Sample.db ++ [orphan];
     attendances := attendances Sample.db |}.

End Sample4.
(** * Properties *)

(** ** Generic facts about the helpers *)

Section Helpers.
Context {A : Type} (P : A → Prop) `{∀ x, Decision (P x)}.

Lemma findFirst_Some (table : list A) (x : A) :
  findFirst P table = Some x → x ∈ table ∧ P x.
Proof.
  unfold findFirst. intros Hhd.
  apply head_Some_elem_of in Hhd.
  by apply list_elem_of_filter in Hhd as [? ?].
Qed.

Lemma findFirst_None (table : list A) :
  findFirst P table = None ↔ ∀ x, x ∈ table → ¬ P x.
Proof.
  unfold findFirst. rewrite head_None. split.
  - intros Hnil x Hx HP.
    assert (x ∈ filter P table) as Hin by (apply list_elem_of_filter; done).
    rewrite Hnil in Hin. by apply not_elem_of_nil in Hin.
  - intros Hall. destruct (filter P table) as [|y l] eqn:E; [done|].
    assert (y ∈ filter P table) as Hin by (rewrite E; left).
    apply list_elem_of_filter in Hin as [HP Hy]. by destruct (Hall y Hy).
Qed.

Lemma findFirst_is_Some (table : list A) (x : A) :
  x ∈ table → P x → is_Some (findFirst P table).
Proof.
  intros Hx HP. destruct (findFirst P table) eqn:E; [by eexists|].
  rewrite findFirst_None in E. by destruct (E x Hx).
Qed.
End Helpers.

Lemma truthy_Some (q : option string) (s : string) :
  truthy q = Some s ↔ q = Some s ∧ s ≠ "".
Proof.
  unfold truthy. destruct q as [t|].
  - destruct (decide (t = "")) as [->|Hne]; split.
    + discriminate.
    + intros [[= <-] Hne]. by destruct Hne.
    + intros [= <-]. done.
    + intros [[= <-] _]. done.
  - split; [discriminate | intros [? _]; discriminate].
Qed.

Lemma truthy_nonempty (s : string) : s ≠ "" → truthy (Some s) = Some s.
Proof. intros. by apply truthy_Some. Qed.

Lemma or_else_nonempty (q : option string) (d : string) :
  d ≠ "" → or_else q d ≠ "".
Proof.
  unfold or_else. destruct (truthy q) as [s|] eqn:E; simpl; [|done].
  intros _. by apply truthy_Some in E as [_ ?].
Qed.


(** Decides the role tests of a handler once the role is known. *)
Ltac role_tests :=
  repeat (case_decide; try congruence; try tauto);
  repeat match goal with
         | H : ¬ (_ ∨ _) |- _ => exfalso; apply H; auto
         | H : _ ∨ _ |- _ => destruct H; try congruence
         end.

(** Settles a closed decidable proposition by evaluating its decision. *)
Ltac by_computation :=
  refine (bool_decide_unpack _ _); vm_compute; exact I.

(** ** Relationship queries *)

Lemma elem_of_childrenIds (db : Db) (pid sid : string) :
  sid ∈ childrenIds db pid ↔
  ∃ s, s ∈ students db ∧ parentId s = Some pid ∧ student_id s = sid.
Proof.
  unfold childrenIds, children. rewrite list_elem_of_fmap. split.
  - intros (s & -> & Hs). apply list_elem_of_filter in Hs as [? ?]. eauto.
  - intros (s & Hs & Hp & <-). exists s. split; [done|].
    by apply list_elem_of_filter.
Qed.

Lemma elem_of_allStudentIds (db : Db) (sid : string) :
  sid ∈ allStudentIds db ↔ ∃ s, s ∈ students db ∧ student_id s = sid.
Proof.
  unfold allStudentIds. rewrite list_elem_of_fmap. split.
  - intros (s & -> & Hs). eauto.
  - intros (s & Hs & <-). eauto.
Qed.

Lemma elem_of_getClasses (db : Db) (tid : string) (c : Class) :
  c ∈ TeachersRouter.getClasses db tid ↔
  c ∈ classes db ∧
  (supervisorId c = Some tid ∨
   ∃ l, l ∈ lessons db ∧ lesson_classId l = class_id c ∧
        lesson_teacherId l = tid).
Proof.
  unfold TeachersRouter.getClasses, TeachersRouter.teaches.
  rewrite list_elem_of_filter, Exists_exists. split.
  - intros [[Hsup|(l & Hl & Hteach)] Hc]; split; eauto.
  - intros [Hc [Hsup|(l & Hl & Hteach)]]; split; eauto.
Qed.

(** The exams route reaches a student only through a supervised class. *)
Lemma exams_teacher_scope_supervised (db : Db) (tid sid : string) :
  sid ∈ ExamsRouter.teacherStudentIds db tid →
  ∃ c e s, c ∈ classes db ∧ supervisorId c = Some tid ∧
           e ∈ enrollments db ∧ enrollment_classId e = class_id c ∧
           enrollmentStudent db e = Some s ∧ student_id s = sid.
Proof.
  unfold ExamsRouter.teacherStudentIds. intros Hin.
  apply list_elem_of_bind in Hin as (c & Hsid & Hc).
  apply list_elem_of_filter in Hc as [Hsup Hc].
  apply list_elem_of_omap in Hsid as (e & He & Htr).
  apply list_elem_of_filter in He as [Hcls He].
  apply truthy_Some in Htr as [Hst _].
  destruct (enrollmentStudent db e) as [s|] eqn:Es; [|done].
  injection Hst as <-. exists c, e, s. done.
Qed.

(** ** Student callers *)

Lemma student_target_is_self (db : Db) (pid : string) (q : option string) :
  FeesRouter.targetStudentIds db (Some "student") pid q = [pid] ∧
  ExamsRouter.targetStudentIds db (Some "student") pid q = [pid] ∧
  AttendanceRouter.summaryTargetStudentIds db (Some "student") pid = [pid].
Proof. done. Qed.

(** Without a [studentId] parameter the query is filtered by the student's
    own id. *)
Lemma student_filter_without_parameter (db : Db) (pid : string) :
  FeesRouter.historyFilter db (Some "student") pid None = Some [pid] ∧
  ExamsRouter.resultsFilter db (Some "student") pid None = Some [pid].
Proof. done. Qed.

(** With a [studentId] parameter the query is filtered by that parameter,
    whatever the student's own id is. *)
Lemma student_filter_follows_parameter (db : Db) (pid sid : string) :
  sid ≠ "" →
  FeesRouter.historyFilter db (Some "student") pid (Some sid) = Some [sid] ∧
  ExamsRouter.resultsFilter db (Some "student") pid (Some sid) = Some [sid].
Proof.
  intros Hne.
  unfold FeesRouter.historyFilter, ExamsRouter.resultsFilter.
  rewrite (truthy_nonempty sid Hne). done.
Qed.

(** C1 (defect of GET /history and GET /results): the scope computed for the
    student [s1] is the singleton of the own id, yet with [studentId=s3] the
    fee and result queries are filtered by [s3] and the records of [s3] are
    returned to [s1]; the claimed independence from the query parameter
    fails. *)
Theorem student_reads_other_student_records :
  FeesRouter.targetStudentIds Sample.db (Some "student") "s1" (Some "s3")
    = ["s1"] ∧
  FeesRouter.historyFilter Sample.db (Some "student") "s1" (Some "s3")
    = Some ["s3"] ∧
  FeesRouter.history Sample.db (Some "student") "s1" (Some "s3")
    = Success [(2, Sample.fee2)] ∧
  FeesRouter.history Sample.db (Some "student") "s1" None
    = Success [(1, Sample.fee1)] ∧
  ExamsRouter.resultsFilter Sample.db (Some "student") "s1" (Some "s3")
    = Some ["s3"].
Proof. repeat split; vm_compute; reflexivity. Qed.

(** ** Parent callers *)

Lemma parent_target_is_children (db : Db) (pid : string) (q : option string) :
  FeesRouter.targetStudentIds db (Some "parent") pid q = childrenIds db pid ∧
  ExamsRouter.targetStudentIds db (Some "parent") pid q = childrenIds db pid ∧
  AttendanceRouter.summaryTargetStudentIds db (Some "parent") pid
    = childrenIds db pid.
Proof. done. Qed.

Lemma reportCard_parent_outside (db : Db) (pid sid : string) :
  sid ≠ "" → sid ∉ childrenIds db pid →
  ExamsRouter.reportCard db (Some "parent") pid (Some sid)
    = Failure 403 "Access denied to this student".
Proof.
  intros Hne Hout.
  unfold ExamsRouter.reportCard, ExamsRouter.reportCardTarget.
  role_tests. rewrite (truthy_nonempty sid Hne).
  destruct (findFirst _ (students db)) as [child|] eqn:E; [|done].
  apply findFirst_Some in E as (Hin & Hid & Hpar).
  destruct Hout. apply elem_of_childrenIds. eauto.
Qed.

Lemma payment_parent_outside (db : Db) (pid : string) (feeId : Z)
    (amount : option Z) (method reference : string) :
  (∀ fee, fees db !! feeId = Some fee →
          fee_studentId fee ∉ childrenIds db pid) →
  FeesRouter.payment db (Some "parent") pid feeId amount method reference
    = (db, Failure 404 "Fee not found or access denied").
Proof.
  intros Hout. unfold FeesRouter.payment.
  change (roleAllowed ["student"; "parent"] (Some "parent")) with true.
  simpl negb. cbv iota. role_tests.
  unfold FeesRouter.findFee.
  destruct (fees db !! feeId) as [fee|] eqn:E; [|done].
  case_decide; [|done]. by destruct (Hout fee).
Qed.

(** C2 (as amended): for a parent caller the computed scope is exactly the
    ids of the students whose [parentId] is the parent's profile id; the
    report-card route rejects a requested student outside that set with 403
    and returns no data; the payment route rejects a fee that does not
    belong to one of the children with 404 and writes nothing. *)
Theorem parent_scope_and_rejections (db : Db) (pid : string) :
  (∀ q, FeesRouter.targetStudentIds db (Some "parent") pid q
          = childrenIds db pid) ∧
  (∀ sid, sid ∈ childrenIds db pid ↔
          ∃ s, s ∈ students db ∧ parentId s = Some pid ∧
               student_id s = sid) ∧
  (∀ sid, sid ≠ "" → sid ∉ childrenIds db pid →
          ExamsRouter.reportCard db (Some "parent") pid (Some sid)
            = Failure 403 "Access denied to this student") ∧
  (∀ feeId amount method reference,
     (∀ fee, fees db !! feeId = Some fee →
             fee_studentId fee ∉ childrenIds db pid) →
     FeesRouter.payment db (Some "parent") pid feeId amount method reference
       = (db, Failure 404 "Fee not found or access denied")).
Proof.
  split; [done|]. split; [intros; apply elem_of_childrenIds|].
  split; [apply reportCard_parent_outside|].
  intros. by apply payment_parent_outside.
Qed.

(** The amended C2 at the sample school: [s3] is not a child of [p1]. *)
Lemma parent_scope_and_rejections_witness :
  ("s3" ∉ childrenIds Sample.db "p1") ∧
  ExamsRouter.reportCard Sample.db (Some "parent") "p1" (Some "s3")
    = Failure 403 "Access denied to this student" ∧
  FeesRouter.payment Sample.db (Some "parent") "p1" 2 (Some 5) "cash" "ref"
    = (Sample.db, Failure 404 "Fee not found or access denied").
Proof.
  assert ("s3" ∉ childrenIds Sample.db "p1") as Hout.
  { by_computation. }
  split; [exact Hout|].
  destruct (parent_scope_and_rejections Sample.db "p1")
    as (_ & _ & Hcard & Hpay).
  split.
  - apply Hcard; [discriminate | exact Hout].
  - apply Hpay. intros fee Hfee. vm_compute in Hfee.
    injection Hfee as <-. exact Hout.
Defined.

(** C2 (counterexample): parent [p1] pays fee 2, which belongs to [s3], not
    a child of [p1]; the request is answered with 404, not with 403. *)
Lemma parent_payment_outside_is_404 :
  fee_studentId <$> (fees Sample.db !! 2) = Some "s3" ∧
  childrenIds Sample.db "p1" = ["s1"; "s2"] ∧
  status_of
    (FeesRouter.payment Sample.db (Some "parent") "p1" 2 (Some 5)
       "cash" "ref").2 = 404 ∧
  status_of
    (FeesRouter.payment Sample.db (Some "parent") "p1" 2 (Some 5)
       "cash" "ref").2 ≠ 403.
Proof. repeat split; vm_compute; congruence. Qed.

(** The listing route of the parents router applies no check at all: with
    [childId=s3] parent [p1] receives the attendance of [s3]. *)
Lemma parent_children_attendance_unchecked :
  ParentsRouter.childrenAttendance Sample.db "p1" (Some "s3") 50
    = Success [ {| attendance_studentId := "s3"; attendance_classId := 2;
                   attendance_status := ABSENT |} ].
Proof. vm_compute. reflexivity. Qed.

(** ** Teacher callers *)

(** The teachers router does take the union: a class is listed when the
    teacher supervises it or holds a lesson in it, and every student
    enrolled in a listed class is on the roster. *)
Lemma teachers_roster_union (db : Db) (tid : string) (c : Class)
    (e : Enrollment) (s : Student) :
  c ∈ classes db →
  supervisorId c = Some tid ∨
    (∃ l, l ∈ lessons db ∧ lesson_classId l = class_id c ∧
          lesson_teacherId l = tid) →
  e ∈ enrollments db → enrollment_classId e = class_id c →
  enrollmentStudent db e = Some s →
  s ∈ TeachersRouter.roster db tid.
Proof.
  intros Hc Hown He Hcls Hs. unfold TeachersRouter.roster.
  apply list_elem_of_bind. exists c. split.
  - apply list_elem_of_omap. exists e. split; [|done].
    by apply list_elem_of_filter.
  - apply elem_of_getClasses. done.
Qed.

(** C3 (defect of GET /results and GET /summary): teacher [t1] supervises
    9A and holds a lesson in 10A; the teachers router lists the students of
    both classes, but the scope computed by the exams and attendance routes
    holds the students of 9A only, so [s3], enrolled in the taught class
    10A, is out of scope there. *)
Theorem taught_class_missing_from_teacher_scope :
  student_id <$> TeachersRouter.roster Sample.db "t1" = ["s1"; "s2"; "s3"] ∧
  ExamsRouter.targetStudentIds Sample.db (Some "teacher") "t1" None
    = ["s1"; "s2"] ∧
  AttendanceRouter.summaryTargetStudentIds Sample.db (Some "teacher") "t1"
    = ["STU1"; "STU2"] ∧
  ExamsRouter.getResults Sample.db (Some "teacher") "t1" None None
    = Success [ {| result_id := 1; result_studentId := "s1";
                   result_examId := Some 7; score := 80 |} ].
Proof. repeat split; vm_compute; reflexivity. Qed.

(** ** Admin and accountant callers *)

Lemma fees_unrestricted (db : Db) (role pid : string) (q : option string) :
  role = "admin" ∨ role = "accountant" →
  unrestrictedScope db q (FeesRouter.targetStudentIds db (Some role) pid q).
Proof.
  intros Hrole. unfold unrestrictedScope, FeesRouter.targetStudentIds.
  destruct Hrole as [-> | ->]; role_tests;
    (split; [intros -> | intros sid ->]; done).
Qed.

Lemma admin_unrestricted (db : Db) (pid : string) (q : option string) :
  unrestrictedScope db q
    (ExamsRouter.targetStudentIds db (Some "admin") pid q) ∧
  unrestrictedScope db q
    (AttendanceRouter.reportTargetStudentIds db (Some "admin") pid q).
Proof.
  unfold unrestrictedScope, ExamsRouter.targetStudentIds,
    AttendanceRouter.reportTargetStudentIds.
  role_tests. repeat split; try (intros -> ; done); intros sid ->; done.
Qed.

(** C4 (as amended): in the fee routes an admin or accountant, and in the
    exam-result and attendance-report routes an admin, gets every student
    id when no id is requested and exactly the requested id otherwise,
    whether or not such a student exists; the attendance summary reads no
    requested id and gives an admin every student id; the exam and
    attendance routes give an accountant the empty scope. *)
Theorem unrestricted_roles_scope (db : Db) (role pid : string)
    (q : option string) :
  role = "admin" ∨ role = "accountant" →
  unrestrictedScope db q (FeesRouter.targetStudentIds db (Some role) pid q) ∧
  unrestrictedScope db q
    (ExamsRouter.targetStudentIds db (Some "admin") pid q) ∧
  unrestrictedScope db q
    (AttendanceRouter.reportTargetStudentIds db (Some "admin") pid q) ∧
  AttendanceRouter.summaryTargetStudentIds db (Some "admin") pid
    = allStudentIds db ∧
  (∀ sid, sid ∈ allStudentIds db ↔
          ∃ s, s ∈ students db ∧ student_id s = sid) ∧
  ExamsRouter.targetStudentIds db (Some "accountant") pid q = [] ∧
  AttendanceRouter.reportTargetStudentIds db (Some "accountant") pid q = [] ∧
  AttendanceRouter.summaryTargetStudentIds db (Some "accountant") pid = [].
Proof.
  intros Hrole. split; [by apply fees_unrestricted|].
  destruct (admin_unrestricted db pid q) as [Hexams Hreport].
  repeat split; try done; try apply Hexams; try apply Hreport;
    apply elem_of_allStudentIds.
Qed.

(** The amended C4 for the accountant of the sample school: every student
    without a requested id, the requested id alone for an id that no student
    has. *)
Lemma unrestricted_roles_scope_witness :
  FeesRouter.targetStudentIds Sample.db (Some "accountant") "c1" None
    = ["s1"; "s2"; "s3"; "s4"] ∧
  FeesRouter.targetStudentIds Sample.db (Some "accountant") "c1"
    (Some "nobody") = ["nobody"].
Proof.
  destruct (unrestricted_roles_scope Sample.db "accountant" "c1" None)
    as [[Hall _] _]; [by right|].
  destruct (unrestricted_roles_scope Sample.db "accountant" "c1"
              (Some "nobody")) as [[_ Hone] _]; [by right|].
  split.
  - rewrite Hall; reflexivity.
  - apply Hone. reflexivity.
Defined.

(** C4 (counterexample): the accountant [c1] requests no id in GET
    /results; the computed scope is empty although the school has students,
    so it is not the set of all student ids. *)
Lemma accountant_results_scope_is_empty :
  ExamsRouter.targetStudentIds Sample.db (Some "accountant") "c1" None = [] ∧
  allStudentIds Sample.db = ["s1"; "s2"; "s3"; "s4"] ∧
  ExamsRouter.targetStudentIds Sample.db (Some "accountant") "c1" None
    ≠ allStudentIds Sample.db.
Proof. repeat split; vm_compute; congruence. Qed.

(** ** Profile resolution *)

Section Resolution.
Variable db : Db.
Variable getUser : string → option ClerkUser.
Variable req : AuthenticatedRequest.
Variable uid : string.
Hypothesis Huid : truthy (userId req) = Some uid.

Import ClerkMiddleware.

Lemma collectionHas_student :
  collectionHas db uid "student" ↔
  is_Some (findFirst (λ s, student_id s = uid) (students db)).
Proof.
  split.
  - intros [[s| | | | | |] Hp]; simpl in Hp; try done; try (by destruct Hp).
    destruct Hp as (_ & Hin & Hid). by eapply findFirst_is_Some.
  - intros [s Hs]. apply findFirst_Some in Hs as [? ?].
    by exists (StudentProfile s).
Qed.

Lemma collectionHas_teacher :
  collectionHas db uid "teacher" ↔
  is_Some (findFirst (λ t, teacher_id t = uid) (teachers db)).
Proof.
  split.
  - intros [[|t| | | | |] Hp]; simpl in Hp; try done; try (by destruct Hp).
    destruct Hp as (_ & Hin & Hid). by eapply findFirst_is_Some.
  - intros [t Ht]. apply findFirst_Some in Ht as [? ?].
    by exists (TeacherProfile t).
Qed.

Lemma collectionHas_parent :
  collectionHas db uid "parent" ↔
  is_Some (findFirst (λ p, parent_id p = uid) (parents db)).
Proof.
  split.
  - intros [[| |p| | | |] Hp]; simpl in Hp; try done; try (by destruct Hp).
    destruct Hp as (_ & Hin & Hid). by eapply findFirst_is_Some.
  - intros [p Hp]. apply findFirst_Some in Hp as [? ?].
    by exists (ParentProfile p).
Qed.

Lemma collectionHas_admin :
  collectionHas db uid "admin" ↔
  is_Some (findFirst (λ a, admin_id a = uid) (admins db)).
Proof.
  split.
  - intros [[| | |a| | |] Hp]; simpl in Hp; try done; try (by destruct Hp).
    destruct Hp as (_ & Hin & Hid). by eapply findFirst_is_Some.
  - intros [a Ha]. apply findFirst_Some in Ha as [? ?].
    by exists (AdminProfile a).
Qed.

Lemma collectionHas_accountant :
  collectionHas db uid "accountant" ↔
  is_Some (findFirst (λ a, accountant_id a = uid) (accountants db)).
Proof.
  split.
  - intros [[| | | |a| |] Hp]; simpl in Hp; try done; try (by destruct Hp).
    destruct Hp as (_ & Hin & Hid). by eapply findFirst_is_Some.
  - intros [a Ha]. apply findFirst_Some in Ha as [? ?].
    by exists (AccountantProfile a).
Qed.

(** Rewrites the lookup of table number [n] to [None] when no table
    before the winning one holds the id. *)
Ltac no_row Hb n lem :=
  let Hnone := fresh "Hnone" in
  match type of lem with
  | _ ↔ is_Some ?lookup =>
      assert (lookup = None) as Hnone
        by (apply eq_None_not_Some; intros Hsome;
            apply (Hb n _ eq_refl); [lia | by apply lem]);
      rewrite Hnone; clear Hnone
  end.

(** C5: the id is looked up as the internal id in the five profile
    tables, and the role is that of the first table, in the order
    student, teacher, parent, admin, accountant, that holds a row with
    this id, whatever the later tables hold; the profile is that row.
    Role and profile are read off the request handed on, whose other
    fields are those of the incoming request. *)
Theorem first_matching_collection_wins (i : nat) (role : string) :
  roleNames !! i = Some role →
  collectionHas db uid role →
  (∀ j earlier, (j < i)%nat → roleNames !! j = Some earlier →
                ¬ collectionHas db uid earlier) →
  ∃ req' profile,
    getUserProfile db getUser req = Next req' ∧
    userRole req' = Some role ∧
    userProfile req' = Some profile ∧
    profileIn db uid role profile ∧
    authorization req' = authorization req ∧
    userId req' = userId req ∧
    userEmail req' = userEmail req ∧
    signInId req' = signInId req.
Proof.
  intros Hrole Hhas Hbefore.
  assert (∀ j earlier, roleNames !! j = Some earlier → (j < i)%nat →
                       collectionHas db uid earlier → False) as Hb
    by (intros j earlier ? ? ?; by eapply Hbefore).
  unfold getUserProfile. rewrite Huid. cbv zeta.
  destruct i as [|[|[|[|[|i]]]]]; simpl in Hrole; [..|done];
    injection Hrole as <-.
  - apply collectionHas_student in Hhas as [s Hs]. rewrite Hs.
    eexists _, (StudentProfile s). split; [done|].
    apply findFirst_Some in Hs as [? ?]. done.
  - no_row Hb 0%nat collectionHas_student.
    apply collectionHas_teacher in Hhas as [t Ht]. rewrite Ht.
    eexists _, (TeacherProfile t). split; [done|].
    apply findFirst_Some in Ht as [? ?]. done.
  - no_row Hb 0%nat collectionHas_student.
    no_row Hb 1%nat collectionHas_teacher.
    apply collectionHas_parent in Hhas as [p Hp]. rewrite Hp.
    eexists _, (ParentProfile p). split; [done|].
    apply findFirst_Some in Hp as [? ?]. done.
  - no_row Hb 0%nat collectionHas_student.
    no_row Hb 1%nat collectionHas_teacher.
    no_row Hb 2%nat collectionHas_parent.
    apply collectionHas_admin in Hhas as [a Ha]. rewrite Ha.
    eexists _, (AdminProfile a). split; [done|].
    apply findFirst_Some in Ha as [? ?]. done.
  - no_row Hb 0%nat collectionHas_student.
    no_row Hb 1%nat collectionHas_teacher.
    no_row Hb 2%nat collectionHas_parent.
    no_row Hb 3%nat collectionHas_admin.
    apply collectionHas_accountant in Hhas as [a Ha]. rewrite Ha.
    eexists _, (AccountantProfile a). split; [done|].
    apply findFirst_Some in Ha as [? ?]. done.
Qed.

End Resolution.

(** C5 at a colliding id: [x] is a teacher, an admin and an accountant, and
    is resolved as the teacher. *)
Lemma first_matching_collection_wins_witness :
  ∃ req' profile,
    ClerkMiddleware.getUserProfile Sample.db_collision (λ _, None)
      (Sample.identified "x") = Next req' ∧
    userRole req' = Some "teacher" ∧
    userProfile req' = Some profile ∧
    profileIn Sample.db_collision "x" "teacher" profile ∧
    authorization req' = authorization (Sample.identified "x") ∧
    userId req' = userId (Sample.identified "x") ∧
    userEmail req' = userEmail (Sample.identified "x") ∧
    signInId req' = signInId (Sample.identified "x").
Proof.
  apply (first_matching_collection_wins Sample.db_collision (λ _, None)
           (Sample.identified "x") "x" eq_refl 1%nat "teacher").
  - reflexivity.
  - exists (TeacherProfile Sample.teacher_x). simpl.
    split; [reflexivity|]. split; [left | reflexivity].
  - intros j earlier Hj Hearlier [profile Hprofile].
    destruct j as [|j]; [|lia]. injection Hearlier as <-.
    destruct profile; simpl in Hprofile; try tauto;
      try (destruct Hprofile as [Hrole _]; discriminate).
    destruct Hprofile as (_ & Hin & Hid).
    apply list_elem_of_singleton in Hin. subst. discriminate.
Defined.

(** Credential verification never answers with anything but 401. *)
Lemma requireAuth_fails_with_401 (jwt_verify : string → option JWTPayload)
    (getAuth : AuthenticatedRequest → option (option string))
    (req : AuthenticatedRequest) (st : Z) :
  response_status (JwtMiddleware.requireAuth jwt_verify getAuth req).2
    = Some st → st = 401.
Proof.
  unfold JwtMiddleware.requireAuth.
  destruct (truthy (authorization req)) as [authHeader|]; simpl;
    [|congruence].
  destruct (String.prefix "Bearer " authHeader); simpl; [|congruence].
  destruct (jwt_verify _); simpl; [discriminate|].
  destruct (getAuth req) as [userId|]; simpl; [|congruence].
  destruct (truthy userId); simpl; [discriminate|congruence].
Qed.

(** The resolver answers 401 exactly when the request carries no user
    id. *)
Lemma getUserProfile_401 (db : Db) (getUser : string → option ClerkUser)
    (req : AuthenticatedRequest) :
  response_status (ClerkMiddleware.getUserProfile db getUser req) = Some 401
  ↔ truthy (userId req) = None.
Proof.
  unfold ClerkMiddleware.getUserProfile.
  destruct (truthy (userId req)) as [uid|]; [|done]. cbv zeta.
  split; [|done]. intros Hst. exfalso. revert Hst.
  destruct (findFirst _ (students db)); [done|].
  destruct (findFirst _ (teachers db)); [done|].
  destruct (findFirst _ (parents db)); [done|].
  destruct (findFirst _ (admins db)); [done|].
  destruct (findFirst _ (accountants db)); [done|].
  unfold ClerkMiddleware.metadataFallback.
  destruct (getUser uid) as [clerkUser|]; [|done].
  destruct (truthy _) as [role|]; [|done].
  repeat case_decide; try done.
  by destruct (findFirst _ (students db)).
Qed.

(** C6: a verified identity whose id is in none of the five tables, and
    whose provider metadata carries no role hint that lower-cases to one of
    the five role names, is answered with 404 (profile not found) and no
    profile is attached to the request; the resolver keeps 401 for a request
    without user id, and credential verification never answers 404. *)
Theorem unknown_identity_is_not_found (db : Db)
    (getUser : string → option ClerkUser) (req : AuthenticatedRequest)
    (uid : string) (clerkUser : ClerkUser) :
  truthy (userId req) = Some uid →
  (∀ role, ¬ collectionHas db uid role) →
  getUser uid = Some clerkUser →
  (∀ hint, publicMetadata_role clerkUser = Some hint →
           toLowerCase hint ∉ roleNames) →
  ClerkMiddleware.getUserProfile db getUser req
    = Respond 404 ClerkMiddleware.profileNotFound ∧
  (∀ req', response_status (ClerkMiddleware.getUserProfile db getUser req')
             = Some 401 ↔ truthy (userId req') = None) ∧
  (∀ jwt_verify getAuth req',
     response_status (JwtMiddleware.requireAuth jwt_verify getAuth req').2
       ≠ Some 404).
Proof.
  intros Huid Hnone Huser Hhint. split; [|split].
  2: { intros req'. apply getUserProfile_401. }
  - unfold ClerkMiddleware.getUserProfile. rewrite Huid. cbv zeta.
    rewrite (proj2 (eq_None_not_Some _)
               (λ H, Hnone _ (proj2 (collectionHas_student db uid) H))).
    rewrite (proj2 (eq_None_not_Some _)
               (λ H, Hnone _ (proj2 (collectionHas_teacher db uid) H))).
    rewrite (proj2 (eq_None_not_Some _)
               (λ H, Hnone _ (proj2 (collectionHas_parent db uid) H))).
    rewrite (proj2 (eq_None_not_Some _)
               (λ H, Hnone _ (proj2 (collectionHas_admin db uid) H))).
    rewrite (proj2 (eq_None_not_Some _)
               (λ H, Hnone _ (proj2 (collectionHas_accountant db uid) H))).
    unfold ClerkMiddleware.metadataFallback. rewrite Huser.
    destruct (truthy (toLowerCase <$> publicMetadata_role clerkUser))
      as [role|] eqn:Erole; [|done].
    apply truthy_Some in Erole as [Erole _].
    destruct (publicMetadata_role clerkUser) as [hint|] eqn:Ehint; [|done].
    injection Erole as <-.
    case_decide as Hvalid; [|done]. by destruct (Hhint hint).
  - intros jwt_verify getAuth req' Hst.
    by apply requireAuth_fails_with_401 in Hst.
Qed.

(** C6 at the sample school: [ghost] has no row and no role metadata. *)
Lemma unknown_identity_is_not_found_witness :
  ClerkMiddleware.getUserProfile Sample.db
    (λ id, Some (Sample.clerkUser id None)) (Sample.identified "ghost")
  = Respond 404 ClerkMiddleware.profileNotFound.
Proof.
  apply (unknown_identity_is_not_found Sample.db
           (λ id, Some (Sample.clerkUser id None))
           (Sample.identified "ghost") "ghost"
           (Sample.clerkUser "ghost" None)).
  - reflexivity.
  - intros role [profile Hprofile].
    destruct profile; simpl in Hprofile; try tauto;
      destruct Hprofile as (_ & Hin & Hid); subst;
      simpl in Hin;
      repeat (apply elem_of_cons in Hin as [-> | Hin]; [discriminate|]);
      by apply elem_of_nil in Hin.
  - reflexivity.
  - discriminate.
Defined.

(** When the provider cannot be asked, the answer is 500. *)
Lemma provider_failure_is_500 :
  response_status
    (ClerkMiddleware.getUserProfile Sample.db (λ _, None)
       (Sample.identified "ghost")) = Some 500.
Proof. reflexivity. Qed.

(** A role hint is accepted in any letter case and yields a temporary
    profile. *)
Lemma role_hint_synthesizes_profile :
  ClerkMiddleware.getUserProfile Sample.db
    (λ id, Some (Sample.clerkUser id (Some "Teacher")))
    (Sample.identified "ghost")
  = Next (ClerkMiddleware.withProfile (Sample.identified "ghost") "teacher"
            (TemporaryProfile "ghost" "Full Name" (Some "user@demo.com"))).
Proof. reflexivity. Qed.

(** ** Credential verification *)

Section CredentialVerification.
Variable jwt_verify : string → option JWTPayload.
Variable getAuth : AuthenticatedRequest → option (option string).
Variable req : AuthenticatedRequest.

Import JwtMiddleware.

Lemma requireAuth_no_bearer :
  bearerCredential req = None →
  requireAuth jwt_verify getAuth req
    = ([], Respond 401 "Authorization header required").
Proof.
  unfold bearerCredential, requireAuth, truthy.
  destruct (authorization req) as [authHeader|]; [|done].
  destruct (decide (authHeader = "")) as [->|_]; [done|].
  by destruct (String.prefix "Bearer " authHeader).
Qed.

Lemma requireAuth_bearer (token : string) :
  bearerCredential req = Some token →
  requireAuth jwt_verify getAuth req =
    match jwt_verify token with
    | Some decoded => ([JwtVerify token], Next (withJwt req decoded))
    | None =>
        match getAuth req with
        | Some userId =>
            match truthy userId with
            | None =>
                ([JwtVerify token; ClerkGetAuth],
                 Respond 401 "Invalid token")
            | Some uid =>
                ([JwtVerify token; ClerkGetAuth],
                 Next (withUserId req uid))
            end
        | None =>
            ([JwtVerify token; ClerkGetAuth],
             Respond 401 "Invalid authentication token")
        end
    end.
Proof.
  unfold bearerCredential, requireAuth, truthy.
  destruct (authorization req) as [authHeader|]; [|done].
  destruct (decide (authHeader = "")) as [->|_]; [done|].
  destruct (String.prefix "Bearer " authHeader); [|done].
  by intros [= <-].
Qed.

(** C7: the local signature check comes first and the provider is asked
    only after it failed; the answer is 401 exactly when the request has
    no bearer credential or both checks fail; when the local check
    succeeds the request goes on with the user id and the role of the
    signed payload, and the provider is not asked. *)
Theorem credential_verification :
  (response_status (requireAuth jwt_verify getAuth req).2 = Some 401 ↔
   bearerCredential req = None ∨
   ∃ token, bearerCredential req = Some token ∧
            jwt_verify token = None ∧ providerFails getAuth req) ∧
  (∀ token decoded,
     bearerCredential req = Some token → jwt_verify token = Some decoded →
     requireAuth jwt_verify getAuth req
       = ([JwtVerify token], Next (withJwt req decoded)) ∧
     userRole (withJwt req decoded) = Some (jwt_role decoded) ∧
     userId (withJwt req decoded) = Some (jwt_userId decoded)) ∧
  (ClerkGetAuth ∈ (requireAuth jwt_verify getAuth req).1 →
   ∃ token, bearerCredential req = Some token ∧ jwt_verify token = None ∧
            (requireAuth jwt_verify getAuth req).1
              = [JwtVerify token; ClerkGetAuth]) ∧
  (∀ token userId uid,
     bearerCredential req = Some token → jwt_verify token = None →
     getAuth req = Some userId → truthy userId = Some uid →
     (requireAuth jwt_verify getAuth req).2 = Next (withUserId req uid)).
Proof.
  destruct (bearerCredential req) as [token|] eqn:Ebearer.
  - rewrite (requireAuth_bearer token Ebearer). unfold providerFails.
    split; [split|split; [|split]].
    + intros Hst. right. exists token.
      destruct (jwt_verify token); [done|].
      destruct (getAuth req) as [userId|]; [|done].
      by destruct (truthy userId).
    + intros [?|(token' & [= <-] & -> & Hfail)]; [done|].
      destruct (getAuth req) as [userId|]; [|done].
      by rewrite Hfail.
    + intros token' decoded [= <-] ->. done.
    + intros Hcall. exists token.
      destruct (jwt_verify token).
      * apply list_elem_of_singleton in Hcall. discriminate.
      * split; [done|]. split; [done|].
        destruct (getAuth req) as [userId|]; [|done].
        by destruct (truthy userId).
    + intros token' userId uid [= <-] -> -> ->. done.
  - rewrite (requireAuth_no_bearer Ebearer).
    split; [split|split; [|split]]; try done.
    + intros _. by left.
    + simpl. intros Hcall. by apply elem_of_nil in Hcall.
Qed.

End CredentialVerification.

(** C7 on three requests: no header, a token the local check accepts, and a
    token both checks reject. *)
Example requireAuth_runs :
  let payload := {| jwt_userId := "u1"; jwt_email := "u1@demo.com";
                    jwt_role := "teacher" |} in
  let verify := λ token,
    if decide (token = "good") then Some payload else None in
  JwtMiddleware.requireAuth verify (λ _, None) (Sample.request None)
    = ([], Respond 401 "Authorization header required") ∧
  JwtMiddleware.requireAuth verify (λ _, None)
      (Sample.request (Some "Bearer good"))
    = ([JwtMiddleware.JwtVerify "good"],
       Next (JwtMiddleware.withJwt (Sample.request (Some "Bearer good"))
               payload)) ∧
  JwtMiddleware.requireAuth verify (λ _, Some None)
      (Sample.request (Some "Bearer bad"))
    = ([JwtMiddleware.JwtVerify "bad"; JwtMiddleware.ClerkGetAuth],
       Respond 401 "Invalid token").
Proof. repeat split. Qed.

(** ** Determinism of the scope computation *)


(** C8: the computed scope is a function of the role, the profile id, the
    requested id and the student, class and enrollment tables alone; two
    computations over states that agree on these tables, in particular two
    successive computations with no mutation in between, give the same
    list. *)
Theorem scope_is_deterministic (db1 db2 : Db) (userRole : option string)
    (pid : string) (requestedId : option string) :
  students db1 = students db2 →
  classes db1 = classes db2 →
  enrollments db1 = enrollments db2 →
  FeesRouter.targetStudentIds db1 userRole pid requestedId
    = FeesRouter.targetStudentIds db2 userRole pid requestedId ∧
  ExamsRouter.targetStudentIds db1 userRole pid requestedId
    = ExamsRouter.targetStudentIds db2 userRole pid requestedId ∧
  AttendanceRouter.summaryTargetStudentIds db1 userRole pid
    = AttendanceRouter.summaryTargetStudentIds db2 userRole pid ∧
  AttendanceRouter.reportTargetStudentIds db1 userRole pid requestedId
    = AttendanceRouter.reportTargetStudentIds db2 userRole pid requestedId.
Proof.
  intros Hstudents Hclasses Henrollments.
  unfold FeesRouter.targetStudentIds, ExamsRouter.targetStudentIds,
    AttendanceRouter.summaryTargetStudentIds,
    AttendanceRouter.reportTargetStudentIds,
    ExamsRouter.teacherStudentIds, AttendanceRouter.teacherStudentIds,
    childrenIds, children, allStudentIds, supervisedClasses,
    classEnrollments, enrollmentStudent.
  rewrite Hstudents, Hclasses, Henrollments. done.
Qed.

(** C8 around a payment: the scope of teacher [t1] is the same before and
    after student [s1] pays fee 1. *)
Lemma scope_is_deterministic_witness :
  let db' :=
    (FeesRouter.payment Sample.db (Some "student") "s1" 1 (Some 40)
       "cash" "ref").1 in
  db' ≠ Sample.db ∧
  ExamsRouter.targetStudentIds Sample.db (Some "teacher") "t1" None
    = ExamsRouter.targetStudentIds db' (Some "teacher") "t1" None.
Proof.
  split.
  - intros Heq. apply (f_equal payments) in Heq. discriminate.
  - apply (scope_is_deterministic Sample.db _ (Some "teacher") "t1" None);
      reflexivity.
Defined.

(** ** Login *)

Lemma substring_whole (s : string) :
  String.substring 0 (String.length s) s = s.
Proof. induction s as [|c s IH]; simpl; [done|]. by rewrite IH. Qed.

Lemma bearerCredential_of_token (req : AuthenticatedRequest) (token : string) :
  authorization req = Some ("Bearer " +:+ token) →
  bearerCredential req = Some token.
Proof.
  unfold bearerCredential, JwtMiddleware.bearerToken. intros ->.
  assert (String.prefix "Bearer " ("Bearer " +:+ token) = true) as ->.
  { simpl. by destruct token. }
  simpl. rewrite Nat.sub_0_r. by rewrite substring_whole.
Qed.

(** C9: a token issued by POST /login is the signature of a payload whose
    role is never empty; when the public metadata of the authenticated user
    holds no role the signed role is the literal [student], and a request
    bearing that token passes the local check of [requireAuth] as a
    student. *)
Theorem login_token_carries_role
    (getUserList : string → AuthRouter.ClerkResult (list ClerkUser))
    (verifyPassword : string → string → bool)
    (jwt_sign : JWTPayload → string)
    (email password : option string)
    (token : string) (user : AuthRouter.LoginUser) :
  AuthRouter.login getUserList verifyPassword jwt_sign email password
    = Success (token, user) →
  ∃ address clerkUser others,
    truthy email = Some address ∧
    getUserList address = AuthRouter.ClerkOk (clerkUser :: others) ∧
    token = jwt_sign (AuthRouter.jwtPayload clerkUser address) ∧
    jwt_role (AuthRouter.jwtPayload clerkUser address) ≠ "" ∧
    AuthRouter.login_role user
      = jwt_role (AuthRouter.jwtPayload clerkUser address) ∧
    (truthy (publicMetadata_role clerkUser) = None →
     jwt_role (AuthRouter.jwtPayload clerkUser address) = "student" ∧
     ∀ jwt_verify getAuth req,
       jwt_verify token = Some (AuthRouter.jwtPayload clerkUser address) →
       authorization req = Some ("Bearer " +:+ token) →
       ∃ req',
         JwtMiddleware.requireAuth jwt_verify getAuth req
           = ([JwtMiddleware.JwtVerify token], Next req') ∧
         userRole req' = Some "student" ∧
         userId req' = Some (clerk_id clerkUser)).
Proof.
  unfold AuthRouter.login. intros Hlogin.
  destruct (truthy email) as [address|] eqn:Eemail; [|done].
  destruct (truthy password) as [pw|] eqn:Epw; [|done].
  destruct (getUserList address) as [[|clerkUser others]|code] eqn:Elist;
    [done| |by case_decide].
  destruct (negb (verifyPassword (clerk_id clerkUser) pw)); [done|].
  injection Hlogin as <- <-.
  exists address, clerkUser, others.
  split; [done|]. split; [done|]. split; [done|].
  split; [by apply or_else_nonempty|]. split; [done|].
  intros Hnorole.
  assert (jwt_role (AuthRouter.jwtPayload clerkUser address) = "student")
    as Hrole.
  { simpl. unfold AuthRouter.loginRole, or_else. by rewrite Hnorole. }
  split; [done|].
  intros jwt_verify getAuth req Hverify Hheader.
  exists (JwtMiddleware.withJwt req (AuthRouter.jwtPayload clerkUser address)).
  rewrite (requireAuth_bearer jwt_verify getAuth req _
             (bearerCredential_of_token req _ Hheader)).
  rewrite Hverify. split; [done|]. split; [|done].
  simpl. unfold AuthRouter.loginRole, or_else. by rewrite Hnorole.
Qed.

(** C9 at a user without role metadata: the token signs the role
    [student]. *)
Lemma login_token_carries_role_witness :
  let getUserList := λ address : string,
    AuthRouter.ClerkOk [Sample.clerkUser "u9" None] in
  let jwt_sign := λ payload : JWTPayload,
    jwt_userId payload +:+ ":" +:+ jwt_role payload in
  ∃ user,
    AuthRouter.login getUserList (λ _ _, true) jwt_sign
      (Some "u9@demo.com") (Some "secret")
    = Success ("u9:student", user) ∧
    AuthRouter.login_role user = "student".
Proof.
  intros getUserList jwt_sign. eexists. split; [reflexivity|].
  destruct (login_token_carries_role getUserList (λ _ _, true) jwt_sign
              (Some "u9@demo.com") (Some "secret") "u9:student" _ eq_refl)
    as (address & clerkUser & others & Haddress & Hlist & _ & _ & Hrole & _).
  rewrite Hrole. injection Haddress as <-. injection Hlist as <- _.
  reflexivity.
Defined.

(** ** Payments *)

(** A payment succeeds only on a fee in the caller's scope. *)
Lemma payment_success_in_scope (db db' : Db) (userRole : option string)
    (pid : string) (feeId : Z) (amount : option Z)
    (method reference : string) (payment : Payment) (newStatus : FeeStatus) :
  FeesRouter.payment db userRole pid feeId amount method reference
    = (db', Success (payment, newStatus)) →
  ∃ fee, fees db !! feeId = Some fee ∧
    ((userRole = Some "student" ∧ fee_studentId fee = pid) ∨
     (userRole = Some "parent" ∧ fee_studentId fee ∈ childrenIds db pid)).
Proof.
  unfold FeesRouter.payment, FeesRouter.findFee.
  destruct (negb _); [done|].
  destruct (fees db !! feeId) as [fee|] eqn:Efee.
  - intros Hpay. exists fee. split; [done|].
    repeat case_decide; try done; auto.
  - by repeat case_decide.
Qed.



(** * Further properties of the middleware and the routes *)

(** ** Profile lookup by role *)

(** X1: the role-based profile middleware answers 401 exactly when the
    request lacks a user id or a role, and 400 exactly when both are there
    and the role is none of student, teacher, parent, admin; a caller whose
    token says [accountant] is therefore always answered 400, whatever the
    accountant table holds. *)
Theorem jwt_profile_statuses (db : Db) (req : AuthenticatedRequest) :
  (response_status (JwtProfile.getUserProfile db req) = Some 401 ↔
   truthy (userId req) = None ∨ truthy (userRole req) = None) ∧
  (response_status (JwtProfile.getUserProfile db req) = Some 400 ↔
   ∃ uid role, truthy (userId req) = Some uid ∧
               truthy (userRole req) = Some role ∧
               role ∉ ["student"; "teacher"; "parent"; "admin"]) ∧
  (is_Some (truthy (userId req)) → userRole req = Some "accountant" →
   JwtProfile.getUserProfile db req = Respond 400 "Invalid user role").
Proof.
  unfold JwtProfile.getUserProfile, JwtProfile.attach.
  destruct (truthy (userId req)) as [uid|] eqn:Euid;
    destruct (truthy (userRole req)) as [role|] eqn:Erole; simpl.
  - split; [|split].
    + split.
      * repeat case_decide;
          try (destruct (findFirst _ _); simpl; discriminate); discriminate.
      * intros [?|?]; discriminate.
    + split.
      * intros Hst. exists uid, role. split; [done|]. split; [done|].
        intros Hin. revert Hst.
        repeat (apply elem_of_cons in Hin as [-> | Hin];
                [repeat case_decide; try done;
                 destruct (findFirst _ _); simpl; discriminate|]).
        by apply elem_of_nil in Hin.
      * intros (uid' & role' & [= <-] & [= <-] & Hout).
        repeat case_decide; subst; try done;
          exfalso; apply Hout; set_solver.
    + intros _ Hrole. rewrite Hrole in Erole.
      injection Erole as <-. by repeat case_decide.
  - split; [|split].
    + split; [intros _; by right | done].
    + split; [done | intros (? & ? & ? & ? & _); discriminate].
    + intros _ Hrole. rewrite Hrole in Erole. discriminate.
  - split; [|split].
    + split; [intros _; by left | done].
    + split; [done | intros (? & ? & ? & ? & _); discriminate].
    + intros [? ?]; discriminate.
  - split; [|split].
    + split; [intros _; by left | done].
    + split; [done | intros (? & ? & ? & ? & _); discriminate].
    + intros [? ?]; discriminate.
Qed.

(** X1 at the sample school: the accountant [c1] has a row, and is answered
    400. *)
Lemma jwt_profile_statuses_witness :
  JwtProfile.getUserProfile Sample.db
    {| authorization := None; userId := Some "c1";
       userRole := Some "accountant"; userEmail := Some "c1";
       signInId := None; userProfile := None |}
  = Respond 400 "Invalid user role".
Proof.
  apply jwt_profile_statuses; [by eexists | reflexivity].
Defined.

(** X2: when the role-based profile middleware lets a request through, the
    request handed on carries as its profile a row of the table named by
    the token's role, found by the token's user id or by the token's e-mail
    as username, and every other field of the request is as it came in. *)
Theorem jwt_profile_attached (db : Db) (req req' : AuthenticatedRequest) :
  JwtProfile.getUserProfile db req = Next req' →
  ∃ uid role profile,
    truthy (userId req) = Some uid ∧ truthy (userRole req) = Some role ∧
    userProfile req' = Some profile ∧
    profileFound db uid (userEmail req) role profile ∧
    authorization req' = authorization req ∧
    userId req' = userId req ∧
    userRole req' = userRole req ∧
    userEmail req' = userEmail req ∧
    signInId req' = signInId req.
Proof.
  unfold JwtProfile.getUserProfile, JwtProfile.attach.
  destruct (truthy (userId req)) as [uid|]; [|done].
  destruct (truthy (userRole req)) as [role|]; [|done].
  intros Hnext. exists uid, role.
  repeat case_decide; try done; subst;
    (destruct (findFirst _ _) as [row|] eqn:Efind; simpl in Hnext; [|done]);
    injection Hnext as <-; apply findFirst_Some in Efind as [Hin Hmatch];
    eexists; (split; [done|]); (split; [done|]);
    (split; [reflexivity|]); simpl; done.
Qed.

(** X2 at the sample school: a token for an unknown id whose e-mail is the
    username of teacher [t2] resolves to that teacher. *)
Lemma jwt_profile_attached_witness :
  ∃ req' profile,
    JwtProfile.getUserProfile Sample.db
      {| authorization := None; userId := Some "u7";
         userRole := Some "teacher"; userEmail := Some "t2";
         signInId := None; userProfile := None |} = Next req' ∧
    userProfile req' = Some profile ∧
    profileFound Sample.db "u7" (Some "t2") "teacher" profile ∧
    userId req' = Some "u7" ∧ userRole req' = Some "teacher".
Proof.
  destruct (jwt_profile_attached Sample.db
              {| authorization := None; userId := Some "u7";
                 userRole := Some "teacher"; userEmail := Some "t2";
                 signInId := None; userProfile := None |} _ eq_refl)
    as (uid & role & profile & [= <-] & [= <-] & Hprofile & Hfound
        & _ & Hid & Hrole & _).
  eexists _, profile. split; [reflexivity|].
  split; [exact Hprofile|]. split; [exact Hfound|].
  split; [exact Hid | exact Hrole].
Defined.

(** X3: a request that carried no role and was authenticated by the
    provider (the local signature check having failed) is always answered
    401 by the role-based profile middleware: only locally signed tokens
    bring a role. *)
Theorem provider_callers_have_no_role
    (jwt_verify : string → option JWTPayload)
    (getAuth : AuthenticatedRequest → option (option string))
    (db : Db) (req req' : AuthenticatedRequest)
    (calls : list JwtMiddleware.ExternalCall) :
  userRole req = None →
  JwtMiddleware.requireAuth jwt_verify getAuth req = (calls, Next req') →
  JwtMiddleware.ClerkGetAuth ∈ calls →
  JwtProfile.getUserProfile db req'
    = Respond 401 "User authentication required".
Proof.
  intros Hrole Hauth Hcall.
  destruct (bearerCredential req) as [token|] eqn:Ebearer.
  - rewrite (requireAuth_bearer jwt_verify getAuth req token Ebearer) in Hauth.
    destruct (jwt_verify token).
    { injection Hauth as <- _.
      apply list_elem_of_singleton in Hcall. discriminate. }
    destruct (getAuth req) as [providerId|]; [|discriminate].
    destruct (truthy providerId) as [uid|]; [|discriminate].
    injection Hauth as _ <-.
    unfold JwtProfile.getUserProfile.
    cbn [userId userRole JwtMiddleware.withUserId]. rewrite Hrole.
    destruct (truthy (Some uid)); reflexivity.
  - rewrite (requireAuth_no_bearer jwt_verify getAuth req Ebearer) in Hauth.
    discriminate.
Qed.

(** X3 on a provider token: local verification fails, the provider knows
    the caller as [s1], and the profile middleware answers 401 although
    [s1] is a student of the sample school. *)
Lemma provider_callers_have_no_role_witness :
  JwtProfile.getUserProfile Sample.db
    (JwtMiddleware.withUserId (Sample.request (Some "Bearer web")) "s1")
  = Respond 401 "User authentication required".
Proof.
  apply (provider_callers_have_no_role (λ _, None) (λ _, Some (Some "s1"))
           Sample.db (Sample.request (Some "Bearer web")) _
           [JwtMiddleware.JwtVerify "web"; JwtMiddleware.ClerkGetAuth]).
  - reflexivity.
  - reflexivity.
  - right. left.
Defined.

(** ** The Clerk-based middleware pair *)

Lemma clerk_finish_next (req req' : AuthenticatedRequest)
    (found : option string) :
  ClerkAuth.finish req found = Next req' →
  ∃ uid, truthy found = Some uid ∧ req' = ClerkAuth.withUserId req uid.
Proof.
  unfold ClerkAuth.finish. destruct (truthy found) as [uid|]; [|done].
  intros [= <-]. by exists uid.
Qed.

Lemma clerk_finish_status (req : AuthenticatedRequest)
    (found : option string) (st : Z) (e : string) :
  ClerkAuth.finish req found = Respond st e → st = 401.
Proof.
  unfold ClerkAuth.finish. destruct (truthy found); [done|].
  by intros [= <- _].
Qed.

(** X4: the Clerk-based [requireAuth] answers with 401 whenever it refuses;
    when it lets a request through, the request handed on carries a
    non-empty user id, taken from the session if there is one and otherwise
    from the verified token, and every other field is as it came in; and
    with a session the token is not looked at: whatever the token check
    would say, the same request is handed on. *)
Theorem clerk_auth_outcomes
    (getAuth : AuthenticatedRequest → option (option string))
    (verifyToken : string → ClerkAuth.VerifyError + string)
    (req : AuthenticatedRequest) :
  (∀ st e, ClerkAuth.requireAuth getAuth verifyToken req = Respond st e →
           st = 401) ∧
  (∀ req', ClerkAuth.requireAuth getAuth verifyToken req = Next req' →
     ∃ uid, uid ≠ "" ∧ userId req' = Some uid ∧
       (truthy (default None (getAuth req)) = Some uid ∨
        ∃ authHeader,
          truthy (default None (getAuth req)) = None ∧
          truthy (authorization req) = Some authHeader ∧
          verifyToken (ClerkAuth.removeFirst "Bearer " authHeader)
            = inr uid) ∧
       authorization req' = authorization req ∧
       userRole req' = userRole req ∧
       userEmail req' = userEmail req ∧
       signInId req' = signInId req ∧
       userProfile req' = userProfile req) ∧
  (∀ uid, truthy (default None (getAuth req)) = Some uid →
     ∃ req', userId req' = Some uid ∧
       ∀ verifyToken',
         ClerkAuth.requireAuth getAuth verifyToken' req = Next req').
Proof.
  unfold ClerkAuth.requireAuth.
  destruct (truthy (default None (getAuth req))) as [session|] eqn:Esession.
  - split; [|split].
    + intros st e Hr.
      assert (ClerkAuth.finish req (default None (getAuth req))
              = Respond st e) as Hfin
        by (destruct (truthy (authorization req)); exact Hr).
      by apply clerk_finish_status in Hfin.
    + intros req' Hr.
      assert (ClerkAuth.finish req (default None (getAuth req)) = Next req')
        as Hfin by (destruct (truthy (authorization req)); exact Hr).
      apply clerk_finish_next in Hfin as (uid & Huid & ->).
      exists uid. rewrite Esession in Huid. injection Huid as ->.
      apply truthy_Some in Esession as [_ Hne].
      split; [done|]. split; [done|]. split; [by left | done].
    + intros uid [= <-].
      exists (ClerkAuth.withUserId req session). split; [done|].
      intros verifyToken'.
      assert (ClerkAuth.finish req (default None (getAuth req))
              = Next (ClerkAuth.withUserId req session)) as Hfin
        by (unfold ClerkAuth.finish; by rewrite Esession).
      by destruct (truthy (authorization req)).
  - split; [|split]; [| |done].
    + intros st e Hr.
      destruct (truthy (authorization req)) as [authHeader|];
        [|by apply clerk_finish_status in Hr].
      destruct (verifyToken _) as [[| |]|sub];
        try (by apply clerk_finish_status in Hr); by injection Hr as <- _.
    + intros req' Hr.
      destruct (truthy (authorization req)) as [authHeader|].
      * destruct (verifyToken _) as [[| |]|sub] eqn:Everify; try done.
        -- apply clerk_finish_next in Hr as (uid & Huid & _).
           rewrite Esession in Huid. discriminate.
        -- apply clerk_finish_next in Hr as (uid & Huid & ->).
           apply truthy_Some in Huid as [[= <-] Hne].
           exists sub. split; [done|]. split; [done|].
           split; [|done]. right. by exists authHeader.
      * apply clerk_finish_next in Hr as (uid & Huid & _).
        rewrite Esession in Huid. discriminate.
Qed.

(** X5: whenever the Clerk-based resolver lets a request through, the
    request handed on carries a role that is one of the five role names
    and a profile: either a row of the table of that role with the
    caller's id, or, when no table holds the id, a temporary profile; its
    other fields are as they came in. *)
Theorem clerk_resolver_invariant (db : Db)
    (getUser : string → option ClerkUser)
    (req req' : AuthenticatedRequest) :
  ClerkMiddleware.getUserProfile db getUser req = Next req' →
  ∃ uid role profile,
    truthy (userId req) = Some uid ∧
    userRole req' = Some role ∧
    userProfile req' = Some profile ∧
    role ∈ roleNames ∧
    (profileIn db uid role profile ∨
     (temporary profile ∧ ∀ r, ¬ collectionHas db uid r)) ∧
    authorization req' = authorization req ∧
    userId req' = userId req ∧
    userEmail req' = userEmail req ∧
    signInId req' = signInId req.
Proof.
  unfold ClerkMiddleware.getUserProfile.
  destruct (truthy (userId req)) as [uid|] eqn:Euid; [|done]. cbv zeta.
  intros Hnext. exists uid.
  destruct (findFirst _ (students db)) as [s|] eqn:Es.
  { injection Hnext as <-. exists "student", (StudentProfile s).
    apply findFirst_Some in Es as [? ?].
    split; [done|]. split; [done|]. split; [done|].
    split; [set_solver|]. split; [by left | done]. }
  destruct (findFirst _ (teachers db)) as [t|] eqn:Et.
  { injection Hnext as <-. exists "teacher", (TeacherProfile t).
    apply findFirst_Some in Et as [? ?].
    split; [done|]. split; [done|]. split; [done|].
    split; [set_solver|]. split; [by left | done]. }
  destruct (findFirst _ (parents db)) as [p|] eqn:Ep.
  { injection Hnext as <-. exists "parent", (ParentProfile p).
    apply findFirst_Some in Ep as [? ?].
    split; [done|]. split; [done|]. split; [done|].
    split; [set_solver|]. split; [by left | done]. }
  destruct (findFirst _ (admins db)) as [a|] eqn:Ea.
  { injection Hnext as <-. exists "admin", (AdminProfile a).
    apply findFirst_Some in Ea as [? ?].
    split; [done|]. split; [done|]. split; [done|].
    split; [set_solver|]. split; [by left | done]. }
  destruct (findFirst _ (accountants db)) as [c|] eqn:Ec.
  { injection Hnext as <-. exists "accountant", (AccountantProfile c).
    apply findFirst_Some in Ec as [? ?].
    split; [done|]. split; [done|]. split; [done|].
    split; [set_solver|]. split; [by left | done]. }
  assert (∀ r, ¬ collectionHas db uid r) as Hnone.
  { intros r [profile Hp].
    destruct profile; simpl in Hp; try done;
      destruct Hp as (_ & Hin & Hid).
    - by apply (proj1 (findFirst_None _ _) Es s).
    - by apply (proj1 (findFirst_None _ _) Et t).
    - by apply (proj1 (findFirst_None _ _) Ep p).
    - by apply (proj1 (findFirst_None _ _) Ea a).
    - by apply (proj1 (findFirst_None _ _) Ec a). }
  unfold ClerkMiddleware.metadataFallback in Hnext.
  destruct (getUser uid) as [clerkUser|]; [|done].
  destruct (truthy (toLowerCase <$> _)) as [role|]; [|done].
  destruct (decide (role ∈ roleNames)) as [Hvalid|]; [|done].
  destruct (decide (role = "student")) as [Hstudent|Hstudent].
  - rewrite Es in Hnext. injection Hnext as <-.
    eexists role, _. split; [done|]. split; [reflexivity|].
    split; [reflexivity|]. split; [done|]. split; [by right | done].
  - injection Hnext as <-.
    eexists role, _. split; [done|]. split; [reflexivity|].
    split; [reflexivity|]. split; [done|]. split; [by right | done].
Qed.

(** X5 at the sample school: an unknown id whose metadata says [PARENT]
    gets the role [parent] and a temporary profile. *)
Lemma clerk_resolver_invariant_witness :
  ∃ req' profile,
    ClerkMiddleware.getUserProfile Sample.db
      (λ id, Some (Sample.clerkUser id (Some "PARENT")))
      (Sample.identified "ghost") = Next req' ∧
    userRole req' = Some "parent" ∧
    userProfile req' = Some profile ∧
    temporary profile ∧
    userId req' = Some "ghost".
Proof.
  destruct (clerk_resolver_invariant Sample.db
              (λ id, Some (Sample.clerkUser id (Some "PARENT")))
              (Sample.identified "ghost") _ eq_refl)
    as (uid & role & profile & _ & Hrole & Hprofile & _ & Hkind
        & _ & Hid & _).
  vm_compute in Hrole. injection Hrole as <-.
  eexists _, profile. split; [reflexivity|].
  split; [reflexivity|]. split; [exact Hprofile|]. split; [|exact Hid].
  injection Hprofile as <-. exact I.
Defined.

(** X6: a request let through by the Clerk-based [requireAuth] is never
    answered 401 by the Clerk-based resolver: it goes on, or is answered
    404 (no profile) or 500 (provider failure). *)
Theorem clerk_pipeline_statuses
    (getAuth : AuthenticatedRequest → option (option string))
    (verifyToken : string → ClerkAuth.VerifyError + string)
    (db : Db) (getUser : string → option ClerkUser)
    (req req' : AuthenticatedRequest) :
  ClerkAuth.requireAuth getAuth verifyToken req = Next req' →
  response_status (ClerkMiddleware.getUserProfile db getUser req') = None ∨
  response_status (ClerkMiddleware.getUserProfile db getUser req') = Some 404 ∨
  response_status (ClerkMiddleware.getUserProfile db getUser req') = Some 500.
Proof.
  intros Hauth.
  assert (∃ uid, truthy (userId req') = Some uid) as [uid Huid].
  { unfold ClerkAuth.requireAuth in Hauth.
    assert (∃ found, ClerkAuth.finish req found = Next req') as [found Hfin].
    { destruct (truthy (default None (getAuth req)));
        destruct (truthy (authorization req)); eauto.
      destruct (verifyToken _) as [[| |]|sub]; eauto; done. }
    apply clerk_finish_next in Hfin as (uid & Huid & ->).
    exists uid. simpl. apply truthy_Some in Huid as [_ Hne].
    by apply truthy_nonempty. }
  unfold ClerkMiddleware.getUserProfile. rewrite Huid. cbv zeta.
  destruct (findFirst _ (students db)); [by left|].
  destruct (findFirst _ (teachers db)); [by left|].
  destruct (findFirst _ (parents db)); [by left|].
  destruct (findFirst _ (admins db)); [by left|].
  destruct (findFirst _ (accountants db)); [by left|].
  unfold ClerkMiddleware.metadataFallback.
  destruct (getUser uid); [|by right; right].
  destruct (truthy (toLowerCase <$> _)); [|by right; left].
  repeat case_decide; try (by left); try (by right; left).
  destruct (findFirst _ (students db)); by left.
Qed.

(** X6 on a web token: the provider verifies the token of [t1], who is
    resolved as a teacher. *)
Lemma clerk_pipeline_statuses_witness :
  response_status
    (ClerkMiddleware.getUserProfile Sample.db (λ _, None)
       (ClerkAuth.withUserId (Sample.request (Some "Bearer web")) "t1"))
  = None.
Proof.
  destruct (clerk_pipeline_statuses (λ _, None) (λ _, inr "t1") Sample.db
              (λ _, None) (Sample.request (Some "Bearer web")) _ eq_refl)
    as [Hnext | [Hst | Hst]]; [exact Hnext | discriminate Hst ..].
Defined.

Lemma prefix_append (p t : string) : String.prefix p (p +:+ t) = true.
Proof.
  induction p as [|c p IH]; simpl; [by destruct t|].
  by destruct (ascii_dec c c).
Qed.

Lemma substring_after_prefix (p t : string) :
  String.substring (String.length p)
    (String.length (p +:+ t) - String.length p) (p +:+ t) = t.
Proof.
  induction p as [|c p IH]; simpl; [|exact IH].
  rewrite Nat.sub_0_r. apply substring_whole.
Qed.

Lemma removeFirst_unfold (pattern s : string) :
  ClerkAuth.removeFirst pattern s =
  if String.prefix pattern s
  then String.substring (String.length pattern)
         (String.length s - String.length pattern) s
  else match s with
       | EmptyString => EmptyString
       | String c rest => String c (ClerkAuth.removeFirst pattern rest)
       end.
Proof. by destruct s. Qed.

(** X7: both [requireAuth] middlewares read the same token out of a header
    of the form [Bearer <token>]: removing the first [Bearer ] and taking
    the substring from position 7 both give the token back, whatever the
    token is (also when it contains [Bearer ] itself). *)
Theorem bearer_token_round_trip (token : string) :
  ClerkAuth.removeFirst "Bearer " ("Bearer " +:+ token) = token ∧
  JwtMiddleware.bearerToken ("Bearer " +:+ token) = token ∧
  ∀ pattern, ClerkAuth.removeFirst pattern (pattern +:+ token) = token.
Proof.
  assert (∀ pattern,
            ClerkAuth.removeFirst pattern (pattern +:+ token) = token) as H.
  { intros pattern. rewrite removeFirst_unfold, prefix_append.
    apply substring_after_prefix. }
  split; [apply H|]. split; [|exact H].
  unfold JwtMiddleware.bearerToken.
  apply (substring_after_prefix "Bearer " token).
Qed.

(** ** Payments and fee reports *)


Lemma payment_writes_in_scope (rejects : PaymentWrites.Write → bool)
    (db : Db) (userRole : option string) (pid : string)
    (feeId : Z) (fee : Fee) (a : Z) (method reference : string) :
  fees db !! feeId = Some fee → feeInScope db userRole pid fee →
  PaymentWrites.payment rejects db userRole pid feeId (Some a)
    method reference =
  let payment := {| payment_amount := a; payment_method := method;
                    payment_reference := reference;
                    payment_feeId := feeId |} in
  let newPaid := paidAmount fee + a in
  let newStatus :=
    if decide (totalAmount fee ≤ newPaid) then PAID else PARTIAL in
  if decide (PaymentWrites.fitsBigInt a ∧
             rejects PaymentWrites.CreatePayment = false)
  then if decide (PaymentWrites.fitsBigInt newPaid ∧
                  rejects PaymentWrites.UpdateFee = false)
       then (PaymentWrites.updateFee
               (PaymentWrites.createPayment db payment) feeId newPaid
               newStatus,
             Success (payment, newStatus))
       else (PaymentWrites.createPayment db payment,
             Failure 500 "Failed to process payment")
  else (db, Failure 500 "Failed to process payment").
Proof.
  intros Hfee Hscope.
  unfold PaymentWrites.payment, FeesRouter.findFee. rewrite Hfee.
  destruct Hscope as [[-> Hown] | [-> Hown]].
  - change (roleAllowed ["student"; "parent"] (Some "student")) with true.
    simpl negb. cbv iota. by role_tests.
  - change (roleAllowed ["student"; "parent"] (Some "parent")) with true.
    simpl negb. cbv iota. by role_tests.
Qed.

Lemma payment_writes_cases (rejects : PaymentWrites.Write → bool)
    (db : Db) (userRole : option string) (pid : string)
    (feeId : Z) (amount : option Z) (method reference : string) :
  (∃ st e,
     PaymentWrites.payment rejects db userRole pid feeId amount
       method reference = (db, Failure st e) ∧
     (st = 403 ∨ st = 404 ∨ st = 500)) ∨
  (∃ fee a, fees db !! feeId = Some fee ∧ amount = Some a ∧
            feeInScope db userRole pid fee).
Proof.
  unfold PaymentWrites.payment, FeesRouter.findFee, feeInScope.
  destruct (negb _); [left; eauto 6|].
  destruct (fees db !! feeId) as [fee|] eqn:Efee.
  - destruct amount as [a|].
    + destruct (decide (userRole = Some "student")) as [->|].
      { destruct (decide (fee_studentId fee = pid));
          [right; exists fee, a; auto | left; eauto 6]. }
      destruct (decide (userRole = Some "parent")) as [->|];
        [|left; eauto 6].
      destruct (decide (fee_studentId fee ∈ childrenIds db pid));
        [right; exists fee, a; auto | left; eauto 6].
    + repeat case_decide; left; eauto 6.
  - repeat case_decide; left; eauto 6.
Qed.

(** A write is rejected when the value does not fit or the store says
    so. *)
Lemma not_accepted (z : Z) (b : bool) :
  ¬ (PaymentWrites.fitsBigInt z ∧ b = false) ↔
  ¬ PaymentWrites.fitsBigInt z ∨ b = true.
Proof.
  destruct (decide (PaymentWrites.fitsBigInt z)), b; intuition congruence.
Qed.

(** [FeesRouter.payment], in which both writes go through, is
    [PaymentWrites.payment] at a store that rejects nothing and at amounts
    that fit the columns. *)
Lemma payment_writes_agree (db : Db) (userRole : option string)
    (pid : string) (feeId : Z) (amount : option Z)
    (method reference : string) :
  (∀ fee a, fees db !! feeId = Some fee → amount = Some a →
            PaymentWrites.fitsBigInt a ∧
            PaymentWrites.fitsBigInt (paidAmount fee + a)) →
  PaymentWrites.payment (λ _, false) db userRole pid feeId amount
    method reference
  = FeesRouter.payment db userRole pid feeId amount method reference.
Proof.
  intros Hfits.
  unfold PaymentWrites.payment, FeesRouter.payment, FeesRouter.findFee.
  destruct (negb _); [done|].
  destruct (fees db !! feeId) as [fee|] eqn:Efee;
    [|by repeat case_decide].
  destruct amount as [a|]; [|by repeat case_decide].
  destruct (Hfits fee a eq_refl eq_refl) as [Ha Hsum].
  repeat case_decide; try done; tauto.
Qed.

(** X8: what a refused payment request leaves behind. POST /payment
    answers an error with 403, 404 or 500; a refused request never changes
    a fee, and with 403 or 404 it changes nothing at all. With 500 the
    database is either unchanged or holds one more payment row, the one of
    this request: this happens exactly when the row was created and the
    update of the fee was then rejected, because the new paid amount does
    not fit the 64-bit column or for a reason of the store. A caller whose
    role is neither student nor parent is always refused with 403. *)
Theorem refused_payment_effect (rejects : PaymentWrites.Write → bool)
    (db : Db) (userRole : option string) (pid : string) (feeId : Z)
    (amount : option Z) (method reference : string) :
  (∀ db' st e,
     PaymentWrites.payment rejects db userRole pid feeId amount
       method reference = (db', Failure st e) →
     (st = 403 ∨ st = 404 ∨ st = 500) ∧
     fees db' = fees db ∧
     (st ≠ 500 → db' = db) ∧
     (db' = db ∨
      ∃ fee a,
        st = 500 ∧
        amount = Some a ∧ fees db !! feeId = Some fee ∧
        feeInScope db userRole pid fee ∧
        -2 ^ 63 ≤ a < 2 ^ 63 ∧
        rejects PaymentWrites.CreatePayment = false ∧
        (¬ (-2 ^ 63 ≤ paidAmount fee + a < 2 ^ 63) ∨
         rejects PaymentWrites.UpdateFee = true) ∧
        payments db' =
          (payments db ++
             [ {| payment_amount := a; payment_method := method;
                  payment_reference := reference;
                  payment_feeId := feeId |} ])%list)) ∧
  (∀ fee a,
     amount = Some a → fees db !! feeId = Some fee →
     feeInScope db userRole pid fee →
     -2 ^ 63 ≤ a < 2 ^ 63 →
     rejects PaymentWrites.CreatePayment = false →
     ¬ (-2 ^ 63 ≤ paidAmount fee + a < 2 ^ 63) ∨
       rejects PaymentWrites.UpdateFee = true →
     ∃ db',
       PaymentWrites.payment rejects db userRole pid feeId amount
         method reference
         = (db', Failure 500 "Failed to process payment") ∧
       fees db' = fees db ∧
       payments db' =
         (payments db ++
            [ {| payment_amount := a; payment_method := method;
                 payment_reference := reference;
                 payment_feeId := feeId |} ])%list) ∧
  (userRole ≠ Some "student" → userRole ≠ Some "parent" →
   PaymentWrites.payment rejects db userRole pid feeId amount
     method reference
     = (db, Failure 403 "Insufficient permissions")).
Proof.
  split; [|split].
  - intros db' st e Hpay.
    destruct (payment_writes_cases rejects db userRole pid feeId amount
                method reference)
      as [(st' & e' & Hfail & Hst) | (fee & a & Hfee & -> & Hscope)].
    + rewrite Hfail in Hpay. injection Hpay as <- <- _. auto.
    + rewrite (payment_writes_in_scope _ _ _ _ _ _ _ _ _ Hfee Hscope)
        in Hpay.
      cbv zeta in Hpay.
      destruct (decide (_ ∧ rejects PaymentWrites.CreatePayment = false))
        as [Hcreate|Hcreate].
      * destruct (decide (_ ∧ rejects PaymentWrites.UpdateFee = false))
          as [Hupdate|Hupdate]; [discriminate|].
        injection Hpay as <- <- _.
        split; [auto|]. split; [reflexivity|]. split; [done|].
        destruct Hcreate as [Ha Hcreate].
        right. exists fee, a. split; [done|]. split; [done|].
        split; [done|]. split; [done|]. split; [done|]. split; [done|].
        split; [by apply not_accepted | reflexivity].
      * injection Hpay as <- <- _. auto.
  - intros fee a -> Hfee Hscope Ha Hcreate Hupdate.
    rewrite (payment_writes_in_scope _ _ _ _ _ _ _ _ _ Hfee Hscope).
    cbv zeta. rewrite decide_True by done.
    rewrite decide_False by (by apply not_accepted).
    eexists. split; [reflexivity|]. split; reflexivity.
  - intros Hs Hp. unfold PaymentWrites.payment, roleAllowed.
    destruct (truthy userRole) as [role|] eqn:Erole; [|done].
    apply truthy_Some in Erole as [-> _].
    rewrite bool_decide_eq_false_2; [done|].
    intros Hin. apply elem_of_cons in Hin as [-> | Hin]; [done|].
    apply list_elem_of_singleton in Hin as ->. done.
Qed.

(** X8 at the sample school: [s3] pays [2^63 - 1] on fee 2, of which 10
    are paid; the row is created, the new paid amount does not fit, the
    answer is 500 and the row stays. *)
Lemma refused_payment_effect_witness :
  ∃ db',
    PaymentWrites.payment (λ _, false) Sample.db (Some "student") "s3" 2
      (Some (2 ^ 63 - 1)) "cash" "ref"
      = (db', Failure 500 "Failed to process payment") ∧
    fees db' = fees Sample.db ∧
    payments db' =
      [ {| payment_amount := 2 ^ 63 - 1; payment_method := "cash";
           payment_reference := "ref"; payment_feeId := 2 |} ].
Proof.
  destruct (refused_payment_effect (λ _, false) Sample.db (Some "student")
              "s3" 2 (Some (2 ^ 63 - 1)) "cash" "ref") as (_ & Hkept & _).
  apply (Hkept Sample.fee2 (2 ^ 63 - 1)).
  - reflexivity.
  - vm_compute; reflexivity.
  - left. split; reflexivity.
  - lia.
  - reflexivity.
  - left. simpl. lia.
Defined.

Lemma sumZ_app (l1 l2 : list Z) : sumZ (l1 ++ l2) = sumZ l1 + sumZ l2.
Proof.
  unfold sumZ. induction l1 as [|x l1 IH]; simpl; [done|]. rewrite IH. lia.
Qed.

Lemma paidFor_createPayment (db : Db) (payment : Payment) (k : Z) :
  paidFor (PaymentWrites.createPayment db payment) k =
  paidFor db k +
  (if decide (payment_feeId payment = k) then payment_amount payment else 0).
Proof.
  unfold paidFor. simpl. rewrite filter_app, fmap_app, sumZ_app.
  f_equal. rewrite filter_cons, filter_nil.
  case_decide; simpl; lia.
Qed.

(** X9: POST /payment and the ledger. If every fee's paid amount is the
    sum of the payment rows recorded for it, the same holds after a
    request that is answered with success, 403 or 404, and after any
    request that adds no payment row. It does not hold after a request
    with a non-zero amount whose payment row was created and whose fee
    update was rejected: the answer is 500, the fee is as before and its
    rows sum to the former paid amount plus the amount of the request. *)
Theorem payment_ledger (rejects : PaymentWrites.Write → bool)
    (db db' : Db) (userRole : option string) (pid : string) (feeId : Z)
    (amount : option Z) (method reference : string)
    (outcome : Outcome (Payment * FeeStatus)) :
  ledgerConsistent db →
  PaymentWrites.payment rejects db userRole pid feeId amount
    method reference = (db', outcome) →
  (status_of outcome ≠ 500 ∨ payments db' = payments db →
   ledgerConsistent db') ∧
  (∀ fee a,
     amount = Some a → fees db !! feeId = Some fee →
     feeInScope db userRole pid fee →
     -2 ^ 63 ≤ a < 2 ^ 63 →
     rejects PaymentWrites.CreatePayment = false →
     ¬ (-2 ^ 63 ≤ paidAmount fee + a < 2 ^ 63) ∨
       rejects PaymentWrites.UpdateFee = true →
     status_of outcome = 500 ∧
     fees db' !! feeId = Some fee ∧
     paidFor db' feeId = paidAmount fee + a ∧
     (a ≠ 0 → ¬ ledgerConsistent db')).
Proof.
  intros Hledger Hpay. split.
  - intros Hst.
    destruct (payment_writes_cases rejects db userRole pid feeId amount
                method reference)
      as [(st' & e' & Hfail & _) | (fee & a & Hfee & -> & Hscope)].
    { rewrite Hfail in Hpay. by injection Hpay as <- _. }
    rewrite (payment_writes_in_scope _ _ _ _ _ _ _ _ _ Hfee Hscope)
      in Hpay.
    cbv zeta in Hpay.
    destruct (decide (_ ∧ rejects PaymentWrites.CreatePayment = false));
      [|by injection Hpay as <- _].
    destruct (decide (_ ∧ rejects PaymentWrites.UpdateFee = false)).
    2: { injection Hpay as <- <-. destruct Hst as [Hst | Hrows]; [done|].
         apply (f_equal length) in Hrows. simpl in Hrows.
         rewrite length_app in Hrows. simpl in Hrows. lia. }
    injection Hpay as <- _. clear Hst.
    intros k row Hrow.
    unfold paidFor. cbn [PaymentWrites.updateFee payments].
    change (sumZ _) with
      (paidFor (PaymentWrites.createPayment db
                  {| payment_amount := a; payment_method := method;
                     payment_reference := reference;
                     payment_feeId := feeId |}) k).
    rewrite paidFor_createPayment.
    simpl in Hrow |- *.
    destruct (decide (feeId = k)) as [<-|Hne].
    + rewrite lookup_alter_eq, Hfee in Hrow. injection Hrow as <-.
      simpl. by rewrite (Hledger feeId fee Hfee).
    + rewrite lookup_alter_ne in Hrow by done.
      rewrite (Hledger k row Hrow). lia.
  - intros fee a -> Hfee Hscope Ha Hcreate Hupdate.
    rewrite (payment_writes_in_scope _ _ _ _ _ _ _ _ _ Hfee Hscope)
      in Hpay.
    cbv zeta in Hpay. rewrite decide_True in Hpay by done.
    rewrite decide_False in Hpay by (by apply not_accepted).
    injection Hpay as <- <-.
    split; [reflexivity|]. split; [exact Hfee|].
    assert (paidFor
              (PaymentWrites.createPayment db
                 {| payment_amount := a; payment_method := method;
                    payment_reference := reference;
                    payment_feeId := feeId |}) feeId
            = paidAmount fee + a) as Hpaid.
    { rewrite paidFor_createPayment. simpl. rewrite decide_True by done.
      by rewrite (Hledger feeId fee Hfee). }
    split; [exact Hpaid|].
    intros Hne Hbroken.
    specialize (Hbroken feeId fee Hfee). rewrite Hpaid in Hbroken. lia.
Qed.

(** X9 at a school with one unpaid fee and no payment row: the ledger is
    consistent after [s1] has paid 40, and is not when the store rejects
    the update of the fee. *)
Lemma payment_ledger_witness :
  ledgerConsistent
    (PaymentWrites.payment (λ _, false) Sample2.db_ledger (Some "student")
       "s1" 1 (Some 40) "cash" "ref").1 ∧
  ¬ ledgerConsistent
      (PaymentWrites.payment
         Sample2.rejectsUpdate
         Sample2.db_ledger (Some "student") "s1" 1 (Some 40)
         "cash" "ref").1.
Proof.
  assert (ledgerConsistent Sample2.db_ledger) as Hledger.
  { intros feeId fee Hfee. simpl in Hfee.
    apply lookup_singleton_Some in Hfee as [<- <-]. reflexivity. }
  split.
  - eapply (payment_ledger (λ _, false) Sample2.db_ledger _
              (Some "student") "s1" 1 (Some 40) "cash" "ref" _ Hledger).
    + reflexivity.
    + left. vm_compute. discriminate.
  - eapply (payment_ledger Sample2.rejectsUpdate
              Sample2.db_ledger _ (Some "student") "s1" 1 (Some 40)
              "cash" "ref" _ Hledger eq_refl).
    + reflexivity.
    + vm_compute; reflexivity.
    + left. split; reflexivity.
    + lia.
    + reflexivity.
    + right. reflexivity.
    + discriminate.
Defined.



(** X11: for the same caller and the same parameter, GET /pending lists
    exactly the fees of GET /history whose status is [UNPAID] or
    [PARTIAL], each with the remaining amount total minus paid; an
    [OVERDUE] fee is never listed as pending. *)
Theorem pending_is_unsettled_history (db : Db) (userRole : option string)
    (pid : string) (studentId : option string)
    (feeId : Z) (fee : Fee) (remaining : Z) :
  (feeId, fee, remaining)
    ∈ rowsOf (FeesReports.pending db userRole pid studentId) ↔
  (feeId, fee) ∈ rowsOf (FeesRouter.history db userRole pid studentId) ∧
  (status fee = UNPAID ∨ status fee = PARTIAL) ∧
  remaining = totalAmount fee - paidAmount fee.
Proof.
  unfold FeesReports.pending, FeesRouter.history,
    FeesReports.pendingFilter, FeesRouter.historyFilter, feesOf.
  cbv zeta. case_decide; simpl.
  { split; [intros Hin; by apply elem_of_nil in Hin|].
    intros [Hin _]. by apply elem_of_nil in Hin. }
  rewrite list_elem_of_fmap. setoid_rewrite list_elem_of_filter.
  split.
  - intros ([k f] & [= -> -> ->] & (Hown & Hst) & Hin). simpl in *.
    split; [done|]. split; [|done].
    apply elem_of_cons in Hst as [?|Hst]; [by left|].
    apply list_elem_of_singleton in Hst. by right.
  - intros ((Hown & Hin) & Hst & ->). exists (feeId, fee). simpl.
    split; [done|]. split; [|done]. split; [done|].
    destruct Hst as [-> | ->]; set_solver.
Qed.



Lemma countStatus_partition (rows : list Fee) :
  length rows =
  (FeesReports.countStatus PAID rows + FeesReports.countStatus UNPAID rows +
   FeesReports.countStatus OVERDUE rows +
   FeesReports.countStatus PARTIAL rows)%nat.
Proof.
  unfold FeesReports.countStatus.
  induction rows as [|f rows IH]; [done|].
  rewrite !filter_cons. simpl. rewrite IH.
  destruct (status f); repeat case_decide; simpl; try done; lia.
Qed.

(** X13: GET /summary of the fees router is refused with 403 exactly for
    callers that are neither accountant nor admin; in its statistics the
    paid, unpaid and overdue counts add up to the total number of fees less
    the partially paid ones, which the statistics do not report. *)
Theorem fee_summary_counts (db : Db) (userRole : option string) :
  (status_of (FeesReports.summary db userRole) = 403 ↔
   userRole ≠ Some "accountant" ∧ userRole ≠ Some "admin") ∧
  (FeesReports.totalFees (FeesReports.summaryStats db) =
   FeesReports.paidFees (FeesReports.summaryStats db) +
   FeesReports.unpaidFees (FeesReports.summaryStats db) +
   FeesReports.overdueFees (FeesReports.summaryStats db) +
   FeesReports.countStatus PARTIAL (map_to_list (fees db)).*2)%nat ∧
  FeesReports.totalFees (FeesReports.summaryStats db) = size (fees db).
Proof.
  split; [|split].
  - unfold FeesReports.summary. case_decide; simpl; [done|].
    split; [discriminate|done].
  - simpl. apply countStatus_partition.
  - simpl. by rewrite length_fmap, length_map_to_list.
Qed.

(** ** Report cards *)

Lemma reportCard_of_target (db : Db) (userRole : option string)
    (pid : string) (studentId : option string) (target : string) :
  ExamsRouter.reportCardTarget db userRole pid studentId = Success target →
  ExamsRouter.reportCard db userRole pid studentId =
  match findFirst (λ s, student_id s = target) (students db) with
  | None => Failure 404 "Student not found"
  | Some student =>
      Success (student,
               filter (λ r, result_studentId r = target) (results db))
  end.
Proof. unfold ExamsRouter.reportCard. by intros ->. Qed.

Lemma elem_of_snoc_kept {A} (P : A → Prop) (l rows : list A) (x : A) :
  (∀ r, r ∈ l ↔ r ∈ rows ∧ P r) → P x →
  ∀ r, r ∈ (l ++ [x])%list ↔ r ∈ (rows ++ [x])%list ∧ P r.
Proof.
  intros Hl Hx r. rewrite !elem_of_app, !list_elem_of_singleton, Hl.
  split; [intros [[? ?] | ->]; auto | tauto].
Qed.

Lemma elem_of_snoc_dropped {A} (P : A → Prop) (l rows : list A) (x : A) :
  (∀ r, r ∈ l ↔ r ∈ rows ∧ P r) → ¬ P x →
  ∀ r, r ∈ l ↔ r ∈ (rows ++ [x])%list ∧ P r.
Proof.
  intros Hl Hx r. rewrite elem_of_app, list_elem_of_singleton, Hl.
  split; [tauto|]. intros [[? | ->] ?]; tauto.
Qed.

Section Grouping.
Import ReportCard.
Variable examSubject : Result → option Subject.
Variable assignmentSubject : Result → option Subject.

Lemma groupBySubject_snoc (rows : list Result) (result : Result) :
  groupBySubject examSubject assignmentSubject (rows ++ [result]) =
  groupBySubject examSubject assignmentSubject rows ≫=
    λ subjectResults,
      addResult examSubject assignmentSubject subjectResults result.
Proof. unfold groupBySubject. by rewrite foldl_snoc. Qed.

Lemma groupedFrom_nil :
  groupedFrom examSubject assignmentSubject [] ∅.
Proof.
  split.
  - intros result subject Hin. by apply elem_of_nil in Hin.
  - intros name entry Hentry. by rewrite lookup_empty in Hentry.
Qed.

Lemma groupedFrom_skip (rows : list Result) (result : Result)
    (subjectResults : gmap string SubjectResults) :
  subjectOf examSubject assignmentSubject result = None →
  groupedFrom examSubject assignmentSubject rows subjectResults →
  groupedFrom examSubject assignmentSubject (rows ++ [result])
    subjectResults.
Proof.
  intros Hnone [Hkeys Hentries]. split.
  - intros r s Hin Hs. apply elem_of_app in Hin as [Hin | Hin].
    + by apply (Hkeys r s).
    + apply list_elem_of_singleton in Hin as ->. congruence.
  - intros name entry Hentry.
    destruct (Hentries name entry Hentry) as (Hname & Hexam & Hassign & Hid).
    split; [done|]. split; [|split].
    + apply elem_of_snoc_dropped; [done|]. rewrite Hnone. by intros [_ ?].
    + apply elem_of_snoc_dropped; [done|]. rewrite Hnone. by intros [_ ?].
    + destruct Hid as (r & s & Hin & Hs & Hn & Hi).
      exists r, s. rewrite elem_of_app. auto.
Qed.

Lemma groupedFrom_push (rows : list Result) (result : Result)
    (subject : Subject) (subjectResults : gmap string SubjectResults) :
  subjectOf examSubject assignmentSubject result = Some subject →
  subject_name subject ∉ inheritedNames →
  groupedFrom examSubject assignmentSubject rows subjectResults →
  groupedFrom examSubject assignmentSubject (rows ++ [result])
    (<[subject_name subject :=
         push result
           (default (newEntry subject)
              (subjectResults !! subject_name subject))]> subjectResults).
Proof.
  intros Hsubject Hname [Hkeys Hentries].
  set (base := default (newEntry subject)
                 (subjectResults !! subject_name subject)).
  assert (subjectName base = subject_name subject ∧
          (∀ r, r ∈ examResults base ↔
                r ∈ rows ∧ hasExamId r = true ∧
                subject_name <$> subjectOf examSubject assignmentSubject r
                  = Some (subject_name subject)) ∧
          (∀ r, r ∈ assignmentResults base ↔
                r ∈ rows ∧ hasExamId r = false ∧
                subject_name <$> subjectOf examSubject assignmentSubject r
                  = Some (subject_name subject)) ∧
          (∃ r s, r ∈ (rows ++ [result])%list ∧
                  subjectOf examSubject assignmentSubject r = Some s ∧
                  subject_name s = subject_name subject ∧
                  subject_id s = subjectId base))
    as (Hbase & Hexam & Hassign & Hid).
  { subst base.
    destruct (subjectResults !! subject_name subject) as [old|] eqn:Eold.
    - destruct (Hentries _ old Eold) as (Hn & Hex & Has & r & s & Hin & ?).
      simpl. split; [done|]. split; [done|]. split; [done|].
      exists r, s. rewrite elem_of_app. tauto.
    - assert (∀ r, r ∈ rows →
                subject_name <$> subjectOf examSubject assignmentSubject r
                  ≠ Some (subject_name subject)) as Hfresh.
      { intros r Hin Hr.
        destruct (subjectOf examSubject assignmentSubject r)
          as [s|] eqn:Es; [|done].
        injection Hr as Hr.
        destruct (Hkeys r s Hin Es) as [_ [x Hx]].
        rewrite Hr, Eold in Hx. discriminate. }
      simpl. split; [done|]. split; [|split].
      + intros r. split; [by intros ?%elem_of_nil|].
        intros (Hin & _ & Hr). by destruct (Hfresh r Hin).
      + intros r. split; [by intros ?%elem_of_nil|].
        intros (Hin & _ & Hr). by destruct (Hfresh r Hin).
      + exists result, subject. rewrite elem_of_app,
          list_elem_of_singleton. auto. }
  clearbody base. split.
  - intros r s Hin Hs. apply elem_of_app in Hin as [Hin | Hin].
    + destruct (Hkeys r s Hin Hs) as [Hout Hsome]. split; [done|].
      destruct (decide (subject_name subject = subject_name s)) as [<-|Hne].
      * rewrite lookup_insert_eq. by eexists.
      * by rewrite lookup_insert_ne.
    + apply list_elem_of_singleton in Hin as ->.
      rewrite Hsubject in Hs. injection Hs as <-. split; [done|].
      rewrite lookup_insert_eq. by eexists.
  - intros name entry Hentry.
    destruct (decide (subject_name subject = name)) as [<-|Hne].
    + rewrite lookup_insert_eq in Hentry. injection Hentry as <-.
      unfold push. destruct (hasExamId result) eqn:Eexam; simpl.
      * split; [done|]. split; [|split; [|done]].
        -- apply elem_of_snoc_kept; [done|]. by rewrite Hsubject.
        -- apply elem_of_snoc_dropped; [done|]. intros [? _]. congruence.
      * split; [done|]. split; [|split; [|done]].
        -- apply elem_of_snoc_dropped; [done|]. intros [? _]. congruence.
        -- apply elem_of_snoc_kept; [done|]. by rewrite Hsubject.
    + rewrite lookup_insert_ne in Hentry by done.
      destruct (Hentries name entry Hentry) as (Hn & Hex & Has & Hi).
      split; [done|]. split; [|split].
      * apply elem_of_snoc_dropped; [done|]. rewrite Hsubject.
        intros [_ [= ?]]. done.
      * apply elem_of_snoc_dropped; [done|]. rewrite Hsubject.
        intros [_ [= ?]]. done.
      * destruct Hi as (r & s & Hin & Hs & Hsn & Hsi).
        exists r, s. rewrite elem_of_app. auto.
Qed.

(** The grouping throws exactly when a row has a subject whose name is
    inherited from [Object.prototype]; otherwise it builds the entries
    described by [groupedFrom]. *)
Lemma groupBySubject_spec (rows : list Result) :
  match groupBySubject examSubject assignmentSubject rows with
  | Some subjectResults =>
      groupedFrom examSubject assignmentSubject rows subjectResults
  | None =>
      ∃ result subject,
        result ∈ rows ∧
        subjectOf examSubject assignmentSubject result = Some subject ∧
        subject_name subject ∈ inheritedNames
  end.
Proof.
  induction rows as [|result rows IH] using rev_ind.
  { apply groupedFrom_nil. }
  rewrite groupBySubject_snoc.
  destruct (groupBySubject examSubject assignmentSubject rows)
    as [subjectResults|]; simpl.
  - unfold addResult.
    destruct (subjectOf examSubject assignmentSubject result)
      as [subject|] eqn:Esubject.
    + cbv zeta. case_decide as Hname.
      * exists result, subject. rewrite elem_of_app,
          list_elem_of_singleton. auto.
      * by apply groupedFrom_push.
    + by apply groupedFrom_skip.
  - destruct IH as (r & s & Hin & Hs & Hname).
    exists r, s. rewrite elem_of_app. auto.
Qed.

Lemma listed_groupedFrom (rows : list Result)
    (subjectResults : gmap string SubjectResults) (result : Result) :
  groupedFrom examSubject assignmentSubject rows subjectResults →
  listed subjectResults result ↔
  result ∈ rows ∧
  is_Some (subjectOf examSubject assignmentSubject result).
Proof.
  intros [Hkeys Hentries]. split.
  - intros (name & entry & Hentry & Hin).
    destruct (Hentries name entry Hentry) as (_ & Hexam & Hassign & _).
    destruct Hin as [Hin | Hin].
    + apply Hexam in Hin as (? & _ & Hs). split; [done|].
      by destruct (subjectOf _ _ result).
    + apply Hassign in Hin as (? & _ & Hs). split; [done|].
      by destruct (subjectOf _ _ result).
  - intros [Hin [subject Hsubject]].
    destruct (Hkeys result subject Hin Hsubject) as [_ [entry Hentry]].
    exists (subject_name subject), entry. split; [done|].
    destruct (Hentries _ entry Hentry) as (_ & Hexam & Hassign & _).
    destruct (hasExamId result) eqn:Eexam.
    + left. apply Hexam. by rewrite Hsubject.
    + right. apply Hassign. by rewrite Hsubject.
Qed.

End Grouping.

Lemma unique_by_id (rows : list Student) (x y : Student) :
  NoDup (student_id <$> rows) → x ∈ rows → y ∈ rows →
  student_id x = student_id y → x = y.
Proof.
  induction rows as [|z rows IH]; intros Hnd Hx Hy Hid.
  { by apply elem_of_nil in Hx. }
  rewrite fmap_cons in Hnd. apply NoDup_cons in Hnd as [Hz Hnd].
  apply elem_of_cons in Hx as [-> | Hx];
    apply elem_of_cons in Hy as [-> | Hy]; try done.
  - destruct Hz. rewrite Hid. apply list_elem_of_fmap. eauto.
  - destruct Hz. rewrite <- Hid. apply list_elem_of_fmap. eauto.
  - by apply IH.
Qed.

Lemma hasExamId_true (result : Result) :
  ReportCard.hasExamId result = true ↔
  ∃ examId, result_examId result = Some examId ∧ examId ≠ 0.
Proof.
  unfold ReportCard.hasExamId. destruct (result_examId result) as [e|].
  - rewrite bool_decide_eq_true. split; [by exists e|].
    by intros (? & [= <-] & ?).
  - split; [done | by intros (? & ? & _)].
Qed.

Lemma hasExamId_false (result : Result) :
  ReportCard.hasExamId result = false ↔
  result_examId result = None ∨ result_examId result = Some 0.
Proof.
  unfold ReportCard.hasExamId. destruct (result_examId result) as [e|].
  - rewrite bool_decide_eq_false. split.
    + intros He. right. f_equal. by destruct (decide (e = 0)).
    + intros [? | [= ->]]; [done | by intros ?].
  - split; [by left | done].
Qed.

Section Cards.
Variable examSubject : Result → option ReportCard.Subject.
Variable assignmentSubject : Result → option ReportCard.Subject.

Lemma subjectOf_Some (result : Result) (subject : ReportCard.Subject) :
  ReportCard.subjectOf examSubject assignmentSubject result = Some subject ↔
  examSubject result = Some subject ∨
  (examSubject result = None ∧ assignmentSubject result = Some subject).
Proof.
  unfold ReportCard.subjectOf. destruct (examSubject result) as [s|].
  - split; [by left | by intros [? | [? _]]].
  - split; [by right | by intros [? | [_ ?]]].
Qed.

Lemma subjectOf_is_Some (result : Result) :
  is_Some (ReportCard.subjectOf examSubject assignmentSubject result) ↔
  is_Some (examSubject result) ∨ is_Some (assignmentSubject result).
Proof.
  unfold ReportCard.subjectOf. destruct (examSubject result) as [s|].
  - split; [by left | by eexists].
  - split; [by right | by intros [[? ?] | ?]].
Qed.

Lemma subjectOf_named (result : Result) (name : string) :
  ReportCard.subject_name <$>
    ReportCard.subjectOf examSubject assignmentSubject result = Some name ↔
  ∃ subject,
    ReportCard.subject_name subject = name ∧
    (examSubject result = Some subject ∨
     (examSubject result = None ∧ assignmentSubject result = Some subject)).
Proof.
  split.
  - destruct (ReportCard.subjectOf _ _ result) as [s|] eqn:Es; [|done].
    intros [= <-]. exists s. split; [done|]. by apply subjectOf_Some.
  - intros (s & <- & Hs). apply subjectOf_Some in Hs. by rewrite Hs.
Qed.

Lemma response_of_target (db : Db) (userRole : option string)
    (pid : string) (studentId : option string) (target : string) :
  ExamsRouter.reportCardTarget db userRole pid studentId = Success target →
  ReportCard.response examSubject assignmentSubject db userRole pid
    studentId =
  match findFirst (λ s, student_id s = target) (students db) with
  | None => Failure 404 "Student not found"
  | Some student =>
      match ReportCard.groupBySubject examSubject assignmentSubject
              (filter (λ r, result_studentId r = target) (results db)) with
      | None => Failure 500 "Failed to get report card"
      | Some subjectResults => Success (student, subjectResults)
      end
  end.
Proof.
  intros Htarget. unfold ReportCard.response.
  rewrite (reportCard_of_target _ _ _ _ _ Htarget).
  by destruct (findFirst _ (students db)).
Qed.

Lemma response_failure (db : Db) (userRole : option string)
    (pid : string) (studentId : option string) (st : Z) (e : string) :
  ExamsRouter.reportCardTarget db userRole pid studentId = Failure st e →
  ReportCard.response examSubject assignmentSubject db userRole pid
    studentId = Failure st e.
Proof.
  intros Htarget. unfold ReportCard.response, ExamsRouter.reportCard.
  by rewrite Htarget.
Qed.

(** The card of the student [target]: the results listed are those of
    [target] that have a subject. *)
Lemma card_lists_results_with_subject (db : Db) (target : string)
    (subjectResults : gmap string ReportCard.SubjectResults) :
  ReportCard.groupBySubject examSubject assignmentSubject
    (filter (λ r, result_studentId r = target) (results db))
    = Some subjectResults →
  ∀ result,
    ReportCard.listed subjectResults result ↔
    result ∈ results db ∧ result_studentId result = target ∧
    (is_Some (examSubject result) ∨ is_Some (assignmentSubject result)).
Proof.
  intros Hgroup result. rewrite <- subjectOf_is_Some.
  pose proof (groupBySubject_spec examSubject assignmentSubject
                (filter (λ r, result_studentId r = target) (results db)))
    as Hspec.
  rewrite Hgroup in Hspec.
  rewrite (listed_groupedFrom _ _ _ _ _ Hspec), list_elem_of_filter.
  tauto.
Qed.

(** X14: for a student caller GET /report-card does not read the
    [studentId] parameter: the answer is the same with any parameter as
    with none; a report card that is returned holds the caller's own
    record, and the results listed under its subjects are exactly the
    caller's results that have a subject: a result whose exam and
    assignment give no subject is on no card. *)
Theorem student_report_card_is_own (db : Db) (pid : string)
    (studentId : option string) :
  ReportCard.response examSubject assignmentSubject db (Some "student") pid
    studentId
  = ReportCard.response examSubject assignmentSubject db (Some "student")
      pid None ∧
  ∀ student subjectResults,
    ReportCard.response examSubject assignmentSubject db (Some "student")
      pid studentId = Success (student, subjectResults) →
    student ∈ students db ∧ student_id student = pid ∧
    ∀ result,
      ReportCard.listed subjectResults result ↔
      result ∈ results db ∧ result_studentId result = pid ∧
      (is_Some (examSubject result) ∨ is_Some (assignmentSubject result)).
Proof.
  split; [done|]. intros student subjectResults.
  rewrite (response_of_target db (Some "student") pid studentId pid)
    by done.
  destruct (findFirst _ (students db)) as [s|] eqn:Es; [|done].
  destruct (ReportCard.groupBySubject _ _ _) as [groups|] eqn:Egroups;
    [|done].
  intros [= <- <-]. apply findFirst_Some in Es as [Hin Hid].
  split; [done|]. split; [done|].
  by apply card_lists_results_with_subject.
Qed.

(** X15: student ids being unique, a report card returned to a parent is
    that of a child: the student is the requested one, its [parentId] is
    the caller's id, and the results listed under its subjects are exactly
    the results of that student that have a subject. *)
Theorem parent_report_card_is_child (db : Db) (pid : string)
    (studentId : option string) (student : Student)
    (subjectResults : gmap string ReportCard.SubjectResults) :
  NoDup (allStudentIds db) →
  ReportCard.response examSubject assignmentSubject db (Some "parent") pid
    studentId = Success (student, subjectResults) →
  studentId = Some (student_id student) ∧
  student ∈ children db pid ∧
  ∀ result,
    ReportCard.listed subjectResults result ↔
    result ∈ results db ∧ result_studentId result = student_id student ∧
    (is_Some (examSubject result) ∨ is_Some (assignmentSubject result)).
Proof.
  intros Hunique Hcard.
  destruct (ExamsRouter.reportCardTarget db (Some "parent") pid studentId)
    as [target|st e] eqn:Etarget;
    [|by rewrite (response_failure _ _ _ _ _ _ Etarget) in Hcard].
  rewrite (response_of_target _ _ _ _ _ Etarget) in Hcard.
  unfold ExamsRouter.reportCardTarget in Etarget.
  repeat case_decide; try done.
  destruct (truthy studentId) as [sid|] eqn:Esid; [|done].
  destruct (findFirst (λ s, student_id s = sid ∧ _) (students db))
    as [child|] eqn:Echild; [|done].
  injection Etarget as <-.
  apply findFirst_Some in Echild as (Hchild & Hid & Hparent).
  destruct (findFirst (λ s, student_id s = student_id child) (students db))
    as [s|] eqn:Es; [|done].
  destruct (ReportCard.groupBySubject _ _ _) as [groups|] eqn:Egroups;
    [|done].
  injection Hcard as <- <-. apply findFirst_Some in Es as [Hin Hsame].
  assert (s = child) as -> by (by eapply unique_by_id).
  apply truthy_Some in Esid as [-> _].
  split; [by rewrite Hid|]. split.
  - unfold children. by apply list_elem_of_filter.
  - by apply card_lists_results_with_subject.
Qed.

(** X16: for an admin or teacher caller GET /report-card is answered 400
    without a student id and 404 when no student has the requested id,
    whatever classes the teacher has. For an existing student the answer
    is 500 when one of its results has a subject whose name is a property
    inherited from [Object.prototype]; otherwise it is that student with,
    under each subject name, the student's results of a subject of that
    name, those with a non-zero exam id as exam results and the others as
    assignment results, a result without subject being left out. Any role
    other than student, parent, admin and teacher is answered 403. *)
Theorem staff_report_card (db : Db) (userRole : option string)
    (pid : string) (studentId : option string) :
  (userRole = Some "admin" ∨ userRole = Some "teacher" →
   (truthy studentId = None →
    ReportCard.response examSubject assignmentSubject db userRole pid
      studentId = Failure 400 "Student ID is required") ∧
   (∀ sid, truthy studentId = Some sid →
      (sid ∉ allStudentIds db →
       ReportCard.response examSubject assignmentSubject db userRole pid
         studentId = Failure 404 "Student not found") ∧
      (sid ∈ allStudentIds db →
       (ReportCard.response examSubject assignmentSubject db userRole pid
          studentId = Failure 500 "Failed to get report card" ∧
        ∃ result subject,
          result ∈ results db ∧ result_studentId result = sid ∧
          (examSubject result = Some subject ∨
           (examSubject result = None ∧
            assignmentSubject result = Some subject)) ∧
          ReportCard.subject_name subject ∈ ReportCard.inheritedNames) ∨
       (∃ student subjectResults,
          ReportCard.response examSubject assignmentSubject db userRole pid
            studentId = Success (student, subjectResults) ∧
          student ∈ students db ∧ student_id student = sid ∧
          (∀ result,
             ReportCard.listed subjectResults result ↔
             result ∈ results db ∧ result_studentId result = sid ∧
             (is_Some (examSubject result) ∨
              is_Some (assignmentSubject result))) ∧
          (∀ name entry,
             subjectResults !! name = Some entry →
             ReportCard.subjectName entry = name ∧
             (name ∉ ReportCard.inheritedNames) ∧
             (∀ result,
                result ∈ ReportCard.examResults entry ↔
                result ∈ results db ∧ result_studentId result = sid ∧
                (∃ examId,
                   result_examId result = Some examId ∧ examId ≠ 0) ∧
                ∃ subject,
                  ReportCard.subject_name subject = name ∧
                  (examSubject result = Some subject ∨
                   (examSubject result = None ∧
                    assignmentSubject result = Some subject))) ∧
             (∀ result,
                result ∈ ReportCard.assignmentResults entry ↔
                result ∈ results db ∧ result_studentId result = sid ∧
                (result_examId result = None ∨
                 result_examId result = Some 0) ∧
                ∃ subject,
                  ReportCard.subject_name subject = name ∧
                  (examSubject result = Some subject ∨
                   (examSubject result = None ∧
                    assignmentSubject result = Some subject)))))))) ∧
  (userRole ≠ Some "student" → userRole ≠ Some "parent" →
   userRole ≠ Some "admin" → userRole ≠ Some "teacher" →
   ReportCard.response examSubject assignmentSubject db userRole pid
     studentId = Failure 403 "Access denied").
Proof.
  split.
  - intros Hrole. split.
    + intros Hnone. apply response_failure.
      unfold ExamsRouter.reportCardTarget.
      destruct Hrole as [-> | ->]; role_tests; by rewrite Hnone.
    + intros sid Hsid.
      assert (ExamsRouter.reportCardTarget db userRole pid studentId
              = Success sid) as Htarget.
      { unfold ExamsRouter.reportCardTarget.
        destruct Hrole as [-> | ->]; role_tests; by rewrite Hsid. }
      rewrite (response_of_target _ _ _ _ _ Htarget).
      split.
      * intros Hout.
        destruct (findFirst _ (students db)) as [s|] eqn:Es; [|done].
        apply findFirst_Some in Es as [Hin Hid].
        destruct Hout. apply elem_of_allStudentIds. eauto.
      * intros Hin. apply elem_of_allStudentIds in Hin as (s & Hs & Hid).
        destruct (findFirst_is_Some (λ s, student_id s = sid)
                    (students db) s Hs Hid) as [s' Hs'].
        rewrite Hs'. apply findFirst_Some in Hs' as [Hin' Hid'].
        pose proof (groupBySubject_spec examSubject assignmentSubject
                      (filter (λ r, result_studentId r = sid) (results db)))
          as Hspec.
        destruct (ReportCard.groupBySubject _ _ _) as [groups|] eqn:Egroups.
        -- right. exists s', groups. split; [done|]. split; [done|].
           split; [done|]. split.
           ++ by apply card_lists_results_with_subject.
           ++ intros name entry Hentry. destruct Hspec as [Hkeys Hentries].
              destruct (Hentries name entry Hentry)
                as (Hname & Hexam & Hassign & r & s0 & Hr & Hs0 & Hn & _).
              split; [done|]. split.
              { rewrite <- Hn. by apply (Hkeys r s0). }
              split.
              ** intros result.
                 rewrite Hexam, list_elem_of_filter, hasExamId_true,
                   subjectOf_named. tauto.
              ** intros result.
                 rewrite Hassign, list_elem_of_filter, hasExamId_false,
                   subjectOf_named. tauto.
        -- left. split; [done|].
           destruct Hspec as (r & s0 & Hr & Hs0 & Hbad).
           apply list_elem_of_filter in Hr as [? ?].
           apply subjectOf_Some in Hs0. eauto 7.
  - intros. apply response_failure. unfold ExamsRouter.reportCardTarget.
    repeat case_decide; try done. tauto.
Qed.

End Cards.

(** X15 at the sample school with an orphan result of [s1]: [p1] asks
    for the report card of [s1]; the result of the Math exam is on it and
    the orphan result is not. *)
Lemma parent_report_card_is_child_witness :
  ∃ subjectResults,
    ReportCard.response Sample4.examSubject Sample4.assignmentSubject
      Sample4.db_card (Some "parent") "p1" (Some "s1")
      = Success (Sample.s1, subjectResults) ∧
    Sample.s1 ∈ children Sample4.db_card "p1" ∧
    ReportCard.listed subjectResults
      {| result_id := 1; result_studentId := "s1";
         result_examId := Some 7; score := 80 |} ∧
    ¬ ReportCard.listed subjectResults Sample4.orphan.
Proof.
  assert (∃ subjectResults,
            ReportCard.response Sample4.examSubject
              Sample4.assignmentSubject Sample4.db_card (Some "parent") "p1"
              (Some "s1") = Success (Sample.s1, subjectResults))
    as [subjectResults Hcard] by (eexists; vm_compute; reflexivity).
  exists subjectResults. split; [exact Hcard|].
  destruct (parent_report_card_is_child Sample4.examSubject
              Sample4.assignmentSubject Sample4.db_card "p1" (Some "s1")
              Sample.s1 subjectResults) as (_ & Hchild & Hlisted).
  - by_computation.
  - exact Hcard.
  - split; [exact Hchild|]. split.
    + apply Hlisted. split; [left|]. split; [reflexivity|].
      left. by eexists.
    + intros Hin.
      apply Hlisted in Hin as (_ & _ & [[? Hsubject] | [? Hsubject]]);
        discriminate Hsubject.
Defined.

(** X16 at the same school: teacher [t2], who has no class with [s1],
    reads the report card of [s1], without the orphan result; an unknown
    id gives 404. *)
Lemma staff_report_card_witness :
  (∃ subjectResults,
     ReportCard.response Sample4.examSubject Sample4.assignmentSubject
       Sample4.db_card (Some "teacher") "t2" (Some "s1")
       = Success (Sample.s1, subjectResults) ∧
     ¬ ReportCard.listed subjectResults Sample4.orphan) ∧
  ReportCard.response Sample4.examSubject Sample4.assignmentSubject
    Sample4.db_card (Some "teacher") "t2" (Some "nobody")
    = Failure 404 "Student not found".
Proof.
  split.
  - destruct (staff_report_card Sample4.examSubject
                Sample4.assignmentSubject Sample4.db_card (Some "teacher")
                "t2" (Some "s1")) as [Hstaff _].
    destruct (Hstaff (or_intror eq_refl)) as [_ Hs1].
    destruct (Hs1 "s1" eq_refl) as [_ Hfound].
    destruct Hfound
      as [[Hfail _] | (student & subjectResults & Hcard & _ & _ & Hlisted & _)];
      [by_computation | discriminate Hfail |].
    assert (student = Sample.s1) as ->.
    { vm_compute in Hcard. by injection Hcard as <- _. }
    exists subjectResults. split; [exact Hcard|].
    intros Hin.
    apply Hlisted in Hin as (_ & _ & [[? Hsubject] | [? Hsubject]]);
      discriminate Hsubject.
  - destruct (staff_report_card Sample4.examSubject
                Sample4.assignmentSubject Sample4.db_card (Some "teacher")
                "t2" (Some "nobody")) as [Hstaff' _].
    destruct (Hstaff' (or_intror eq_refl)) as [_ Hnobody].
    destruct (Hnobody "nobody" eq_refl) as [Hmissing _].
    apply Hmissing. by_computation.
Defined.

(** ** The attendance summary *)

Section Tally.
Import AttendanceSummary.

(** Closes a branch whose tests on the record contradict each other. *)
Ltac contradict_tests :=
  try (exfalso;
       match goal with
       | H : ¬ (_ ∧ _) |- _ => apply H; split; congruence
       | H : _ ∧ _ |- _ => destruct H; congruence
       end).

Lemma daysWith_snoc (st : AttendanceStatus) (sid : string)
    (records : list Attendance) (r : Attendance) :
  daysWith st sid (records ++ [r]) =
  (daysWith st sid records +
   if decide (attendance_studentId r = sid ∧ attendance_status r = st)
   then 1 else 0)%nat.
Proof.
  unfold daysWith. rewrite filter_app, length_app, filter_cons, filter_nil.
  by case_decide.
Qed.

Lemma tally_ids (acc : list StudentSummary) (record : Attendance)
    (student : Student) :
  summary_studentId <$> tally acc record student =
  if decide (attendance_studentId record ∈ summary_studentId <$> acc)
  then summary_studentId <$> acc
  else ((summary_studentId <$> acc) ++ [attendance_studentId record])%list.
Proof.
  unfold tally. cbv zeta. rewrite <- list_fmap_compose.
  assert (∀ l : list StudentSummary,
            (summary_studentId ∘
               (λ e, if decide (summary_studentId e
                                = attendance_studentId record)
                     then bump (attendance_status record) e else e)) <$> l
            = summary_studentId <$> l) as Hids.
  { intros l. apply list_fmap_ext. intros i e _. simpl. by case_decide. }
  rewrite Hids. case_decide; [done|]. by rewrite fmap_app.
Qed.

Lemma tally_tallied (records : list Attendance) (acc : list StudentSummary)
    (record : Attendance) (student : Student) :
  tallied records acc →
  tallied (records ++ [record]) (tally acc record student).
Proof.
  intros (Hnodup & Hids & Hcounts).
  set (sid := attendance_studentId record).
  assert (sid ∉ summary_studentId <$> acc →
          ∀ st, daysWith st sid records = 0%nat) as Hfresh.
  { intros Hnew st. unfold daysWith.
    destruct (filter _ records) as [|a rest] eqn:E; [done|].
    assert (a ∈ filter (λ a, attendance_studentId a = sid ∧
                             attendance_status a = st) records) as Ha
      by (rewrite E; left).
    apply list_elem_of_filter in Ha as [[Hsid _] Hin].
    destruct Hnew. apply Hids. eauto. }
  split; [|split].
  - rewrite tally_ids. case_decide; [done|].
    apply NoDup_app. split; [done|]. split; [|apply NoDup_singleton].
    intros x Hx Hsingle. apply list_elem_of_singleton in Hsingle.
    by subst.
  - intros x. rewrite tally_ids. fold sid. split.
    + intros Hx.
      assert (x ∈ summary_studentId <$> acc ∨ x = sid) as [Hold | ->].
      { case_decide; [by left|].
        apply elem_of_app in Hx as [?|Hx]; [by left|].
        apply list_elem_of_singleton in Hx. by right. }
      * apply Hids in Hold as (a & Ha & Hsid). exists a.
        split; [|done]. apply elem_of_app. by left.
      * exists record. split; [|done]. apply elem_of_app. right. left.
    + intros (a & Ha & <-). apply elem_of_app in Ha as [Ha | Ha].
      * assert (attendance_studentId a ∈ summary_studentId <$> acc) as Hold
          by (apply Hids; eauto).
        case_decide; [done|]. apply elem_of_app. by left.
      * apply list_elem_of_singleton in Ha as ->. fold sid.
        case_decide; [done|]. apply elem_of_app. right. left.
  - intros e' He'. unfold tally in He'. cbv zeta in He'. fold sid in He'.
    apply list_elem_of_fmap in He' as (e & -> & He).
    rewrite !daysWith_snoc. fold sid.
    assert (e ∈ acc ∨ ((sid ∉ summary_studentId <$> acc) ∧
                       e = newSummary sid student)) as [Hold | [Hnew ->]].
    { case_decide; [by left|].
      apply elem_of_app in He as [?|He]; [by left|].
      apply list_elem_of_singleton in He. by right. }
    + destruct (Hcounts e Hold) as (Hp & Ha & Hl & Ht).
      destruct (decide (summary_studentId e = sid)) as [Hsame|Hdiff].
      * simpl. destruct (attendance_status record); simpl;
          repeat case_decide; contradict_tests; lia.
      * repeat case_decide; contradict_tests; lia.
    + simpl. destruct (decide (sid = sid)) as [_|]; [|done]. simpl.
      rewrite !(Hfresh Hnew).
      destruct (attendance_status record); simpl;
        repeat case_decide; contradict_tests; lia.
Qed.

Lemma summarize_tallied (db : Db) (records : list Attendance)
    (entries : list StudentSummary) :
  summarize db records = Some entries → tallied records entries.
Proof.
  revert entries. induction records as [|r records IH] using rev_ind;
    intros entries.
  - intros [= <-]. split; [constructor|]. split; [|by intros e He;
      apply elem_of_nil in He].
    intros sid. split.
    + intros Hin. by apply elem_of_nil in Hin.
    + intros (a & Ha & _). by apply elem_of_nil in Ha.
  - unfold summarize. rewrite foldl_snoc. fold (summarize db records).
    destruct (summarize db records) as [acc|]; [|done]. simpl.
    destruct (findFirst _ (students db)) as [student|]; [|done].
    intros [= <-]. by apply tally_tallied, IH.
Qed.

End Tally.

Lemma summarize_total (db : Db) (records : list Attendance) :
  (∀ a, a ∈ records → attendance_studentId a ∈ allStudentIds db) →
  is_Some (AttendanceSummary.summarize db records).
Proof.
  induction records as [|r records IH] using rev_ind; intros Hrefs.
  { by eexists. }
  unfold AttendanceSummary.summarize. rewrite foldl_snoc.
  fold (AttendanceSummary.summarize db records).
  destruct IH as [acc ->].
  { intros a Ha. apply Hrefs, elem_of_app. by left. }
  simpl.
  assert (attendance_studentId r ∈ allStudentIds db) as Hr
    by (apply Hrefs, elem_of_app; right; left).
  apply elem_of_allStudentIds in Hr as (s & Hs & Hid).
  destruct (findFirst_is_Some (λ s, student_id s = attendance_studentId r)
              (students db) s Hs Hid) as [s' ->].
  by eexists.
Qed.

Lemma selected_in_scope (db : Db) (ids : list string) (classId : option Z)
    (a : Attendance) :
  a ∈ AttendanceSummary.selected db ids classId →
  a ∈ attendances db ∧ attendance_studentId a ∈ ids.
Proof.
  unfold AttendanceSummary.selected. cbv zeta. intros Ha.
  destruct classId as [c|].
  - apply list_elem_of_filter in Ha as [_ Ha].
    apply list_elem_of_filter in Ha as [? ?]. done.
  - apply list_elem_of_filter in Ha as [? ?]. done.
Qed.

(** X17: the statistics of GET /summary of the attendance router are exact
    tallies: the answer has one entry per student of the caller's scope
    that has a selected attendance row and no entry for anybody else; each
    entry holds the numbers of that student's present, absent and late
    rows, and its total is their sum; [totalStudents] is the number of
    entries. When every attendance row refers to an existing student the
    request is answered. *)
Theorem attendance_summary_tallies (db : Db) (userRole : option string)
    (pid : string) (classId : option Z) :
  let scope := AttendanceRouter.summaryTargetStudentIds db userRole pid in
  let records := AttendanceSummary.selected db scope classId in
  (∀ entries n,
     AttendanceSummary.summary db userRole pid classId
       = Success (entries, n) →
     n = length entries ∧ tallied records entries ∧
     ∀ e, e ∈ entries → AttendanceSummary.summary_studentId e ∈ scope) ∧
  ((∀ a, a ∈ attendances db → attendance_studentId a ∈ allStudentIds db) →
   ∃ entries,
     AttendanceSummary.summary db userRole pid classId
       = Success (entries, length entries)).
Proof.
  intros scope records. unfold AttendanceSummary.summary,
    AttendanceRouter.summaryFilter. cbv zeta. fold scope.
  assert (length scope = 0%nat → records = []) as Hempty.
  { intros Hlen. apply nil_length_inv in Hlen.
    subst records. rewrite Hlen.
    unfold AttendanceSummary.selected. cbv zeta.
    assert (filter (λ a, attendance_studentId a ∈ ([] : list string))
                   (attendances db) = []) as ->.
    { induction (attendances db) as [|a l IH]; [done|].
      rewrite filter_cons. case_decide as Hin; [|done].
      by apply elem_of_nil in Hin. }
    by destruct classId. }
  split.
  - intros entries n. case_decide as Hlen.
    + intros [= <- <-]. split; [done|]. rewrite (Hempty Hlen).
      split; [by apply (summarize_tallied db [] [])|].
      intros e He. by apply elem_of_nil in He.
    + fold records.
      destruct (AttendanceSummary.summarize db records) as [acc|] eqn:Eacc;
        [|done].
      intros [= <- <-]. split; [done|].
      pose proof (summarize_tallied db records acc Eacc) as Htally.
      split; [done|]. intros e He.
      destruct Htally as (_ & Hids & _).
      assert (AttendanceSummary.summary_studentId e
                ∈ AttendanceSummary.summary_studentId <$> acc) as Hid
        by (apply list_elem_of_fmap; eauto).
      apply Hids in Hid as (a & Ha & <-).
      by apply selected_in_scope in Ha as [_ ?].
  - intros Hrefs. case_decide; [by exists []|]. fold records.
    destruct (summarize_total db records) as [acc ->]; [|by exists acc].
    intros a Ha. apply selected_in_scope in Ha as [Ha _]. by apply Hrefs.
Qed.

(** X17 at the sample school, for the admin: both attendance rows are
    tallied. *)
Lemma attendance_summary_tallies_witness :
  ∃ entries,
    AttendanceSummary.summary Sample.db (Some "admin") "a1" None
      = Success (entries, 2%nat) ∧
    tallied (attendances Sample.db) entries.
Proof.
  destruct (attendance_summary_tallies Sample.db (Some "admin") "a1" None)
    as [Hsound Htotal].
  destruct Htotal as [entries Hentries].
  { intros a Ha. simpl in Ha.
    repeat (apply elem_of_cons in Ha as [-> | Ha]; [by_computation|]).
    by apply elem_of_nil in Ha. }
  exists entries.
  destruct (Hsound entries _ Hentries) as (_ & Htally & _).
  split; [|exact Htally].
  rewrite Hentries. f_equal. f_equal.
  vm_compute in Hentries. by injection Hentries as <-.
Defined.

(** ** Class attendance and attendance marks *)

(** X18: a teacher can open the attendance of a class exactly when GET
    /classes of the teachers router lists a class with that id (a class
    the teacher supervises or teaches a lesson in); otherwise the answer is
    403. The rows returned are exactly the attendance rows of that
    class. *)
Theorem class_attendance_access (db : Db) (tid : string) (classId : Z) :
  ((∃ c, c ∈ TeachersRouter.getClasses db tid ∧ class_id c = classId) →
   TeachersAttendance.classAttendance db tid classId
     = Success (filter (λ a, attendance_classId a = classId)
                       (attendances db))) ∧
  ((∀ c, c ∈ TeachersRouter.getClasses db tid → class_id c ≠ classId) →
   TeachersAttendance.classAttendance db tid classId
     = Failure 403 "You do not have access to this class").
Proof.
  unfold TeachersAttendance.classAttendance. split.
  - intros (c & Hc & Hid).
    apply list_elem_of_filter in Hc as [Hown Hc].
    destruct (findFirst_is_Some
                (λ c, class_id c = classId ∧
                      (supervisorId c = Some tid ∨
                       TeachersRouter.teaches db tid c))
                (classes db) c Hc (conj Hid Hown)) as [c' ->].
    done.
  - intros Hnone.
    destruct (findFirst _ (classes db)) as [c|] eqn:Ec; [|done].
    apply findFirst_Some in Ec as (Hc & Hid & Hown).
    destruct (Hnone c); [|done].
    by apply list_elem_of_filter.
Qed.

(** X18 at the sample school: [t1] opens class 10A, where [t1] only
    teaches, and teacher [t2] is refused class 9A. *)
Lemma class_attendance_access_witness :
  TeachersAttendance.classAttendance Sample.db "t1" 2
    = Success [ {| attendance_studentId := "s3"; attendance_classId := 2;
                   attendance_status := ABSENT |} ] ∧
  TeachersAttendance.classAttendance Sample.db "t2" 1
    = Failure 403 "You do not have access to this class".
Proof.
  destruct (class_attendance_access Sample.db "t1" 2) as [Hopen _].
  destruct (class_attendance_access Sample.db "t2" 1) as [_ Hclosed].
  split.
  - rewrite Hopen; [reflexivity|].
    exists {| class_id := 2; class_name := "10A";
              supervisorId := Some "t2" |}.
    split; [|reflexivity]. vm_compute. right. left.
  - apply Hclosed. intros c Hc Hid. vm_compute in Hc.
    apply list_elem_of_singleton in Hc. subst c. discriminate.
Defined.

(** X19: whatever a client sends as status, the value stored by POST
    /mark-attendance is one of [PRESENT], [ABSENT], [LATE]; a value that
    is none of them after upper-casing is stored as [PRESENT]; and, the
    three names being already upper case, normalising twice is the same as
    normalising once. *)
Theorem normalized_status_is_valid (toUpperCase : string → string)
    (s : string) :
  let normalize := TeachersAttendance.normalizeStatus toUpperCase in
  normalize s ∈ ["PRESENT"; "ABSENT"; "LATE"] ∧
  (toUpperCase s ∉ ["PRESENT"; "ABSENT"; "LATE"] → normalize s = "PRESENT") ∧
  ((∀ name, name ∈ ["PRESENT"; "ABSENT"; "LATE"] → toUpperCase name = name) →
   normalize (normalize s) = normalize s).
Proof.
  intros normalize. subst normalize.
  unfold TeachersAttendance.normalizeStatus. cbv zeta.
  destruct (decide (toUpperCase s ∈ ["PRESENT"; "ABSENT"; "LATE"]))
    as [Hin|Hout].
  - split; [done|]. split; [done|]. intros Hfix.
    rewrite (Hfix _ Hin). by case_decide.
  - split; [set_solver|]. split; [done|]. intros Hfix.
    rewrite (Hfix "PRESENT") by set_solver. by case_decide.
Qed.

(** X19 with the ASCII upper-casing: [late] is stored as [LATE] and an
    unknown word as [PRESENT]. *)
Lemma normalized_status_is_valid_witness :
  TeachersAttendance.normalizeStatus toUpperCaseAscii "late" = "LATE" ∧
  TeachersAttendance.normalizeStatus toUpperCaseAscii "sick" = "PRESENT" ∧
  TeachersAttendance.normalizeStatus toUpperCaseAscii
    (TeachersAttendance.normalizeStatus toUpperCaseAscii "late") = "LATE".
Proof.
  destruct (normalized_status_is_valid toUpperCaseAscii "late")
    as (_ & _ & Hidem).
  destruct (normalized_status_is_valid toUpperCaseAscii "sick")
    as (_ & Hdefault & _).
  split; [reflexivity|]. split.
  - apply Hdefault. by_computation.
  - rewrite Hidem; [reflexivity|].
    intros name Hname.
    repeat (apply elem_of_cons in Hname as [-> | Hname]; [reflexivity|]).
    by apply elem_of_nil in Hname.
Defined.

(** ** Login and the current user *)

(** X20: POST /login does not tell an unknown e-mail address from a wrong
    password: when the provider finds no user, reports [user_not_found], or
    rejects the password of the user found, the answer is the same 401 with
    the same message. *)
Theorem login_failures_are_uniform
    (getUserList : string → AuthRouter.ClerkResult (list ClerkUser))
    (verifyPassword : string → string → bool)
    (jwt_sign : JWTPayload → string)
    (email password : option string) (address pw : string) :
  truthy email = Some address → truthy password = Some pw →
  getUserList address = AuthRouter.ClerkOk [] ∨
  getUserList address = AuthRouter.ClerkThrows "user_not_found" ∨
  (∃ user others,
     getUserList address = AuthRouter.ClerkOk (user :: others) ∧
     verifyPassword (clerk_id user) pw = false) →
  AuthRouter.login getUserList verifyPassword jwt_sign email password
    = Failure 401 "Invalid email or password".
Proof.
  intros Hemail Hpw Hwhy. unfold AuthRouter.login. rewrite Hemail, Hpw.
  destruct Hwhy as [-> | [-> | (user & others & -> & Hwrong)]].
  - done.
  - case_decide as Hcode; [done|]. destruct Hcode. by left.
  - by rewrite Hwrong.
Qed.

(** X20 on two failed logins: an address the provider does not know and a
    known address with a wrong password. *)
Lemma login_failures_are_uniform_witness :
  AuthRouter.login (λ _, AuthRouter.ClerkOk []) (λ _ _, true)
    (λ _, "token") (Some "nobody@demo.com") (Some "secret")
  = AuthRouter.login
      (λ _, AuthRouter.ClerkOk [Sample.clerkUser "u9" None]) (λ _ _, false)
      (λ _, "token") (Some "u9@demo.com") (Some "guess").
Proof.
  rewrite (login_failures_are_uniform (λ _, AuthRouter.ClerkOk [])
             (λ _ _, true) (λ _, "token") (Some "nobody@demo.com")
             (Some "secret") "nobody@demo.com" "secret" eq_refl eq_refl
             (or_introl eq_refl)).
  symmetry.
  apply (login_failures_are_uniform
           (λ _, AuthRouter.ClerkOk [Sample.clerkUser "u9" None])
           (λ _ _, false) (λ _, "token") (Some "u9@demo.com")
           (Some "guess") "u9@demo.com" "guess" eq_refl eq_refl).
  right. right. by eexists _, _.
Defined.

(** X21: POST /login issues a token only after the provider has accepted
    the password for the first user found under the address, and the token
    and the user object of the answer carry that user's id. *)
Theorem login_requires_password
    (getUserList : string → AuthRouter.ClerkResult (list ClerkUser))
    (verifyPassword : string → string → bool)
    (jwt_sign : JWTPayload → string)
    (email password : option string)
    (token : string) (user : AuthRouter.LoginUser) :
  AuthRouter.login getUserList verifyPassword jwt_sign email password
    = Success (token, user) →
  ∃ address pw clerkUser others,
    truthy email = Some address ∧ truthy password = Some pw ∧
    getUserList address = AuthRouter.ClerkOk (clerkUser :: others) ∧
    verifyPassword (clerk_id clerkUser) pw = true ∧
    AuthRouter.login_id user = clerk_id clerkUser ∧
    token = jwt_sign (AuthRouter.jwtPayload clerkUser address) ∧
    jwt_userId (AuthRouter.jwtPayload clerkUser address)
      = clerk_id clerkUser.
Proof.
  unfold AuthRouter.login. intros Hlogin.
  destruct (truthy email) as [address|] eqn:Eemail; [|done].
  destruct (truthy password) as [pw|] eqn:Epassword; [|done].
  destruct (getUserList address) as [[|clerkUser others]|code] eqn:Elist;
    [done| |by case_decide].
  destruct (verifyPassword (clerk_id clerkUser) pw) eqn:Epw; [|done].
  injection Hlogin as <- <-.
  exists address, pw, clerkUser, others. repeat split; done.
Qed.

(** X21 on a successful login. *)
Lemma login_requires_password_witness :
  ∃ user,
    AuthRouter.login (λ _, AuthRouter.ClerkOk [Sample.clerkUser "u9" None])
      (λ id pw, bool_decide (pw = "secret")) (λ _, "token")
      (Some "u9@demo.com") (Some "secret") = Success ("token", user) ∧
    AuthRouter.login_id user = "u9".
Proof.
  assert (∃ user,
            AuthRouter.login
              (λ _, AuthRouter.ClerkOk [Sample.clerkUser "u9" None])
              (λ id pw, bool_decide (pw = "secret")) (λ _, "token")
              (Some "u9@demo.com") (Some "secret")
            = Success ("token", user)) as [user Hlogin]
    by (eexists; vm_compute; reflexivity).
  exists user. split; [exact Hlogin|].
  destruct (login_requires_password _ _ _ _ _ _ _ Hlogin)
    as (address & pw & clerkUser & others & _ & _ & Hlist & _ & Hid & _).
  rewrite Hid. by injection Hlist as <- _.
Defined.

(** X22: GET /me agrees with POST /login: for a request bearing a token
    issued by a login, and a provider that still holds the same user
    record, GET /me reports the id, name, e-mail address and role that the
    login answered. *)
Theorem me_agrees_with_login
    (getUserList : string → AuthRouter.ClerkResult (list ClerkUser))
    (verifyPassword : string → string → bool)
    (jwt_sign : JWTPayload → string)
    (jwt_verify : string → option JWTPayload)
    (getAuth : AuthenticatedRequest → option (option string))
    (getUser : string → AuthRouter.ClerkResult ClerkUser)
    (email password : option string) (address token : string)
    (user : AuthRouter.LoginUser) (clerkUser : ClerkUser)
    (others : list ClerkUser) (req : AuthenticatedRequest) :
  truthy email = Some address →
  getUserList address = AuthRouter.ClerkOk (clerkUser :: others) →
  AuthRouter.login getUserList verifyPassword jwt_sign email password
    = Success (token, user) →
  jwt_verify token = Some (AuthRouter.jwtPayload clerkUser address) →
  authorization req = Some ("Bearer " +:+ token) →
  clerk_id clerkUser ≠ "" →
  getUser (clerk_id clerkUser) = AuthRouter.ClerkOk clerkUser →
  ∃ req' data,
    (JwtMiddleware.requireAuth jwt_verify getAuth req).2 = Next req' ∧
    AuthMe.me getUser req' = Success data ∧
    AuthMe.me_id data = AuthRouter.login_id user ∧
    AuthMe.me_role data = AuthRouter.login_role user ∧
    AuthMe.me_name data = AuthRouter.login_name user ∧
    AuthMe.me_email data = AuthRouter.login_email user.
Proof.
  intros Hemail Hlist Hlogin Hverify Hheader Hid Huser.
  unfold AuthRouter.login in Hlogin. rewrite Hemail, Hlist in Hlogin.
  destruct (truthy password) as [pw|]; [|done].
  destruct (negb _); [done|]. injection Hlogin as _ <-.
  rewrite (requireAuth_bearer jwt_verify getAuth req _
             (bearerCredential_of_token req _ Hheader)), Hverify.
  eexists _, _. split; [reflexivity|].
  unfold AuthMe.me. cbn [userId JwtMiddleware.withJwt jwt_userId
                          AuthRouter.jwtPayload].
  rewrite (truthy_nonempty _ Hid), Huser.
  split; [reflexivity|]. simpl. split; [done|]. split; [|done].
  unfold AuthRouter.loginRole, or_else.
  destruct (truthy (publicMetadata_role clerkUser)) as [role|] eqn:Erole;
    simpl; done.
Qed.

(** X22 on a login as teacher followed by GET /me. *)
Lemma me_agrees_with_login_witness :
  let clerkUser := Sample.clerkUser "u9" (Some "teacher") in
  let payload := AuthRouter.jwtPayload clerkUser "u9@demo.com" in
  ∃ data,
    AuthMe.me (λ id, AuthRouter.ClerkOk clerkUser)
      (JwtMiddleware.withJwt (Sample.request (Some "Bearer token")) payload)
    = Success data ∧
    AuthMe.me_role data = "teacher".
Proof.
  intros clerkUser payload.
  assert (∃ user,
            AuthRouter.login (λ _, AuthRouter.ClerkOk [clerkUser])
              (λ _ _, true) (λ _, "token")
              (Some "u9@demo.com") (Some "secret")
            = Success ("token", user) ∧
            AuthRouter.login_role user = "teacher") as (user & Hlogin & Hrole)
    by (eexists; split; vm_compute; reflexivity).
  destruct (me_agrees_with_login
              (λ _, AuthRouter.ClerkOk [clerkUser]) (λ _ _, true)
              (λ _, "token") (λ _, Some payload) (λ _, None)
              (λ id, AuthRouter.ClerkOk clerkUser)
              (Some "u9@demo.com") (Some "secret") "u9@demo.com" "token"
              user clerkUser [] (Sample.request (Some "Bearer token"))
              eq_refl eq_refl Hlogin eq_refl eq_refl
              ltac:(discriminate) eq_refl)
    as (req' & data & Hauth & Hme & _ & Hsame & _).
  exists data. injection Hauth as <-.
  split; [exact Hme|]. by rewrite Hsame.
Defined.

(** ** Notifications *)

Section NotificationFacts.
Import Notifications.

Lemma holds_markAsRead (c : Clause) (now : Z) (n : Notification) :
  holds c (markAsRead now n) ↔ holds c n.
Proof. by destruct c. Qed.

Lemma anyOf_markAsRead (clauses : list Clause) (now : Z)
    (n : Notification) :
  anyOf clauses (markAsRead now n) ↔ anyOf clauses n.
Proof.
  unfold anyOf. rewrite !Exists_exists.
  split; intros (c & Hc & Hh); exists c; split; try done;
    by apply (holds_markAsRead c now n).
Qed.

Lemma updateMany_nothing (selects : Notification → Prop)
    `{∀ n, Decision (selects n)} (now : Z) (table : list Notification) :
  (∀ n, n ∈ table → ¬ selects n) →
  updateMany selects now table = (table, 0%nat).
Proof.
  intros Hnone. unfold updateMany. f_equal.
  - induction table as [|n table IH]; [done|].
    rewrite fmap_cons. case_decide as Hsel.
    + destruct (Hnone n); [left | done].
    + f_equal. apply IH. intros m Hm. apply Hnone. by right.
  - induction table as [|n table IH]; [done|].
    rewrite filter_cons. case_decide as Hsel.
    + destruct (Hnone n); [left | done].
    + apply IH. intros m Hm. apply Hnone. by right.
Qed.


End NotificationFacts.



(** X24: after PATCH /read-all every notification addressed to the caller
    is read; a second PATCH /read-all marks nothing and leaves the table as
    it is; and for every role but student (whose unread count also covers
    the notifications of the class) GET /unread-count is then 0. *)
Theorem read_all_effect (db : Db) (table : list Notifications.Notification)
    (userRole : option string) (pid roll : string) (now later : Z) :
  let table' := (Notifications.readAll db table userRole pid now).1 in
  (∀ n, n ∈ table' →
        Notifications.anyOf (Notifications.markClauses db userRole pid) n →
        Notifications.isRead n = true) ∧
  Notifications.readAll db table' userRole pid later = (table', 0%nat) ∧
  (userRole ≠ Some "student" →
   Notifications.unreadCount db table' userRole pid roll = 0%nat).
Proof.
  intros table'.
  assert (∀ n, n ∈ table' →
            Notifications.anyOf (Notifications.markClauses db userRole pid) n →
            Notifications.isRead n = true) as Hread.
  { intros n' Hn' Hany. subst table'.
    unfold Notifications.readAll, Notifications.updateMany in Hn'.
    simpl in Hn'. apply list_elem_of_fmap in Hn' as (n & -> & Hn).
    case_decide as Hsel; [done|].
    destruct (Notifications.isRead n) eqn:Eread; [done|].
    destruct Hsel. done. }
  split; [exact Hread|]. split.
  - unfold Notifications.readAll at 1. apply updateMany_nothing.
    intros n Hn [Hany Hunread]. by rewrite (Hread n Hn Hany) in Hunread.
  - intros Hrole. unfold Notifications.unreadCount, Notifications.listClauses.
    case_decide; [done|].
    destruct (filter _ table') as [|n rest] eqn:E; [done|].
    assert (n ∈ filter
              (λ n, Notifications.anyOf
                      (Notifications.markClauses db userRole pid) n ∧
                    Notifications.isRead n = false) table') as Hn
      by (rewrite E; left).
    apply list_elem_of_filter in Hn as [[Hany Hunread] Hn].
    by rewrite (Hread n Hn Hany) in Hunread.
Qed.

(** X25: what a caller may mark as read is among what the caller is
    shown: a notification matched by the filters of the two PATCH routes is
    matched by the filters of GET / and GET /unread-count; and a caller
    whose role is none of the five names is shown nothing and can mark
    nothing. *)
Theorem markable_is_visible (db : Db) (userRole : option string)
    (pid roll : string) :
  (∀ n, Notifications.anyOf (Notifications.markClauses db userRole pid) n →
        Notifications.anyOf
          (Notifications.listClauses db userRole pid roll) n) ∧
  ((∀ role, role ∈ roleNames → userRole ≠ Some role) →
   ∀ table id now,
     Notifications.unreadCount db table userRole pid roll = 0%nat ∧
     Notifications.markRead db table userRole pid id now
       = (table, Failure 404 "Notification not found or access denied")).
Proof.
  split.
  - intros n. unfold Notifications.listClauses.
    case_decide as Hrole; [|done].
    unfold Notifications.markClauses. rewrite decide_True by done.
    unfold Notifications.anyOf. rewrite Exists_app. by left.
  - intros Hnone table id now.
    assert (Notifications.markClauses db userRole pid = []) as Hmark.
    { unfold Notifications.markClauses.
      repeat case_decide; try done;
        exfalso; eapply Hnone; try eassumption; set_solver. }
    assert (Notifications.listClauses db userRole pid roll = []) as Hlist.
    { unfold Notifications.listClauses. case_decide; [|done].
      exfalso. eapply (Hnone "student"); [set_solver | done]. }
    split.
    + unfold Notifications.unreadCount. rewrite Hlist.
      destruct (filter _ table) as [|n rest] eqn:E; [done|].
      assert (n ∈ filter
                (λ n, Notifications.anyOf [] n ∧
                      Notifications.isRead n = false) table) as Hn
        by (rewrite E; left).
      apply list_elem_of_filter in Hn as [[Hany _] _].
      by apply Exists_nil in Hany.
    + unfold Notifications.markRead. cbv zeta. rewrite Hmark.
      rewrite updateMany_nothing; [done|].
      intros n _ [_ Hany]. by apply Exists_nil in Hany.
Qed.

(** X25 on the sample notes: the note of class 9A is shown to [s1] but is
    not among the notes [s1] can mark; a caller with an unknown role sees
    nothing. *)
Lemma markable_is_visible_witness :
  Notifications.unreadCount Sample.db Sample3.notes (Some "student") "s1"
    "STU1" = 3%nat ∧
  (Notifications.markRead Sample.db Sample3.notes (Some "student") "s1"
     "n3" 42).2
  = Failure 404 "Notification not found or access denied" ∧
  Notifications.unreadCount Sample.db Sample3.notes (Some "janitor") "j1"
    "J1" = 0%nat.
Proof.
  split; [vm_compute; reflexivity|]. split; [vm_compute; reflexivity|].
  destruct (markable_is_visible Sample.db (Some "janitor") "j1" "J1")
    as [_ Hnothing].
  apply (Hnothing ltac:(intros role Hrole [= <-]; revert Hrole;
                         by_computation) Sample3.notes "n1" 0).
Defined.

(** X24 on the sample notes: after teacher [t1] has read all, the unread
    count of [t1] is 0. *)
Lemma read_all_effect_witness :
  Notifications.unreadCount Sample.db
    (Notifications.readAll Sample.db Sample3.notes (Some "teacher") "t1"
       42).1 (Some "teacher") "t1" "T1" = 0%nat ∧
  Notifications.unreadCount Sample.db Sample3.notes (Some "teacher") "t1"
    "T1" = 1%nat.
Proof.
  split; [|vm_compute; reflexivity].
  apply (read_all_effect Sample.db Sample3.notes (Some "teacher") "t1" "T1"
           42 43). discriminate.
Defined.

(** ** The caller's fees and the upcoming exams *)

Lemma feeStats_partition (rows : list (Z * Fee)) :
  let stats := StudentsRouter.feeStats rows in
  StudentsRouter.stats_total stats =
  (StudentsRouter.stats_paid stats + StudentsRouter.stats_unpaid stats +
   StudentsRouter.stats_partial stats +
   StudentsRouter.stats_overdue stats)%nat.
Proof.
  simpl. induction rows as [|[k f] rows IH]; [done|].
  rewrite !filter_cons. simpl. rewrite IH.
  destruct (status f); repeat case_decide; simpl; try done; lia.
Qed.

(** X26: GET /fees of the students router returns fees of the caller
    only, and its statistics add up: the total is the sum of the paid,
    unpaid, partial and overdue counts. With a [status] parameter naming a
    fee status only fees of that status are returned; a parameter naming no
    status is answered 500. *)
Theorem student_fees_stats (db : Db) (pid : string)
    (statusParam : option string) :
  (∀ rows stats,
     StudentsRouter.getFees db pid statusParam = Success (rows, stats) →
     stats = StudentsRouter.feeStats rows ∧
     StudentsRouter.stats_total stats =
       (StudentsRouter.stats_paid stats + StudentsRouter.stats_unpaid stats +
        StudentsRouter.stats_partial stats +
        StudentsRouter.stats_overdue stats)%nat ∧
     ∀ feeId fee, (feeId, fee) ∈ rows →
       fees db !! feeId = Some fee ∧ fee_studentId fee = pid ∧
       ∀ name st, truthy statusParam = Some name →
                  StudentsRouter.parseStatus name = Some st →
                  status fee = st) ∧
  (∀ name, truthy statusParam = Some name →
           StudentsRouter.parseStatus name = None →
           StudentsRouter.getFees db pid statusParam
             = Failure 500 "Failed to get fee records").
Proof.
  unfold StudentsRouter.getFees. cbv zeta. split.
  - intros rows stats Hget.
    destruct (truthy statusParam) as [name|].
    + destruct (StudentsRouter.parseStatus name) as [st|] eqn:Eparse;
        [|done].
      injection Hget as <- <-. split; [done|].
      split; [apply feeStats_partition|].
      intros feeId fee Hin.
      apply list_elem_of_filter in Hin as [Hst Hin].
      apply list_elem_of_filter in Hin as [Hown Hin].
      apply elem_of_map_to_list in Hin.
      split; [done|]. split; [done|].
      intros name' st' [= <-] Hparse. rewrite Eparse in Hparse.
      by injection Hparse as <-.
    + injection Hget as <- <-. split; [done|].
      split; [apply feeStats_partition|].
      intros feeId fee Hin.
      apply list_elem_of_filter in Hin as [Hown Hin].
      apply elem_of_map_to_list in Hin.
      split; [done|]. split; [done|]. intros; discriminate.
  - intros name -> ->. done.
Qed.

(** X26 at the sample school: [s1] has one fee, which is unpaid. *)
Lemma student_fees_stats_witness :
  ∃ stats,
    StudentsRouter.getFees Sample.db "s1" (Some "UNPAID")
      = Success ([(1, Sample.fee1)], stats) ∧
    StudentsRouter.stats_total stats = 1%nat ∧
    StudentsRouter.getFees Sample.db "s1" (Some "unpaid")
      = Failure 500 "Failed to get fee records".
Proof.
  destruct (student_fees_stats Sample.db "s1" (Some "UNPAID"))
    as [Hrows _].
  destruct (student_fees_stats Sample.db "s1" (Some "unpaid"))
    as [_ Hbad].
  eexists. split; [vm_compute; reflexivity|].
  split; [reflexivity|].
  apply (Hbad "unpaid"); reflexivity.
Defined.

(** X27: GET /upcoming never returns an exam that has started; a caller
    whose computed class list is empty (a student without current
    enrollment, a parent without enrolled children, an unknown role) gets
    no exam whatever [classId] is passed; and without a [classId]
    parameter the exams returned are exactly the exams to come of the
    computed classes. *)
Theorem upcoming_exams (db : Db) (exams : list ExamsUpcoming.Exam)
    (userRole : option string) (pid roll : string) (classId : option Z)
    (now : Z) :
  let target := ExamsUpcoming.targetClassIds db userRole pid roll classId in
  (∀ x, x ∈ rowsOf (ExamsUpcoming.upcoming db exams userRole pid roll
                      classId now) →
        x ∈ exams ∧ now ≤ ExamsUpcoming.startTime x) ∧
  (target = [] →
   ExamsUpcoming.upcoming db exams userRole pid roll classId now
     = Success []) ∧
  (classId = None →
   ∀ x, x ∈ rowsOf (ExamsUpcoming.upcoming db exams userRole pid roll
                      classId now) ↔
        x ∈ exams ∧ ExamsUpcoming.exam_classId x ∈ target ∧
        now ≤ ExamsUpcoming.startTime x).
Proof.
  intros target. unfold ExamsUpcoming.upcoming. cbv zeta. fold target.
  split; [|split].
  - intros x. case_decide; simpl.
    + intros Hx. by apply elem_of_nil in Hx.
    + intros Hx. apply list_elem_of_filter in Hx as [[_ ?] ?]. done.
  - intros ->. done.
  - intros -> x. case_decide as Hlen; simpl.
    + apply nil_length_inv in Hlen. rewrite Hlen. split.
      * intros Hx. by apply elem_of_nil in Hx.
      * intros (_ & Hx & _). by apply elem_of_nil in Hx.
    + rewrite list_elem_of_filter. tauto.
Qed.

(** X27 at the sample school: [s4] has no enrollment and gets no exam,
    also when asking for class 9A. *)
Lemma upcoming_exams_witness :
  ExamsUpcoming.upcoming Sample.db
    [ {| ExamsUpcoming.exam_id := 1; ExamsUpcoming.exam_classId := 1;
         ExamsUpcoming.startTime := 10 |} ]
    (Some "student") "s4" "STU4" (Some 1) 0 = Success [].
Proof.
  apply upcoming_exams. reflexivity.
Defined.

(** X28: GET /children/attendance answers a parent without children with
    an empty list whatever [childId] is, never returns more than [limit]
    rows, and, when no [childId] is passed or the one passed is a child of
    the caller, returns rows of the caller's children only. *)
Theorem children_attendance_rows (db : Db) (pid : string)
    (childId : option string) (limit : nat) :
  let rows := rowsOf (ParentsRouter.childrenAttendance db pid childId limit) in
  (children db pid = [] → rows = []) ∧
  (length rows ≤ limit)%nat ∧
  (truthy childId = None ∨
   (∃ c, truthy childId = Some c ∧ c ∈ childrenIds db pid) →
   ∀ a, a ∈ rows →
        a ∈ attendances db ∧ attendance_studentId a ∈ childrenIds db pid).
Proof.
  intros rows. subst rows.
  unfold ParentsRouter.childrenAttendance,
    ParentsRouter.childrenAttendanceFilter. cbv zeta.
  split; [|split].
  - intros ->. done.
  - case_decide; simpl; [lia|]. rewrite length_take. lia.
  - intros Hchild a. case_decide; simpl.
    { intros Ha. by apply elem_of_nil in Ha. }
    intros Ha. apply elem_of_take in Ha as (i & Ha & _).
    apply list_elem_of_lookup_2 in Ha.
    apply list_elem_of_filter in Ha as [Hin Ha]. split; [done|].
    destruct Hchild as [Hnone | (c & Hc & Hmine)].
    + by rewrite Hnone in Hin.
    + rewrite Hc in Hin. apply list_elem_of_singleton in Hin. by subst.
Qed.

(** X28 at the sample school: [p1] lists the attendance of the children
    [s1] and [s2]. *)
Lemma children_attendance_rows_witness :
  Forall (λ a, attendance_studentId a ∈ childrenIds Sample.db "p1")
    (rowsOf (ParentsRouter.childrenAttendance Sample.db "p1" None 50)).
Proof.
  apply Forall_forall. intros a Ha.
  destruct (children_attendance_rows Sample.db "p1" None 50)
    as (_ & _ & Hmine).
  apply (Hmine (or_introl eq_refl) a Ha).
Defined.

(** X29: notification ids being unique, marking as read an unread
    notification addressed to the caller lowers the caller's unread count
    by exactly one. *)
Theorem mark_read_lowers_unread_count (db : Db)
    (table : list Notifications.Notification)
    (userRole : option string) (pid roll : string) (now : Z)
    (n0 : Notifications.Notification) :
  NoDup (Notifications.notification_id <$> table) →
  n0 ∈ table →
  Notifications.anyOf (Notifications.markClauses db userRole pid) n0 →
  Notifications.isRead n0 = false →
  let table' :=
    (Notifications.markRead db table userRole pid
       (Notifications.notification_id n0) now).1 in
  (Notifications.unreadCount db table' userRole pid roll + 1)%nat
    = Notifications.unreadCount db table userRole pid roll.
Proof.
  intros Hnodup Hn0 Hmark Hunread table'.
  assert (Notifications.anyOf
            (Notifications.listClauses db userRole pid roll) n0) as Hlist.
  { unfold Notifications.listClauses. case_decide as Hrole; [|done].
    revert Hmark. unfold Notifications.markClauses.
    rewrite decide_True by done.
    unfold Notifications.anyOf. rewrite Exists_app. by left. }
  assert (table' =
          (λ n, if decide (Notifications.notification_id n
                           = Notifications.notification_id n0 ∧
                           Notifications.anyOf
                             (Notifications.markClauses db userRole pid) n)
                then Notifications.markAsRead now n else n) <$> table)
    as ->.
  { subst table'. unfold Notifications.markRead. cbv zeta.
    by case_decide. }
  unfold Notifications.unreadCount.
  induction table as [|n table IH]; [by apply elem_of_nil in Hn0|].
  rewrite fmap_cons in Hnodup. apply NoDup_cons in Hnodup as [Hfresh Hnodup].
  rewrite fmap_cons, !filter_cons.
  apply elem_of_cons in Hn0 as [<- | Hn0].
  - destruct (decide (Notifications.notification_id n0
                      = Notifications.notification_id n0 ∧
                      Notifications.anyOf
                        (Notifications.markClauses db userRole pid) n0))
      as [_|Hno]; [|by destruct Hno].
    destruct (decide (Notifications.anyOf
                        (Notifications.listClauses db userRole pid roll)
                        (Notifications.markAsRead now n0) ∧
                      Notifications.isRead (Notifications.markAsRead now n0)
                        = false)) as [[_ Hr]|_]; [discriminate Hr|].
    destruct (decide (Notifications.anyOf
                        (Notifications.listClauses db userRole pid roll) n0 ∧
                      Notifications.isRead n0 = false))
      as [_|Hno]; [|by destruct Hno].
    simpl.
    assert ((λ n, if decide (Notifications.notification_id n
                             = Notifications.notification_id n0 ∧
                             Notifications.anyOf
                               (Notifications.markClauses db userRole pid) n)
                  then Notifications.markAsRead now n else n) <$> table
            = table) as ->; [|lia].
    transitivity (id <$> table); [|apply list_fmap_id].
    apply list_fmap_ext. intros i m Hm. simpl.
    case_decide as Hsel; [|done]. destruct Hsel as [Hid _].
    destruct Hfresh. rewrite <- Hid. apply list_elem_of_fmap.
    exists m. split; [done|]. by eapply list_elem_of_lookup_2.
  - assert (Notifications.notification_id n
            ≠ Notifications.notification_id n0) as Hne.
    { intros Hid. destruct Hfresh. rewrite Hid.
      apply list_elem_of_fmap. eauto. }
    destruct (decide (Notifications.notification_id n
                      = Notifications.notification_id n0 ∧
                      Notifications.anyOf
                        (Notifications.markClauses db userRole pid) n))
      as [[Hid _]|_]; [done|].
    specialize (IH Hnodup Hn0).
    case_decide; simpl; lia.
Qed.

(** X29 on the sample notes: teacher [t1] has one unread note, and none
    after marking it. *)
Lemma mark_read_lowers_unread_count_witness :
  Notifications.unreadCount Sample.db
    (Notifications.markRead Sample.db Sample3.notes (Some "teacher") "t1"
       "n4" 42).1 (Some "teacher") "t1" "T1" = 0%nat.
Proof.
  pose proof (mark_read_lowers_unread_count Sample.db Sample3.notes
                (Some "teacher") "t1" "T1" 42
                (Sample3.note "n4" None (Some "t1") None None false))
    as Hone.
  simpl in Hone.
  assert (Notifications.unreadCount Sample.db Sample3.notes (Some "teacher")
            "t1" "T1" = 1%nat) as Hbefore by (vm_compute; reflexivity).
  rewrite Hbefore in Hone.
  assert (∀ k : nat, (k + 1 = 1)%nat → k = 0%nat) as Hzero by (intros; lia).
  apply Hzero, Hone.
  - by_computation.
  - unfold Sample3.notes. do 3 right. left.
  - apply Exists_cons. left. reflexivity.
  - reflexivity.
Defined.
